(** * SQL/JSON path executor (src/backend/utils/adt/jsonpath_exec.c)

    A shallow embedding of the jsonpath executor: the recursive walker over
    path items, the tri-valued predicate evaluation, the comparison kernel
    with its cross-type datetime ladder, the [.keyvalue()] identifier scheme,
    the user-level entry points and the JSON_TABLE plan-state machine.

    Conventions of the embedding.
    - C integers are [Z]; where the source relies on a fixed width the
      wrap-around is written out ([int32_wrap], [int64_wrap], [uint32_wrap]).
    - [ereport(ERROR, ...)] and [elog(ERROR, ...)] abort the evaluation: they
      are the [Raised] outcome, carrying the SQLSTATE condition name.
    - The execution context [JsonPathExecContext] is threaded explicitly:
      a routine that takes [JsonPathExecContext *cxt] is a function in the
      monad [Exec].  A [JsonValueList *found] argument is passed in and
      returned; [None] is the NULL pointer.
    - The routines of the host database that the file calls but does not
      define (numeric arithmetic, datetime comparison, text encoding, regex,
      scalar conversions, allocation) are the fields of [HostOps]. *)

From Stdlib Require Import ZArith List String Bool Lia.
Import ListNotations.

Set Implicit Arguments.
#[local] Set Warnings "-register-all".
#[local] Open Scope string_scope.
#[local] Open Scope list_scope.
#[local] Open Scope Z_scope.

(** ** Fixed-width integers *)

Definition int32_wrap (x : Z) : Z := (x + 2 ^ 31) mod 2 ^ 32 - 2 ^ 31.
Definition int64_wrap (x : Z) : Z := (x + 2 ^ 63) mod 2 ^ 64 - 2 ^ 63.
Definition uint32_wrap (x : Z) : Z := x mod 2 ^ 32.
Definition PG_UINT32_MAX : Z := 2 ^ 32 - 1.

(** ** Error conditions

    The SQLSTATE conditions the file reports; [ERRCODE_INTERNAL_ERROR] is what
    [elog(ERROR, ...)] reports. *)

Inductive ErrCode : Type :=
| ERRCODE_FEATURE_NOT_SUPPORTED
| ERRCODE_INVALID_ARGUMENT_FOR_SQL_JSON_DATETIME_FUNCTION
| ERRCODE_INVALID_PARAMETER_VALUE
| ERRCODE_INVALID_SQL_JSON_SUBSCRIPT
| ERRCODE_MORE_THAN_ONE_SQL_JSON_ITEM
| ERRCODE_NON_NUMERIC_SQL_JSON_ITEM
| ERRCODE_SINGLETON_SQL_JSON_ITEM_REQUIRED
| ERRCODE_SQL_JSON_ARRAY_NOT_FOUND
| ERRCODE_SQL_JSON_MEMBER_NOT_FOUND
| ERRCODE_SQL_JSON_NUMBER_NOT_FOUND
| ERRCODE_SQL_JSON_OBJECT_NOT_FOUND
| ERRCODE_SQL_JSON_SCALAR_REQUIRED
| ERRCODE_UNDEFINED_OBJECT
| ERRCODE_INTERNAL_ERROR
| ERRCODE_HOST (sqlstate : Z).

(** The result of a call that may be aborted by [ereport(ERROR)]. *)
Inductive Outcome (A : Type) : Type :=
| Done (a : A)
| Raised (e : ErrCode).

Arguments Done {A} a.
Arguments Raised {A} e.

Definition obind {A B : Type} (m : Outcome A) (k : A -> Outcome B) : Outcome B :=
  match m with
  | Done a => k a
  | Raised e => Raised e
  end.

(** ** Enumerations of the source *)

(** [enum JsonPathBool]: result of jsonpath predicate evaluation. *)
Inductive JsonPathBool : Type := jpbFalse | jpbTrue | jpbUnknown.

(** [enum JsonPathExecResult]: result of jsonpath expression evaluation. *)
Inductive JsonPathExecResult : Type := jperOk | jperNotFound | jperError.

Definition jperIsError (jper : JsonPathExecResult) : bool :=
  match jper with jperError => true | _ => false end.

Definition JsonPathBool_eqb (a b : JsonPathBool) : bool :=
  match a, b with
  | jpbFalse, jpbFalse | jpbTrue, jpbTrue | jpbUnknown, jpbUnknown => true
  | _, _ => false
  end.

Definition JsonPathExecResult_eqb (a b : JsonPathExecResult) : bool :=
  match a, b with
  | jperOk, jperOk | jperNotFound, jperNotFound | jperError, jperError => true
  | _, _ => false
  end.

(** [enum jbvType]: the type tag of a [JsonbValue], also what [JsonbType]
    answers for a binary container. *)
Inductive jbvType : Type :=
| jbvNull | jbvString | jbvNumeric | jbvBool
| jbvArray | jbvObject | jbvBinary | jbvDatetime.

Definition jbvType_eqb (a b : jbvType) : bool :=
  match a, b with
  | jbvNull, jbvNull | jbvString, jbvString | jbvNumeric, jbvNumeric
  | jbvBool, jbvBool | jbvArray, jbvArray | jbvObject, jbvObject
  | jbvBinary, jbvBinary | jbvDatetime, jbvDatetime => true
  | _, _ => false
  end.

(** The type oids a datetime item carries ([val.datetime.typid]).  Items are
    built by [JsonItemFromDatum] and the datetime methods with these five
    oids only; the [default: elog(ERROR)] arms of the switches over them are
    therefore not represented. *)
Inductive Oid : Type :=
| DATEOID | TIMEOID | TIMETZOID | TIMESTAMPOID | TIMESTAMPTZOID.

(** [enum JsonPathItemType] (utils/jsonpath.h). *)
Inductive JsonPathItemType : Type :=
| jpiNull | jpiString | jpiNumeric | jpiBool
| jpiAnd | jpiOr | jpiNot | jpiIsUnknown
| jpiEqual | jpiNotEqual | jpiLess | jpiGreater
| jpiLessOrEqual | jpiGreaterOrEqual
| jpiAdd | jpiSub | jpiMul | jpiDiv | jpiMod
| jpiPlus | jpiMinus
| jpiAnyArray | jpiAnyKey | jpiIndexArray | jpiAny | jpiKey
| jpiCurrent | jpiRoot | jpiVariable | jpiFilter | jpiExists
| jpiType | jpiSize | jpiAbs | jpiCeiling | jpiDouble | jpiFloor
| jpiKeyValue | jpiSubscript | jpiLast | jpiStartsWith | jpiLikeRegex
| jpiBigint | jpiBoolean | jpiDate | jpiDatetime | jpiDecimal
| jpiInteger | jpiNumber | jpiStringFunc
| jpiTime | jpiTimeTz | jpiTimestamp | jpiTimestampTz.

(** Database encodings that [compareStrings] tells apart. *)
Inductive pg_enc : Type := PG_SQL_ASCII | PG_UTF8 | PG_OTHER_ENCODING.

(** ** Host types *)

(** [Numeric] is the host's arbitrary-precision decimal, [Datum] its opaque
    value word. *)
Class HostTypes : Type := {
  Numeric : Type;
  Datum : Type
}.

Section Values.

Context {HT : HostTypes}.

(** ** JSON values

    [JsonbValue] with the tags the executor meets: scalars, datetime items
    and [jbvBinary], a pointer to a container inside a compiled document.
    In-memory [jbvArray]/[jbvObject] values never reach the executor (it
    asserts so) and are left out.  A container records its header kind, the
    address of its first byte, the keys (objects only) and the child values
    in stored order. *)

Inductive JsonbContainerKind : Type := JB_FOBJECT | JB_FARRAY | JB_FSCALAR.

Inductive JsonbValue : Type :=
| JsonbNull
| JsonbString (val : string)
| JsonbNumeric (numeric : Numeric)
| JsonbBool (boolean : bool)
| JsonbDatetime (value : Datum) (typid : Oid) (typmod : Z) (tz : Z)
| JsonbBinary (data : JsonbContainer)
with JsonbContainer : Type :=
| JsonbContainerC (header : JsonbContainerKind) (addr : Z)
                  (keys : list string) (children : list JsonbValue).

(** A compiled document: its root container ([JB_FSCALAR] when the document
    is a bare scalar, stored as a one-element pseudo array). *)
Record Jsonb : Type := { root : JsonbContainer }.

Definition jbv_type (jb : JsonbValue) : jbvType :=
  match jb with
  | JsonbNull => jbvNull
  | JsonbString _ => jbvString
  | JsonbNumeric _ => jbvNumeric
  | JsonbBool _ => jbvBool
  | JsonbDatetime _ _ _ _ => jbvDatetime
  | JsonbBinary _ => jbvBinary
  end.

Definition container_header (jbc : JsonbContainer) : JsonbContainerKind :=
  match jbc with JsonbContainerC h _ _ _ => h end.
Definition container_addr (jbc : JsonbContainer) : Z :=
  match jbc with JsonbContainerC _ a _ _ => a end.
Definition container_keys (jbc : JsonbContainer) : list string :=
  match jbc with JsonbContainerC _ _ ks _ => ks end.
Definition container_children (jbc : JsonbContainer) : list JsonbValue :=
  match jbc with JsonbContainerC _ _ _ vs => vs end.

Definition JsonContainerIsObject (jbc : JsonbContainer) : bool :=
  match container_header jbc with JB_FOBJECT => true | _ => false end.
Definition JsonContainerIsArray (jbc : JsonbContainer) : bool :=
  match container_header jbc with JB_FOBJECT => false | _ => true end.
Definition JsonContainerIsScalar (jbc : JsonbContainer) : bool :=
  match container_header jbc with JB_FSCALAR => true | _ => false end.
Definition JsonContainerSize (jbc : JsonbContainer) : Z :=
  Z.of_nat (List.length (container_children jbc)).

(** [JsonbExtractScalar]: the scalar of a scalar pseudo array, if it is one. *)
Definition JsonbExtractScalar (jbc : JsonbContainer) : option JsonbValue :=
  if JsonContainerIsScalar jbc then
    match container_children jbc with
    | v :: _ => Some v
    | [] => None
    end
  else None.

(** [findJsonbValueFromContainer(jbc, JB_FOBJECT, key)]. *)
Fixpoint find_pair (key : string) (ks : list string) (vs : list JsonbValue)
  : option JsonbValue :=
  match ks, vs with
  | k :: ks', v :: vs' => if String.eqb k key then Some v else find_pair key ks' vs'
  | _, _ => None
  end.

Definition findJsonbValueFromContainer (jbc : JsonbContainer) (key : string)
  : option JsonbValue :=
  if JsonContainerIsObject jbc
  then find_pair key (container_keys jbc) (container_children jbc)
  else None.

(** [getIthJsonbValueFromContainer]: NULL unless an array with more than [i]
    elements. *)
Definition getIthJsonbValueFromContainer (jbc : JsonbContainer) (i : Z)
  : option JsonbValue :=
  if JsonContainerIsArray jbc && (0 <=? i)
  then nth_error (container_children jbc) (Z.to_nat i)
  else None.

(** [JsonbInitBinary]. *)
Definition JsonbInitBinary (jb : Jsonb) : JsonbValue := JsonbBinary (root jb).

(** [JsonbType]: the type of an item, never [jbvBinary] as is. *)
Definition JsonbType (jb : JsonbValue) : jbvType :=
  match jb with
  | JsonbBinary jbc =>
      if JsonContainerIsObject jbc then jbvObject else jbvArray
  | _ => jbv_type jb
  end.

(** [getScalar]: the scalar of the given type, or NULL on type mismatch. *)
Definition getScalar (scalar : JsonbValue) (type : jbvType) : option JsonbValue :=
  if jbvType_eqb (jbv_type scalar) type then Some scalar else None.

(** [JsonbArraySize]: the size of an array item, or -1 if not an array. *)
Definition JsonbArraySize (jb : JsonbValue) : Z :=
  match jb with
  | JsonbBinary jbc =>
      if JsonContainerIsArray jbc && negb (JsonContainerIsScalar jbc)
      then JsonContainerSize jbc
      else -1
  | _ => -1
  end.

(** ** Item sequences: [JsonValueList] with its single-value shortcut *)

Record JsonValueList : Type := {
  jvl_singleton : option JsonbValue;
  jvl_list : list JsonbValue
}.

Record JsonValueListIterator : Type := {
  it_value : option JsonbValue;
  it_list : list JsonbValue;
  it_next : list JsonbValue   (* the cells from [next] on; [] is NULL *)
}.

(** [JsonValueList vals = {0}]. *)
Definition JsonValueListEmpty : JsonValueList :=
  {| jvl_singleton := None; jvl_list := [] |}.

Definition JsonValueListClear (jvl : JsonValueList) : JsonValueList :=
  {| jvl_singleton := None; jvl_list := [] |}.

Definition JsonValueListAppend (jvl : JsonValueList) (jbv : JsonbValue)
  : JsonValueList :=
  match jvl_singleton jvl with
  | Some s => {| jvl_singleton := None; jvl_list := [s; jbv] |}
  | None =>
      match jvl_list jvl with
      | [] => {| jvl_singleton := Some jbv; jvl_list := [] |}
      | l => {| jvl_singleton := None; jvl_list := l ++ [jbv] |}
      end
  end.

Definition JsonValueListLength (jvl : JsonValueList) : Z :=
  match jvl_singleton jvl with
  | Some _ => 1
  | None => Z.of_nat (List.length (jvl_list jvl))
  end.

Definition JsonValueListIsEmpty (jvl : JsonValueList) : bool :=
  match jvl_singleton jvl, jvl_list jvl with
  | None, [] => true
  | _, _ => false
  end.

Definition JsonValueListHead (jvl : JsonValueList) : option JsonbValue :=
  match jvl_singleton jvl with
  | Some s => Some s
  | None => List.hd_error (jvl_list jvl)
  end.

Definition JsonValueListGetList (jvl : JsonValueList) : list JsonbValue :=
  match jvl_singleton jvl with
  | Some s => [s]
  | None => jvl_list jvl
  end.

Definition JsonValueListInitIterator (jvl : JsonValueList) : JsonValueListIterator :=
  match jvl_singleton jvl with
  | Some s => {| it_value := Some s; it_list := []; it_next := [] |}
  | None =>
      match jvl_list jvl with
      | v :: rest => {| it_value := Some v; it_list := jvl_list jvl; it_next := rest |}
      | [] => {| it_value := None; it_list := []; it_next := [] |}
      end
  end.

(** [JsonValueListNext]: the next item of the sequence, advancing the
    iterator. *)
Definition JsonValueListNext (it : JsonValueListIterator)
  : option JsonbValue * JsonValueListIterator :=
  let result := it_value it in
  match it_next it with
  | v :: rest =>
      (result, {| it_value := Some v; it_list := it_list it; it_next := rest |})
  | [] =>
      (result, {| it_value := None; it_list := it_list it; it_next := [] |})
  end.

(** The items a [while ((item = JsonValueListNext(...)))] loop visits, in
    order: the current value, then the cells from [next] on. *)
Definition iterator_items (it : JsonValueListIterator) : list JsonbValue :=
  match it_value it with
  | Some v => v :: it_next it
  | None => []
  end.

Definition JsonValueListItems (jvl : JsonValueList) : list JsonbValue :=
  iterator_items (JsonValueListInitIterator jvl).

(** ** Path items

    [JsonPathItem]: the type tag, the content the tag selects in the source's
    union, and the link to the next item of the chain.  The constructors are
    the shapes of the union: a literal or a name ([content.value]), two
    operands ([content.args]), one operand ([content.arg]), the subscripts of
    an array accessor, the depth bounds of [.**], the parts of [like_regex].
    [jspLeaf] is an item without operand paths: a context item, an accessor
    or an item method with the literal arguments it was written with. *)

Inductive JspValue : Type :=
| JspNone
| JspBool (b : bool)
| JspNumeric (n : Numeric)
| JspString (s : string).

Inductive JsonPathItem : Type :=
| jspValue (type : JsonPathItemType) (value : JspValue)
           (next : option JsonPathItem)
| jspArgs (type : JsonPathItemType) (left right : JsonPathItem)
          (next : option JsonPathItem)
| jspArg (type : JsonPathItemType) (arg : JsonPathItem)
         (next : option JsonPathItem)
| jspLeaf (type : JsonPathItemType) (args : list JspValue)
            (next : option JsonPathItem)
| jspArray (elems : list (JsonPathItem * option JsonPathItem))
           (next : option JsonPathItem)
| jspAnyBounds (first last : Z) (next : option JsonPathItem)
| jspLikeRegex (expr : JsonPathItem) (pattern : string) (flags : Z)
               (next : option JsonPathItem).

Definition jsp_type (jsp : JsonPathItem) : JsonPathItemType :=
  match jsp with
  | jspValue t _ _ | jspArgs t _ _ _ | jspArg t _ _ | jspLeaf t _ _ => t
  | jspArray _ _ => jpiIndexArray
  | jspAnyBounds _ _ _ => jpiAny
  | jspLikeRegex _ _ _ _ => jpiLikeRegex
  end.

Definition jspGetNext (jsp : JsonPathItem) : option JsonPathItem :=
  match jsp with
  | jspValue _ _ n | jspArgs _ _ _ n | jspArg _ _ n | jspLeaf _ _ n
  | jspArray _ n | jspAnyBounds _ _ n | jspLikeRegex _ _ _ n => n
  end.

Definition jspHasNext (jsp : JsonPathItem) : bool :=
  match jspGetNext jsp with Some _ => true | None => false end.

(** A compiled path: the lax flag of its header and its first item. *)
Record JsonPath : Type := {
  header_lax : bool;          (* (path->header & JSONPATH_LAX) != 0 *)
  expr : JsonPathItem
}.

(** ** Execution context *)

(** [JsonBaseObjectInfo]: the base object of [.keyvalue()] and its id; the
    container pointer is its address, 0 for NULL. *)
Record JsonBaseObjectInfo : Type := {
  base_jbc : Z;
  base_id : Z
}.

(** What a [JsonPathGetVarCallback] applied to the caller's [vars] answers
    for a name: NULL, or the value with its base object and base object id. *)
Definition JsonPathGetVar : Type :=
  string -> Outcome (option (JsonbValue * JsonbValue * Z)).

Record JsonPathExecContext : Type := {
  getVar : option JsonPathGetVar;   (* [vars] with [getVar]; None: vars == NULL *)
  cxt_root : JsonbValue;
  current : JsonbValue;
  baseObject : JsonBaseObjectInfo;
  lastGeneratedObjectId : Z;
  innermostArraySize : Z;
  laxMode : bool;
  ignoreStructuralErrors : bool;
  throwErrors : bool;
  useTz : bool
}.

Definition set_current (v : JsonbValue) (c : JsonPathExecContext) :=
  {| getVar := getVar c; cxt_root := cxt_root c; current := v;
     baseObject := baseObject c;
     lastGeneratedObjectId := lastGeneratedObjectId c;
     innermostArraySize := innermostArraySize c; laxMode := laxMode c;
     ignoreStructuralErrors := ignoreStructuralErrors c;
     throwErrors := throwErrors c; useTz := useTz c |}.

Definition set_baseObject (b : JsonBaseObjectInfo) (c : JsonPathExecContext) :=
  {| getVar := getVar c; cxt_root := cxt_root c; current := current c;
     baseObject := b;
     lastGeneratedObjectId := lastGeneratedObjectId c;
     innermostArraySize := innermostArraySize c; laxMode := laxMode c;
     ignoreStructuralErrors := ignoreStructuralErrors c;
     throwErrors := throwErrors c; useTz := useTz c |}.

Definition set_lastGeneratedObjectId (n : Z) (c : JsonPathExecContext) :=
  {| getVar := getVar c; cxt_root := cxt_root c; current := current c;
     baseObject := baseObject c;
     lastGeneratedObjectId := n;
     innermostArraySize := innermostArraySize c; laxMode := laxMode c;
     ignoreStructuralErrors := ignoreStructuralErrors c;
     throwErrors := throwErrors c; useTz := useTz c |}.

Definition set_innermostArraySize (n : Z) (c : JsonPathExecContext) :=
  {| getVar := getVar c; cxt_root := cxt_root c; current := current c;
     baseObject := baseObject c;
     lastGeneratedObjectId := lastGeneratedObjectId c;
     innermostArraySize := n; laxMode := laxMode c;
     ignoreStructuralErrors := ignoreStructuralErrors c;
     throwErrors := throwErrors c; useTz := useTz c |}.

Definition set_ignoreStructuralErrors (b : bool) (c : JsonPathExecContext) :=
  {| getVar := getVar c; cxt_root := cxt_root c; current := current c;
     baseObject := baseObject c;
     lastGeneratedObjectId := lastGeneratedObjectId c;
     innermostArraySize := innermostArraySize c; laxMode := laxMode c;
     ignoreStructuralErrors := b;
     throwErrors := throwErrors c; useTz := useTz c |}.

Definition set_throwErrors (b : bool) (c : JsonPathExecContext) :=
  {| getVar := getVar c; cxt_root := cxt_root c; current := current c;
     baseObject := baseObject c;
     lastGeneratedObjectId := lastGeneratedObjectId c;
     innermostArraySize := innermostArraySize c; laxMode := laxMode c;
     ignoreStructuralErrors := ignoreStructuralErrors c;
     throwErrors := b; useTz := useTz c |}.

(** strict/lax flags decomposed into [un]wrap/error flags. *)
Definition jspStrictAbsenceOfErrors (cxt : JsonPathExecContext) : bool :=
  negb (laxMode cxt).
Definition jspAutoUnwrap (cxt : JsonPathExecContext) : bool := laxMode cxt.
Definition jspAutoWrap (cxt : JsonPathExecContext) : bool := laxMode cxt.
Definition jspIgnoreStructuralErrors (cxt : JsonPathExecContext) : bool :=
  ignoreStructuralErrors cxt.
Definition jspThrowErrors (cxt : JsonPathExecContext) : bool := throwErrors cxt.

(** ** The monad of the executor: context passing with abort *)

Definition Exec (A : Type) : Type :=
  JsonPathExecContext -> Outcome (A * JsonPathExecContext).

Definition ret {A : Type} (a : A) : Exec A := fun cxt => Done (a, cxt).

Definition bind {A B : Type} (m : Exec A) (k : A -> Exec B) : Exec B :=
  fun cxt =>
    match m cxt with
    | Done (a, cxt') => k a cxt'
    | Raised e => Raised e
    end.

Definition ereport {A : Type} (e : ErrCode) : Exec A := fun _ => Raised e.

Definition lift {A : Type} (o : Outcome A) : Exec A :=
  fun cxt =>
    match o with
    | Done a => Done (a, cxt)
    | Raised e => Raised e
    end.

Definition gets {A : Type} (f : JsonPathExecContext -> A) : Exec A :=
  fun cxt => Done (f cxt, cxt).

Definition modify (f : JsonPathExecContext -> JsonPathExecContext) : Exec unit :=
  fun cxt => Done (tt, f cxt).

(** The status and the result list a walker routine hands back. *)
Definition Res : Type := (JsonPathExecResult * option JsonValueList)%type.

(** [RETURN_ERROR(throw_error)]: throw or return [jperError], depending on
    the context. *)
Definition RETURN_ERROR (e : ErrCode) (found : option JsonValueList) : Exec Res :=
  fun cxt =>
    if jspThrowErrors cxt then Raised e else Done ((jperError, found), cxt).

(** What a host conversion behind an item method answers: a value, an error
    the caller may suppress, or an error that is always thrown. *)
Inductive MethodResult : Type :=
| MethodValue (v : JsonbValue)
| MethodError (e : ErrCode)
| MethodFatal (e : ErrCode).

(** A variable of the PASSING clause ([JsonPathVariable]). *)
Record JsonPathVariable : Type := {
  name : string;
  var_typid : Z;
  var_typmod : Z;
  var_value : Datum;
  isnull : bool
}.

End Values.

Declare Scope exec_scope.
Delimit Scope exec_scope with exec.
Notation "x <- m ;; k" := (bind m (fun x => k))
  (at level 100, m at next level, right associativity) : exec_scope.
Notation "' p <- m ;; k" := (bind m (fun p => k))
  (at level 100, p pattern, m at next level, right associativity) : exec_scope.
Notation "m ;;; k" := (bind m (fun _ => k))
  (at level 100, right associativity) : exec_scope.

(** ** Host routines

    The routines the file calls and the host database defines.  A routine
    that raises on its own (a [BinaryArithmFunc] given no error flag, a regex
    that does not compile) answers [Raised]. *)

Class HostOps {HT : HostTypes} : Type := {
  (* utils/numeric.h *)
  numeric_cmp : Numeric -> Numeric -> Z;
  numeric_add_opt_error : Numeric -> Numeric -> Outcome Numeric;
  numeric_sub_opt_error : Numeric -> Numeric -> Outcome Numeric;
  numeric_mul_opt_error : Numeric -> Numeric -> Outcome Numeric;
  numeric_div_opt_error : Numeric -> Numeric -> Outcome Numeric;
  numeric_mod_opt_error : Numeric -> Numeric -> Outcome Numeric;
  numeric_uminus : Numeric -> Numeric;
  numeric_abs : Numeric -> Numeric;
  numeric_floor : Numeric -> Numeric;
  numeric_ceil : Numeric -> Numeric;
  numeric_trunc : Numeric -> Numeric;
  numeric_int4_opt_error : Numeric -> option Z;
  int64_to_numeric : Z -> Numeric;
  (* utils/date.h, utils/timestamp.h *)
  date_cmp : Datum -> Datum -> Z;
  time_cmp : Datum -> Datum -> Z;
  timetz_cmp : Datum -> Datum -> Z;
  timestamp_cmp : Datum -> Datum -> Z;
  date_cmp_timestamp_internal : Datum -> Datum -> Z;
  date_cmp_timestamptz_internal : Datum -> Datum -> Z;
  timestamp_cmp_timestamptz_internal : Datum -> Datum -> Z;
  time_timetz : Datum -> Datum;
  (* mb/pg_wchar.h *)
  GetDatabaseEncoding : pg_enc;
  pg_server_to_any : string -> option string;  (* None: returned as is *)
  (* regex/regex.h *)
  RE_compile_and_execute : string -> Z -> string -> Outcome bool;
  (* utils/jsonb.h *)
  JsonbTypeName : JsonbValue -> string;
  palloc_jsonb : Z -> Z;      (* where the n-th generated object is built *)
  palloc_row : Z -> Z;        (* where the document of the n-th row is built *)
  keyvalue_value_offset : JsonbValue -> JsonbValue -> Z;
  (* the scalar conversions behind the item methods, by item type, literal
     arguments, [useTz] and operand *)
  host_item_method :
    JsonPathItemType -> list JspValue -> bool -> JsonbValue -> MethodResult;
  (* the conversions of [JsonItemFromDatum], by type oid and typmod *)
  host_item_from_datum : Datum -> Z -> Z -> Outcome JsonbValue
}.

Section Walker.

Context {HT : HostTypes} {HO : HostOps}.

#[local] Open Scope exec_scope.

(** ** Comparison kernel *)

(** [memcmp] over the first [n] bytes, as a sign. *)
Fixpoint memcmp (s1 s2 : string) (n : nat) : Z :=
  match n with
  | O => 0
  | S n' =>
      match s1, s2 with
      | String c1 r1, String c2 r2 =>
          match N.compare (Ascii.N_of_ascii c1) (Ascii.N_of_ascii c2) with
          | Lt => -1
          | Gt => 1
          | Eq => memcmp r1 r2 n'
          end
      | _, _ => 0
      end
  end.

(** Perform per-byte comparison of two strings. *)
Definition binaryCompareStrings (s1 s2 : string) : Z :=
  let len1 := String.length s1 in
  let len2 := String.length s2 in
  let cmp := memcmp s1 s2 (Nat.min len1 len2) in
  if negb (cmp =? 0) then cmp
  else if Nat.eqb len1 len2 then 0
  else if Nat.ltb len1 len2 then -1 else 1.

(** Compare two strings in the current server encoding using Unicode
    codepoint collation. *)
Definition compareStrings (mbstr1 mbstr2 : string) : Z :=
  match GetDatabaseEncoding with
  | PG_SQL_ASCII | PG_UTF8 => binaryCompareStrings mbstr1 mbstr2
  | PG_OTHER_ENCODING =>
      let conv1 := pg_server_to_any mbstr1 in
      let conv2 := pg_server_to_any mbstr2 in
      let utf8str1 := match conv1 with Some u => u | None => mbstr1 end in
      let utf8str2 := match conv2 with Some u => u | None => mbstr2 end in
      let cmp := binaryCompareStrings utf8str1 utf8str2 in
      match conv1, conv2 with
      | None, None => cmp
      | _, _ =>
          if cmp =? 0 then binaryCompareStrings mbstr1 mbstr2 else cmp
      end
  end.

(** Compare two numerics. *)
Definition compareNumeric (a b : Numeric) : Z := numeric_cmp a b.

(** Check if the timezone required for casting from type1 to type2 is
    used. *)
Definition checkTimezoneIsUsedForCast (useTz_ : bool) : Outcome unit :=
  if negb useTz_ then Raised ERRCODE_FEATURE_NOT_SUPPORTED else Done tt.

(** Convert time datum to timetz datum. *)
Definition castTimeToTimeTz (time : Datum) (useTz_ : bool) : Outcome Datum :=
  obind (checkTimezoneIsUsedForCast useTz_) (fun _ => Done (time_timetz time)).

(** Compare date to timestamp; no timezone considerations. *)
Definition cmpDateToTimestamp (date1 ts2 : Datum) (useTz_ : bool) : Outcome Z :=
  Done (date_cmp_timestamp_internal date1 ts2).

(** Compare date to timestamptz. *)
Definition cmpDateToTimestampTz (date1 tstz2 : Datum) (useTz_ : bool) : Outcome Z :=
  obind (checkTimezoneIsUsedForCast useTz_)
        (fun _ => Done (date_cmp_timestamptz_internal date1 tstz2)).

(** Compare timestamp to timestamptz. *)
Definition cmpTimestampToTimestampTz (ts1 tstz2 : Datum) (useTz_ : bool)
  : Outcome Z :=
  obind (checkTimezoneIsUsedForCast useTz_)
        (fun _ => Done (timestamp_cmp_timestamptz_internal ts1 tstz2)).

(** Unary minus on a C [int]. *)
Definition int32_neg (x : Z) : Z := int32_wrap (- x).

(** Cross-type comparison of two datetime SQL/JSON items: the comparison
    result and the [*cast_error] flag (set when the items are uncomparable).
    If the cast requires a timezone and it is not used, the error is
    thrown. *)
Definition compareDatetime (val1 : Datum) (typid1 : Oid)
    (val2 : Datum) (typid2 : Oid) (useTz_ : bool) : Outcome (Z * bool) :=
  match typid1 with
  | DATEOID =>
      match typid2 with
      | DATEOID => Done (date_cmp val1 val2, false)
      | TIMESTAMPOID =>
          obind (cmpDateToTimestamp val1 val2 useTz_) (fun c => Done (c, false))
      | TIMESTAMPTZOID =>
          obind (cmpDateToTimestampTz val1 val2 useTz_) (fun c => Done (c, false))
      | TIMEOID | TIMETZOID => Done (0, true)
      end
  | TIMEOID =>
      match typid2 with
      | TIMEOID => Done (time_cmp val1 val2, false)
      | TIMETZOID =>
          obind (castTimeToTimeTz val1 useTz_)
                (fun val1' => Done (timetz_cmp val1' val2, false))
      | DATEOID | TIMESTAMPOID | TIMESTAMPTZOID => Done (0, true)
      end
  | TIMETZOID =>
      match typid2 with
      | TIMEOID =>
          obind (castTimeToTimeTz val2 useTz_)
                (fun val2' => Done (timetz_cmp val1 val2', false))
      | TIMETZOID => Done (timetz_cmp val1 val2, false)
      | DATEOID | TIMESTAMPOID | TIMESTAMPTZOID => Done (0, true)
      end
  | TIMESTAMPOID =>
      match typid2 with
      | DATEOID =>
          obind (cmpDateToTimestamp val2 val1 useTz_)
                (fun c => Done (int32_neg c, false))
      | TIMESTAMPOID => Done (timestamp_cmp val1 val2, false)
      | TIMESTAMPTZOID =>
          obind (cmpTimestampToTimestampTz val1 val2 useTz_)
                (fun c => Done (c, false))
      | TIMEOID | TIMETZOID => Done (0, true)
      end
  | TIMESTAMPTZOID =>
      match typid2 with
      | DATEOID =>
          obind (cmpDateToTimestampTz val2 val1 useTz_)
                (fun c => Done (int32_neg c, false))
      | TIMESTAMPOID =>
          obind (cmpTimestampToTimestampTz val2 val1 useTz_)
                (fun c => Done (int32_neg c, false))
      | TIMESTAMPTZOID => Done (timestamp_cmp val1 val2, false)
      | TIMEOID | TIMETZOID => Done (0, true)
      end
  end.

(** The final [switch (op)] of [compareItems]. *)
Definition compare_result (op : JsonPathItemType) (cmp : Z) : Outcome JsonPathBool :=
  let answer (res : bool) := Done (if res then jpbTrue else jpbFalse) in
  match op with
  | jpiEqual => answer (cmp =? 0)
  | jpiNotEqual => answer (negb (cmp =? 0))
  | jpiLess => answer (cmp <? 0)
  | jpiGreater => answer (cmp >? 0)
  | jpiLessOrEqual => answer (cmp <=? 0)
  | jpiGreaterOrEqual => answer (cmp >=? 0)
  | _ => Raised ERRCODE_INTERNAL_ERROR
  end.

(** Compare two SQL/JSON items using comparison operation [op]. *)
Definition compareItems (op : JsonPathItemType) (jb1 jb2 : JsonbValue)
    (useTz_ : bool) : Outcome JsonPathBool :=
  if negb (jbvType_eqb (jbv_type jb1) (jbv_type jb2)) then
    if jbvType_eqb (jbv_type jb1) jbvNull || jbvType_eqb (jbv_type jb2) jbvNull
    then
      (* Equality and order comparison of nulls to non-nulls returns always
         false, but inequality comparison returns true. *)
      Done (match op with jpiNotEqual => jpbTrue | _ => jpbFalse end)
    else
      (* Non-null items of different types are not comparable. *)
      Done jpbUnknown
  else
    match jb1, jb2 with
    | JsonbNull, _ => compare_result op 0
    | JsonbBool b1, JsonbBool b2 =>
        compare_result op (if Bool.eqb b1 b2 then 0 else if b1 then 1 else -1)
    | JsonbNumeric n1, JsonbNumeric n2 =>
        compare_result op (compareNumeric n1 n2)
    | JsonbString s1, JsonbString s2 =>
        match op with
        | jpiEqual =>
            Done (if negb (Nat.eqb (String.length s1) (String.length s2))
                     || negb (memcmp s1 s2 (String.length s1) =? 0)
                  then jpbFalse else jpbTrue)
        | _ => compare_result op (compareStrings s1 s2)
        end
    | JsonbDatetime v1 t1 _ _, JsonbDatetime v2 t2 _ _ =>
        obind (compareDatetime v1 t1 v2 t2 useTz_)
              (fun '(cmp, cast_error) =>
                 if cast_error then Done jpbUnknown else compare_result op cmp)
    | JsonbBinary _, _ => Done jpbUnknown  (* non-scalars are not comparable *)
    | _, _ => Raised ERRCODE_INTERNAL_ERROR
    end.

(** Comparison predicate callback. *)
Definition executeComparison (cmp : JsonPathItemType) (useTz_ : bool)
    (lv : JsonbValue) (rv : option JsonbValue) : Outcome JsonPathBool :=
  match rv with
  | Some rv' => compareItems cmp lv rv' useTz_
  | None => Raised ERRCODE_INTERNAL_ERROR
  end.

(** STARTS_WITH predicate callback: check if the 'whole' string starts from
    the 'initial' string. *)
Definition executeStartsWith (whole : JsonbValue) (initial : option JsonbValue)
  : Outcome JsonPathBool :=
  match getScalar whole jbvString with
  | Some (JsonbString w) =>
      match initial with
      | Some i =>
          match getScalar i jbvString with
          | Some (JsonbString s) =>
              Done (if Nat.leb (String.length s) (String.length w)
                       && (memcmp w s (String.length s) =? 0)
                    then jpbTrue else jpbFalse)
          | _ => Done jpbUnknown
          end
      | None => Raised ERRCODE_INTERNAL_ERROR
      end
  | _ => Done jpbUnknown
  end.

(** LIKE_REGEX predicate callback: check if the string matches the regex
    pattern. *)
Definition executeLikeRegex (pattern : string) (flags : Z)
    (str : JsonbValue) (rarg : option JsonbValue) : Outcome JsonPathBool :=
  match getScalar str jbvString with
  | Some (JsonbString s) =>
      obind (RE_compile_and_execute pattern flags s)
            (fun m => Done (if m then jpbTrue else jpbFalse))
  | _ => Done jpbUnknown
  end.

(** ** The path walker *)

(** The walker, as the routines below call it back: an item, the input
    value, the result list and the [unwrap] flag
    ([executeItemOptUnwrapTarget]), and the predicate evaluator
    ([executeBoolItem]). *)
Definition ItemWalker : Type :=
  JsonPathItem -> JsonbValue -> option JsonValueList -> bool -> Exec Res.
Definition BoolWalker : Type :=
  JsonPathItem -> JsonbValue -> bool -> Exec JsonPathBool.
(** A path item already chosen, applied to an input value. *)
Definition Step : Type := JsonbValue -> option JsonValueList -> Exec Res.

Definition found_append (found : option JsonValueList) (v : JsonbValue)
  : option JsonValueList :=
  match found with
  | Some l => Some (JsonValueListAppend l v)
  | None => None
  end.

Definition found_is_null (found : option JsonValueList) : bool :=
  match found with Some _ => false | None => true end.

Definition found_list (found : option JsonValueList) : JsonValueList :=
  match found with Some l => l | None => JsonValueListEmpty end.

(** Execute jsonpath with automatic unwrapping of current item in lax
    mode. *)
Definition executeItem (walk : ItemWalker) (jsp : JsonPathItem) : Step :=
  fun jb found =>
    unwrap <- gets jspAutoUnwrap ;;
    walk jsp jb found unwrap.

(** Execute next jsonpath item if exists.  Otherwise put "v" to the "found"
    list if provided. *)
Definition executeNextItem (walk : ItemWalker) (next : option JsonPathItem) : Step :=
  fun v found =>
    match next with
    | Some n => executeItem walk n v found
    | None => ret (jperOk, found_append found v)
    end.

(** Save base object and its id needed for the execution of .keyvalue(). *)
Definition setBaseObject (jbv : JsonbValue) (id : Z) : Exec JsonBaseObjectInfo :=
  saved <- gets baseObject ;;
  modify (set_baseObject
            {| base_jbc := match jbv with
                           | JsonbBinary data => container_addr data
                           | _ => 0
                           end;
               base_id := id |}) ;;;
  ret saved.

(** Get the value of variable passed to jsonpath executor.  The callback
    answers with a positive base object id; with any other id the source
    leaves the value unset, which is reported here. *)
Definition getJsonPathVariable (varName : string) : Exec JsonbValue :=
  g <- gets getVar ;;
  match g with
  | None => ereport ERRCODE_UNDEFINED_OBJECT
  | Some get =>
      r <- lift (get varName) ;;
      match r with
      | None => ereport ERRCODE_UNDEFINED_OBJECT
      | Some (v, baseObj, baseObjectId) =>
          if baseObjectId >? 0 then
            setBaseObject baseObj baseObjectId ;;;
            ret v
          else ereport ERRCODE_INTERNAL_ERROR
      end
  end.

(** Convert jsonpath's scalar or variable node to actual jsonb value. *)
Definition getJsonPathItem (type : JsonPathItemType) (value : JspValue)
  : Exec JsonbValue :=
  match type, value with
  | jpiNull, _ => ret JsonbNull
  | jpiBool, JspBool b => ret (JsonbBool b)
  | jpiNumeric, JspNumeric n => ret (JsonbNumeric n)
  | jpiString, JspString s => ret (JsonbString s)
  | jpiVariable, JspString varName => getJsonPathVariable varName
  | _, _ => ereport ERRCODE_INTERNAL_ERROR
  end.

(** Implementation of several jsonpath nodes: jpiAny (.** accessor),
    jpiAnyKey (.* accessor), jpiAnyArray ([*] accessor).  [exec] is the item
    to run on each value with its [unwrapNext] flag, None for a NULL item. *)
Fixpoint executeAnyItem (exec : option Step) (jbc : JsonbContainer)
    (found : option JsonValueList) (level first last : Z)
    (ignoreStructuralErrors_ : bool) {struct jbc} : Exec Res :=
  if level >? last then ret (jperNotFound, found)
  else
    match jbc with
    | JsonbContainerC _ _ _ children =>
        (fix loop (vs : list JsonbValue) (res : JsonPathExecResult)
             (fnd : option JsonValueList) {struct vs} : Exec Res :=
           match vs with
           | [] => ret (res, fnd)
           | v :: vs' =>
               '(stop, res1, fnd1) <-
                 (if (level >=? first)
                     || ((first =? PG_UINT32_MAX) && (last =? PG_UINT32_MAX)
                         && negb (jbvType_eqb (jbv_type v) jbvBinary))
                  then
                    match exec with
                    | Some run =>
                        '(r, f) <-
                          (if ignoreStructuralErrors_ then
                             saved <- gets ignoreStructuralErrors ;;
                             modify (set_ignoreStructuralErrors true) ;;;
                             x <- run v fnd ;;
                             modify (set_ignoreStructuralErrors saved) ;;;
                             ret x
                           else run v fnd) ;;
                        if jperIsError r then ret (true, r, f)
                        else if JsonPathExecResult_eqb r jperOk && found_is_null found
                        then ret (true, r, f)
                        else ret (false, r, f)
                    | None =>
                        match fnd with
                        | Some l => ret (false, res, Some (JsonValueListAppend l v))
                        | None => ret (true, jperOk, fnd)
                        end
                    end
                  else ret (false, res, fnd)) ;;
               if stop : bool then ret (res1, fnd1)
               else
                 match v with
                 | JsonbBinary data =>
                     if level <? last then
                       '(r, f) <- executeAnyItem exec data fnd1
                                    (uint32_wrap (level + 1)) first last
                                    ignoreStructuralErrors_ ;;
                       if jperIsError r then ret (r, f)
                       else if JsonPathExecResult_eqb r jperOk && found_is_null found
                       then ret (r, f)
                       else loop vs' r f
                     else loop vs' res1 fnd1
                 | _ => loop vs' res1 fnd1
                 end
           end) children jperNotFound found
    end.

(** Unwrap current array item and execute jsonpath for each of its
    elements. *)
Definition executeItemUnwrapTargetArray (exec : option Step) : Step :=
  fun jb found =>
    match jb with
    | JsonbBinary data => executeAnyItem exec data found 1 1 1 false
    | _ => ereport ERRCODE_INTERNAL_ERROR
    end.

(** The loop of [executeItemOptUnwrapResult] over the sequence found: array
    items are unwrapped into the result list, the others appended. *)
Fixpoint unwrap_result_items (items : list JsonbValue)
    (fnd : option JsonValueList) {struct items} : Exec (option JsonValueList) :=
  match items with
  | [] => ret fnd
  | item :: rest =>
      if jbvType_eqb (JsonbType item) jbvArray then
        '(_, f) <- executeItemUnwrapTargetArray None item fnd ;;
        unwrap_result_items rest f
      else unwrap_result_items rest (found_append fnd item)
  end.

(** Same as executeItem(), but when "unwrap == true" automatically unwraps
    each array item from the resulting sequence in lax mode. *)
Definition executeItemOptUnwrapResult (exec : Step) (jb : JsonbValue)
    (unwrap : bool) (found : option JsonValueList) : Exec Res :=
  lax <- gets jspAutoUnwrap ;;
  if unwrap && lax then
    '(res, seq) <- exec jb (Some JsonValueListEmpty) ;;
    if jperIsError res then ret (res, found)
    else
      fnd <- unwrap_result_items (JsonValueListItems (found_list seq)) found ;;
      ret (jperOk, fnd)
  else exec jb found.

(** Same as executeItemOptUnwrapResult(), but with error suppression. *)
Definition executeItemOptUnwrapResultNoThrow (exec : Step) (jb : JsonbValue)
    (unwrap : bool) (found : option JsonValueList) : Exec Res :=
  saved <- gets throwErrors ;;
  modify (set_throwErrors false) ;;;
  res <- executeItemOptUnwrapResult exec jb unwrap found ;;
  modify (set_throwErrors saved) ;;;
  ret res.

(** The predicate callbacks ([JsonPathPredicateCallback]) applied to their
    item and parameter: left value, right value if any. *)
Definition PredicateCallback : Type :=
  JsonbValue -> option JsonbValue -> Outcome JsonPathBool.

(** Execute unary or binary predicate.

    Predicates have existence semantics, because their operands are item
    sequences.  Pairs of items from the left and right operand's sequences
    are checked.  TRUE returned only if any pair satisfying the condition is
    found.  In strict mode, even if the desired pair has already been found,
    all pairs still need to be examined to check the absence of errors.  If
    any error occurs, UNKNOWN (analogous to SQL NULL) is returned. *)
Definition executePredicate (larg : Step) (rarg : option Step)
    (jb : JsonbValue) (unwrapRightArg : bool) (exec : PredicateCallback)
  : Exec JsonPathBool :=
  (* Left argument is always auto-unwrapped. *)
  '(res, lseq) <- executeItemOptUnwrapResultNoThrow larg jb true
                    (Some JsonValueListEmpty) ;;
  if jperIsError res then ret jpbUnknown
  else
    rr <- match rarg with
          | Some r =>
              (* Right argument is conditionally auto-unwrapped. *)
              executeItemOptUnwrapResultNoThrow r jb unwrapRightArg
                (Some JsonValueListEmpty)
          | None => ret (jperOk, Some JsonValueListEmpty)
          end ;;
    let '(res2, rseq) := rr in
    if jperIsError res2 then ret jpbUnknown
    else
      strict <- gets jspStrictAbsenceOfErrors ;;
      (* Loop over right arg sequence or do single pass otherwise *)
      let rvals : list (option JsonbValue) :=
        match rarg with
        | Some _ => List.map Some (JsonValueListItems (found_list rseq))
        | None => [None]
        end in
      let inner (lval : JsonbValue) :=
        fix inner (rs : list (option JsonbValue)) (error fnd : bool)
          : Outcome (JsonPathBool + bool * bool) :=
          match rs with
          | [] => Done (inr (error, fnd))
          | rval :: rs' =>
              obind (exec lval rval) (fun res =>
                match res with
                | jpbUnknown =>
                    if strict then Done (inl jpbUnknown)
                    else inner rs' true fnd
                | jpbTrue =>
                    if negb strict then Done (inl jpbTrue)
                    else inner rs' error true
                | jpbFalse => inner rs' error fnd
                end)
          end in
      lift
        ((fix outer (ls : list JsonbValue) (error fnd : bool)
            : Outcome JsonPathBool :=
            match ls with
            | [] =>
                if fnd then Done jpbTrue            (* possible only in strict mode *)
                else if error then Done jpbUnknown  (* possible only in lax mode *)
                else Done jpbFalse
            | lval :: ls' =>
                obind (inner lval rvals error fnd) (fun r =>
                  match r with
                  | inl b => Done b
                  | inr (error', fnd') => outer ls' error' fnd'
                  end)
            end) (JsonValueListItems (found_list lseq)) false false).

(** Execute nested (filters etc.) boolean expression pushing current
    SQL/JSON item onto the stack. *)
Definition executeNestedBoolItem (walkBool : BoolWalker) (jsp : JsonPathItem)
    (jb : JsonbValue) : Exec JsonPathBool :=
  prev <- gets current ;;
  modify (set_current jb) ;;;
  res <- walkBool jsp jb false ;;
  modify (set_current prev) ;;;
  ret res.

(** Execute boolean-valued jsonpath expression.  [walk] and [walkBool] are
    the walker's two entry points, called on the operands of the item. *)
Definition executeBoolItemBody (walk : ItemWalker) (walkBool : BoolWalker)
    (jsp : JsonPathItem) (jb : JsonbValue) (canHaveNext : bool)
  : Exec JsonPathBool :=
  if negb canHaveNext && jspHasNext jsp then ereport ERRCODE_INTERNAL_ERROR
  else
    match jsp with
    | jspArgs jpiAnd larg rarg _ =>
        res <- walkBool larg jb false ;;
        if JsonPathBool_eqb res jpbFalse then ret jpbFalse
        else
          (* SQL/JSON says that we should check second arg in case of
             jperError *)
          res2 <- walkBool rarg jb false ;;
          ret (if JsonPathBool_eqb res2 jpbTrue then res else res2)
    | jspArgs jpiOr larg rarg _ =>
        res <- walkBool larg jb false ;;
        if JsonPathBool_eqb res jpbTrue then ret jpbTrue
        else
          res2 <- walkBool rarg jb false ;;
          ret (if JsonPathBool_eqb res2 jpbFalse then res else res2)
    | jspArg jpiNot larg _ =>
        res <- walkBool larg jb false ;;
        if JsonPathBool_eqb res jpbUnknown then ret jpbUnknown
        else ret (if JsonPathBool_eqb res jpbTrue then jpbFalse else jpbTrue)
    | jspArg jpiIsUnknown larg _ =>
        res <- walkBool larg jb false ;;
        ret (if JsonPathBool_eqb res jpbUnknown then jpbTrue else jpbFalse)
    | jspArgs ((jpiEqual | jpiNotEqual | jpiLess | jpiGreater
                | jpiLessOrEqual | jpiGreaterOrEqual) as op) larg rarg _ =>
        tz <- gets useTz ;;
        executePredicate (executeItem walk larg) (Some (executeItem walk rarg))
          jb true (executeComparison op tz)
    | jspArgs jpiStartsWith larg rarg _ =>   (* 'whole STARTS WITH initial' *)
        executePredicate (executeItem walk larg) (Some (executeItem walk rarg))
          jb false executeStartsWith
    | jspLikeRegex larg pattern flags _ =>
        (* 'expr LIKE_REGEX pattern FLAGS flags' *)
        executePredicate (executeItem walk larg) None jb false
          (executeLikeRegex pattern flags)
    | jspArg jpiExists larg _ =>
        strict <- gets jspStrictAbsenceOfErrors ;;
        if strict then
          (* In strict mode we must get a complete list of values to check
             that there are no errors at all. *)
          '(res, vals) <- executeItemOptUnwrapResultNoThrow
                            (executeItem walk larg) jb false
                            (Some JsonValueListEmpty) ;;
          if jperIsError res then ret jpbUnknown
          else ret (if JsonValueListIsEmpty (found_list vals)
                    then jpbFalse else jpbTrue)
        else
          '(res, _) <- executeItemOptUnwrapResultNoThrow
                         (executeItem walk larg) jb false None ;;
          if jperIsError res then ret jpbUnknown
          else ret (if JsonPathExecResult_eqb res jperOk then jpbTrue else jpbFalse)
    | _ => ereport ERRCODE_INTERNAL_ERROR
    end.

(** [BinaryArithmFunc] called with the error flag the context asks for:
    without a flag the routine throws its error itself. *)
Definition BinaryArithmFunc : Type := Numeric -> Numeric -> Outcome Numeric.

(** The operand test of the arithmetic routines: the numeric of a
    one-item sequence ([JsonValueListLength(&seq) != 1 ||
    !getScalar(JsonValueListHead(&seq), jbvNumeric)] fails it). *)
Definition singleton_numeric (seq : JsonValueList) : option Numeric :=
  if JsonValueListLength seq =? 1 then
    match JsonValueListHead seq with
    | Some v =>
        match getScalar v jbvNumeric with
        | Some (JsonbNumeric n) => Some n
        | _ => None
        end
    | None => None
    end
  else None.

(** Execute binary arithmetic expression on singleton numeric operands.
    Array operands are automatically unwrapped in lax mode. *)
Definition executeBinaryArithmExpr (walk : ItemWalker)
    (larg rarg : JsonPathItem) (next : option JsonPathItem)
    (jb : JsonbValue) (func : BinaryArithmFunc)
    (found : option JsonValueList) : Exec Res :=
  (* XXX: By standard only operands of multiplicative expressions are
     unwrapped.  We extend it to other binary arithmetic expressions too. *)
  '(jper, lseq) <- executeItemOptUnwrapResult (executeItem walk larg) jb true
                     (Some JsonValueListEmpty) ;;
  if jperIsError jper then ret (jper, found)
  else
    '(jper2, rseq) <- executeItemOptUnwrapResult (executeItem walk rarg) jb true
                        (Some JsonValueListEmpty) ;;
    if jperIsError jper2 then ret (jper2, found)
    else
      match singleton_numeric (found_list lseq) with
      | None => RETURN_ERROR ERRCODE_SINGLETON_SQL_JSON_ITEM_REQUIRED found
      | Some lval =>
          match singleton_numeric (found_list rseq) with
          | None => RETURN_ERROR ERRCODE_SINGLETON_SQL_JSON_ITEM_REQUIRED found
          | Some rval =>
              throw <- gets jspThrowErrors ;;
              match func lval rval with
              | Raised e =>
                  if throw then ereport e else ret (jperError, found)
              | Done res =>
                  if negb (match next with Some _ => true | None => false end)
                     && found_is_null found
                  then ret (jperOk, found)
                  else executeNextItem walk next (JsonbNumeric res) found
              end
          end
      end.

(** The [while ((val = JsonValueListNext(&seq, &it)))] loop of
    [executeUnaryArithmExpr]; [found] is the caller's pointer, [fnd] the list
    as filled so far. *)
Fixpoint executeUnaryArithmExpr_loop (walk : ItemWalker)
    (next : option JsonPathItem) (func : option (Numeric -> Numeric))
    (found : option JsonValueList) (vals : list JsonbValue)
    (jper : JsonPathExecResult) (fnd : option JsonValueList) {struct vals}
  : Exec Res :=
  let hasNext := match next with Some _ => true | None => false end in
  match vals with
  | [] => ret (jper, fnd)
  | val :: rest =>
      match getScalar val jbvNumeric with
      | Some (JsonbNumeric n) =>
          if found_is_null found && negb hasNext then ret (jperOk, fnd)
          else
            let n' := match func with Some f => f n | None => n end in
            '(jper2, fnd2) <- executeNextItem walk next (JsonbNumeric n') fnd ;;
            if jperIsError jper2 then ret (jper2, fnd2)
            else if JsonPathExecResult_eqb jper2 jperOk then
              if found_is_null found then ret (jperOk, fnd2)
              else executeUnaryArithmExpr_loop walk next func found rest jperOk fnd2
            else executeUnaryArithmExpr_loop walk next func found rest jper fnd2
      | _ =>
          if found_is_null found && negb hasNext
          then    (* skip non-numerics processing *)
            executeUnaryArithmExpr_loop walk next func found rest jper fnd
          else RETURN_ERROR ERRCODE_SQL_JSON_NUMBER_NOT_FOUND fnd
      end
  end.

(** Execute unary arithmetic expression for each numeric item in its
    operand's sequence.  Array operand is automatically unwrapped in lax
    mode.  [func] is None for unary plus. *)
Definition executeUnaryArithmExpr (walk : ItemWalker)
    (arg : JsonPathItem) (next : option JsonPathItem)
    (jb : JsonbValue) (func : option (Numeric -> Numeric))
    (found : option JsonValueList) : Exec Res :=
  '(jper, seq) <- executeItemOptUnwrapResult (executeItem walk arg) jb true
                    (Some JsonValueListEmpty) ;;
  if jperIsError jper then ret (jper, found)
  else
    executeUnaryArithmExpr_loop walk next func found
      (JsonValueListItems (found_list seq)) jperNotFound found.

(** Execute numeric item methods (.abs(), .floor(), .ceil()) using the
    specified user function [func].  [self] is this very item run on the
    elements of an unwrapped array. *)
Definition executeNumericItemMethod (walk : ItemWalker) (self : Step)
    (next : option JsonPathItem) (jb : JsonbValue) (unwrap : bool)
    (func : Numeric -> Numeric) (found : option JsonValueList) : Exec Res :=
  if unwrap && jbvType_eqb (JsonbType jb) jbvArray then
    executeItemUnwrapTargetArray (Some self) jb found
  else
    match getScalar jb jbvNumeric with
    | Some (JsonbNumeric n) =>
        let datum := func n in
        if negb (match next with Some _ => true | None => false end)
           && found_is_null found
        then ret (jperOk, found)
        else executeNextItem walk next (JsonbNumeric datum) found
    | _ => RETURN_ERROR ERRCODE_NON_NUMERIC_SQL_JSON_ITEM found
    end.

(** Implementation of the .datetime() and related methods: the operand must
    be a string; the host parses and casts it; the item found is handed to
    the next step. *)
Definition executeDateTimeMethod (walk : ItemWalker) (type : JsonPathItemType)
    (args : list JspValue) (next : option JsonPathItem)
    (jb : JsonbValue) (found : option JsonValueList) : Exec Res :=
  match getScalar jb jbvString with
  | None => RETURN_ERROR ERRCODE_INVALID_ARGUMENT_FOR_SQL_JSON_DATETIME_FUNCTION found
  | Some str =>
      tz <- gets useTz ;;
      match host_item_method type args tz str with
      | MethodFatal e => ereport e
      | MethodError e => RETURN_ERROR e found
      | MethodValue v =>
          if negb (match next with Some _ => true | None => false end)
             && found_is_null found
          then ret (jperOk, found)
          else executeNextItem walk next v found
      end
  end.

(** The "id" of the pairs of an object: constructed from its base object and
    the offset inside that,
    id = 10000000000 * base_object_id + obj_offset_in_base_object. *)
Definition keyvalue_id (base : JsonBaseObjectInfo) (jbc : JsonbContainer) : Z :=
  int64_wrap (int64_wrap (container_addr jbc - base_jbc base)
              + int64_wrap (base_id base * 10000000000)).

(** Shift every container of a value by [delta] bytes: what copying the
    value into another buffer does to the addresses. *)
Fixpoint relocate (delta : Z) (v : JsonbValue) {struct v} : JsonbValue :=
  match v with
  | JsonbBinary (JsonbContainerC h a ks vs) =>
      JsonbBinary (JsonbContainerC h (a + delta) ks (List.map (relocate delta) vs))
  | _ => v
  end.

(** [JsonbValueToJsonb] of a value, the new document placed at [at_]. *)
Definition JsonbValueToJsonb (at_ : Z) (v : JsonbValue) : Jsonb :=
  match relocate (at_ - match v with
                        | JsonbBinary data => container_addr data
                        | _ => 0
                        end) v with
  | JsonbBinary data => {| root := data |}
  | scalar => {| root := JsonbContainerC JB_FSCALAR at_ [] [scalar] |}
  end.

(** The object '{ "key": key, "value": value, "id": id }' as
    [JsonbValueToJsonb] stores it: keys in jsonb order, the value copied into
    the new document. *)
Definition keyvalue_object (at_ : Z) (key val idval : JsonbValue) : Jsonb :=
  let voff := keyvalue_value_offset key idval in
  let val' :=
    match val with
    | JsonbBinary data => relocate (at_ + voff - container_addr data) val
    | _ => val
    end in
  {| root := JsonbContainerC JB_FOBJECT at_ ["id"; "key"; "value"]
                             [idval; key; val'] |}.

(** The loop of [executeKeyValueMethod] over the pairs of the object;
    [idval] is the identifier computed before the loop. *)
Fixpoint executeKeyValueMethod_loop (walk : ItemWalker)
    (next : option JsonPathItem) (found : option JsonValueList)
    (idval : JsonbValue) (ks : list string) (vs : list JsonbValue)
    (res : JsonPathExecResult) (fnd : option JsonValueList) {struct ks}
  : Exec Res :=
  let hasNext := match next with Some _ => true | None => false end in
  match ks, vs with
  | key :: ks', val :: vs' =>
      if negb hasNext && found_is_null found then ret (jperOk, fnd)
      else
        n <- gets lastGeneratedObjectId ;;
        let obj := JsonbInitBinary
                     (keyvalue_object (palloc_jsonb n)
                                      (JsonbString key) val idval) in
        modify (set_lastGeneratedObjectId (int32_wrap (n + 1))) ;;;
        saved <- setBaseObject obj n ;;
        '(res', fnd') <- executeNextItem walk next obj fnd ;;
        modify (set_baseObject saved) ;;;
        if jperIsError res' then ret (res', fnd')
        else if JsonPathExecResult_eqb res' jperOk && found_is_null found
        then ret (res', fnd')
        else executeKeyValueMethod_loop walk next found idval ks' vs' res' fnd'
  | _, _ => ret (res, fnd)
  end.

(** Implementation of .keyvalue() method.

    .keyvalue() method returns a sequence of object's key-value pairs in the
    following format: '{ "key": key, "value": value, "id": id }'. *)
Definition executeKeyValueMethod (walk : ItemWalker)
    (next : option JsonPathItem) (jb : JsonbValue)
    (found : option JsonValueList) : Exec Res :=
  match jb with
  | JsonbBinary jbc =>
      if negb (jbvType_eqb (JsonbType jb) jbvObject) then
        RETURN_ERROR ERRCODE_SQL_JSON_OBJECT_NOT_FOUND found
      else if JsonContainerSize jbc =? 0 then
        ret (jperNotFound, found)       (* no key-value pairs *)
      else
        (* construct object id from its base object and offset inside that *)
        base <- gets baseObject ;;
        let id := keyvalue_id base jbc in
        let idval := JsonbNumeric (int64_to_numeric id) in
        executeKeyValueMethod_loop walk next found idval
          (container_keys jbc) (container_children jbc) jperNotFound found
  | _ => RETURN_ERROR ERRCODE_SQL_JSON_OBJECT_NOT_FOUND found
  end.

(** Convert boolean execution status [res] to a boolean JSON item and
    execute next jsonpath. *)
Definition appendBoolResult (walk : ItemWalker) (next : option JsonPathItem)
    (found : option JsonValueList) (res : JsonPathBool) : Exec Res :=
  if negb (match next with Some _ => true | None => false end)
     && found_is_null found
  then ret (jperOk, found)    (* found singleton boolean value *)
  else
    let jbv := match res with
               | jpbUnknown => JsonbNull
               | jpbTrue => JsonbBool true
               | jpbFalse => JsonbBool false
               end in
    executeNextItem walk next jbv found.

(** Execute array subscript expression and convert resulting numeric item
    to the integer type with truncation. *)
Definition getArrayIndex (walk : ItemWalker) (jsp : JsonPathItem)
    (jb : JsonbValue) : Exec (JsonPathExecResult * Z) :=
  '(res, found) <- executeItem walk jsp jb (Some JsonValueListEmpty) ;;
  if jperIsError res then ret (res, 0)
  else
    let bad : Exec (JsonPathExecResult * Z) :=
      throw <- gets jspThrowErrors ;;
      if throw then ereport ERRCODE_INVALID_SQL_JSON_SUBSCRIPT
      else ret (jperError, 0) in
    if negb (JsonValueListLength (found_list found) =? 1) then bad
    else
      match JsonValueListHead (found_list found) with
      | Some v =>
          match getScalar v jbvNumeric with
          | Some (JsonbNumeric n) =>
              match numeric_int4_opt_error (numeric_trunc n) with
              | Some index => ret (jperOk, index)
              | None => bad
              end
          | _ => bad
          end
      | None => bad
      end.

Definition has_next (next : option JsonPathItem) : bool :=
  match next with Some _ => true | None => false end.

(** The item after an accessor as [executeAnyItem] runs it: NULL when there
    is no next item. *)
Definition next_step (walk : ItemWalker) (next : option JsonPathItem)
    (unwrapNext : bool) : option Step :=
  match next with
  | Some n => Some (fun v f => walk n v f unwrapNext)
  | None => None
  end.

(** The [jpiIndexArray] arm of the walker. *)
Definition executeIndexArray (walk : ItemWalker)
    (elems : list (JsonPathItem * option JsonPathItem))
    (next : option JsonPathItem) (jb : JsonbValue)
    (found : option JsonValueList) : Exec Res :=
  autoWrap <- gets jspAutoWrap ;;
  if jbvType_eqb (JsonbType jb) jbvArray || autoWrap then
    saved <- gets innermostArraySize ;;
    let size0 := JsonbArraySize jb in
    let singleton := size0 <? 0 in
    let size := if singleton then 1 else size0 in
    let hasNext := has_next next in
    modify (set_innermostArraySize size) ;;;   (* for LAST evaluation *)
    '(returned, res, fnd) <-
      (fix subscripts (es : list (JsonPathItem * option JsonPathItem))
           (res : JsonPathExecResult) (fnd : option JsonValueList)
         : Exec (bool * JsonPathExecResult * option JsonValueList) :=
         match es with
         | [] => ret (false, res, fnd)
         | (from, to) :: es' =>
             '(r1, index_from) <- getArrayIndex walk from jb ;;
             if jperIsError r1 then ret (false, r1, fnd)
             else
               rt <- match to with
                     | Some t => getArrayIndex walk t jb
                     | None => ret (r1, index_from)
                     end ;;
               let '(r2, index_to) := rt in
               if jperIsError r2 then ret (false, r2, fnd)
               else
                 ignore <- gets jspIgnoreStructuralErrors ;;
                 if negb ignore
                    && ((index_from <? 0) || (index_from >? index_to)
                        || (index_to >=? size))
                 then
                   '(r, f) <- RETURN_ERROR ERRCODE_INVALID_SQL_JSON_SUBSCRIPT fnd ;;
                   ret (true, r, f)
                 else
                   let index_from := if index_from <? 0 then 0 else index_from in
                   let index_to := if index_to >=? size then size - 1 else index_to in
                   '(returned, r3, f3) <-
                     (fix elements (count : nat) (index : Z)
                          (res : JsonPathExecResult) (fnd : option JsonValueList)
                        : Exec (bool * JsonPathExecResult * option JsonValueList) :=
                        match count with
                        | O => ret (false, res, fnd)
                        | S count' =>
                            let v :=
                              if singleton then Some jb
                              else match jb with
                                   | JsonbBinary data =>
                                       getIthJsonbValueFromContainer data index
                                   | _ => None
                                   end in
                            match v with
                            | None => elements count' (index + 1) res fnd
                            | Some v =>
                                if negb hasNext && found_is_null found
                                then ret (true, jperOk, fnd)
                                else
                                  '(r, f) <- executeNextItem walk next v fnd ;;
                                  if jperIsError r then ret (false, r, f)
                                  else if JsonPathExecResult_eqb r jperOk
                                          && found_is_null found
                                  then ret (false, r, f)
                                  else elements count' (index + 1) r f
                            end
                        end) (Z.to_nat (index_to - index_from + 1)) index_from
                             jperNotFound fnd ;;
                   if returned : bool then ret (true, r3, f3)
                   else if jperIsError r3 then ret (false, r3, f3)
                   else if JsonPathExecResult_eqb r3 jperOk && found_is_null found
                   then ret (false, r3, f3)
                   else subscripts es' r3 f3
         end) elems jperNotFound found ;;
    if returned : bool then ret (res, fnd)
    else
      modify (set_innermostArraySize saved) ;;;
      ret (res, fnd)
  else
    ignore <- gets jspIgnoreStructuralErrors ;;
    if negb ignore then RETURN_ERROR ERRCODE_SQL_JSON_ARRAY_NOT_FOUND found
    else ret (jperNotFound, found).

(** Main jsonpath executor function: walks on jsonpath structure, finds
    relevant parts of jsonb and evaluates expressions over them.  When
    [unwrap] is true current SQL/JSON item is unwrapped if it is an array.
    [self] is this very item with [unwrap == false], as the elements of an
    unwrapped array are given to it. *)
Definition executeItemBody (walk : ItemWalker) (walkBool : BoolWalker)
    (self : Step) (jsp : JsonPathItem) (jb : JsonbValue)
    (found : option JsonValueList) (unwrap : bool) : Exec Res :=
  let unwrapTarget := executeItemUnwrapTargetArray (Some self) jb found in
  let isArray := jbvType_eqb (JsonbType jb) jbvArray in
  let boolItem (next : option JsonPathItem) : Exec Res :=
    st <- executeBoolItemBody walk walkBool jsp jb true ;;
    appendBoolResult walk next found st in
  let structuralError (e : ErrCode) : Exec Res :=
    ignore <- gets jspIgnoreStructuralErrors ;;
    if negb ignore then RETURN_ERROR e found else ret (jperNotFound, found) in
  let scalarMethod (type : JsonPathItemType) (args : list JspValue)
      (next : option JsonPathItem) : Exec Res :=
    if unwrap && isArray then unwrapTarget
    else
      tz <- gets useTz ;;
      match host_item_method type args tz jb with
      | MethodFatal e => ereport e
      | MethodError e => RETURN_ERROR e found
      | MethodValue v => executeNextItem walk next v found
      end in
  match jsp with
  | jspValue ((jpiNull | jpiBool | jpiNumeric | jpiString | jpiVariable) as type)
             value next =>
      if negb (has_next next) && found_is_null found
         && negb (match type with jpiVariable => true | _ => false end)
      then
        (* Skip evaluation, but not for variables.  We must trigger an error
           for the missing variable. *)
        ret (jperOk, found)
      else
        saved <- gets baseObject ;;
        v <- getJsonPathItem type value ;;
        res <- executeNextItem walk next v found ;;
        modify (set_baseObject saved) ;;;
        ret res
  (* all boolean item types: *)
  | jspArgs (jpiAnd | jpiOr | jpiEqual | jpiNotEqual | jpiLess | jpiGreater
             | jpiLessOrEqual | jpiGreaterOrEqual | jpiStartsWith) _ _ next =>
      boolItem next
  | jspArg (jpiNot | jpiIsUnknown | jpiExists) _ next => boolItem next
  | jspLikeRegex _ _ _ next => boolItem next
  | jspArgs jpiAdd larg rarg next =>
      executeBinaryArithmExpr walk larg rarg next jb numeric_add_opt_error found
  | jspArgs jpiSub larg rarg next =>
      executeBinaryArithmExpr walk larg rarg next jb numeric_sub_opt_error found
  | jspArgs jpiMul larg rarg next =>
      executeBinaryArithmExpr walk larg rarg next jb numeric_mul_opt_error found
  | jspArgs jpiDiv larg rarg next =>
      executeBinaryArithmExpr walk larg rarg next jb numeric_div_opt_error found
  | jspArgs jpiMod larg rarg next =>
      executeBinaryArithmExpr walk larg rarg next jb numeric_mod_opt_error found
  | jspArg jpiPlus arg next =>
      executeUnaryArithmExpr walk arg next jb None found
  | jspArg jpiMinus arg next =>
      executeUnaryArithmExpr walk arg next jb (Some numeric_uminus) found
  | jspLeaf jpiAnyArray _ next =>
      autoUnwrap <- gets jspAutoUnwrap ;;
      if isArray then
        executeItemUnwrapTargetArray (next_step walk next autoUnwrap) jb found
      else if autoUnwrap then executeNextItem walk next jb found
      else structuralError ERRCODE_SQL_JSON_ARRAY_NOT_FOUND
  | jspLeaf jpiAnyKey _ next =>
      match jb with
      | JsonbBinary data =>
          if jbvType_eqb (JsonbType jb) jbvObject then
            autoUnwrap <- gets jspAutoUnwrap ;;
            executeAnyItem (next_step walk next autoUnwrap) data found 1 1 1 false
          else if unwrap && isArray then unwrapTarget
          else structuralError ERRCODE_SQL_JSON_OBJECT_NOT_FOUND
      | _ => structuralError ERRCODE_SQL_JSON_OBJECT_NOT_FOUND
      end
  | jspArray elems next => executeIndexArray walk elems next jb found
  | jspAnyBounds first last next =>
      (* first try without any intermediate steps *)
      '(stop, res, fnd) <-
        (if first =? 0 then
           saved <- gets ignoreStructuralErrors ;;
           modify (set_ignoreStructuralErrors true) ;;;
           '(r, f) <- executeNextItem walk next jb found ;;
           modify (set_ignoreStructuralErrors saved) ;;;
           ret (JsonPathExecResult_eqb r jperOk && found_is_null found, r, f)
         else ret (false, jperNotFound, found)) ;;
      if stop : bool then ret (res, fnd)
      else
        match jb with
        | JsonbBinary data =>
            autoUnwrap <- gets jspAutoUnwrap ;;
            executeAnyItem (next_step walk next autoUnwrap) data fnd
                           1 first last true
        | _ => ret (res, fnd)
        end
  | jspValue jpiKey (JspString key) next =>
      match jb with
      | JsonbBinary data =>
          if jbvType_eqb (JsonbType jb) jbvObject then
            match findJsonbValueFromContainer data key with
            | Some v => executeNextItem walk next v found
            | None =>
                ignore <- gets jspIgnoreStructuralErrors ;;
                if negb ignore then
                  throw <- gets jspThrowErrors ;;
                  if negb throw then ret (jperError, found)
                  else ereport ERRCODE_SQL_JSON_MEMBER_NOT_FOUND
                else ret (jperNotFound, found)
            end
          else if unwrap && isArray then unwrapTarget
          else structuralError ERRCODE_SQL_JSON_MEMBER_NOT_FOUND
      | _ => structuralError ERRCODE_SQL_JSON_MEMBER_NOT_FOUND
      end
  | jspLeaf jpiCurrent _ next =>
      cur <- gets current ;;
      executeNextItem walk next cur found
  | jspLeaf jpiRoot _ next =>
      r <- gets cxt_root ;;
      saved <- setBaseObject r 0 ;;
      res <- executeNextItem walk next r found ;;
      modify (set_baseObject saved) ;;;
      ret res
  | jspArg jpiFilter arg next =>
      if unwrap && isArray then unwrapTarget
      else
        st <- executeNestedBoolItem walkBool arg jb ;;
        if negb (JsonPathBool_eqb st jpbTrue) then ret (jperNotFound, found)
        else executeNextItem walk next jb found
  | jspLeaf jpiType _ next =>
      executeNextItem walk next (JsonbString (JsonbTypeName jb)) found
  | jspLeaf jpiSize _ next =>
      let size := JsonbArraySize jb in
      autoWrap <- gets jspAutoWrap ;;
      if (size <? 0) && negb autoWrap then
        structuralError ERRCODE_SQL_JSON_ARRAY_NOT_FOUND
      else
        let size := if size <? 0 then 1 else size in
        executeNextItem walk next (JsonbNumeric (int64_to_numeric size)) found
  | jspLeaf jpiAbs _ next =>
      executeNumericItemMethod walk self next jb unwrap numeric_abs found
  | jspLeaf jpiFloor _ next =>
      executeNumericItemMethod walk self next jb unwrap numeric_floor found
  | jspLeaf jpiCeiling _ next =>
      executeNumericItemMethod walk self next jb unwrap numeric_ceil found
  | jspLeaf ((jpiDouble | jpiBigint | jpiBoolean | jpiDecimal | jpiNumber
              | jpiInteger | jpiStringFunc) as type) args next =>
      scalarMethod type args next
  | jspLeaf ((jpiDatetime | jpiDate | jpiTime | jpiTimeTz | jpiTimestamp
              | jpiTimestampTz) as type) args next =>
      if unwrap && isArray then unwrapTarget
      else executeDateTimeMethod walk type args next jb found
  | jspLeaf jpiKeyValue _ next =>
      if unwrap && isArray then unwrapTarget
      else executeKeyValueMethod walk next jb found
  | jspLeaf jpiLast _ next =>
      innermost <- gets innermostArraySize ;;
      if innermost <? 0 then ereport ERRCODE_INTERNAL_ERROR
      else if negb (has_next next) && found_is_null found then ret (jperOk, found)
      else
        let last := innermost - 1 in
        executeNextItem walk next (JsonbNumeric (int64_to_numeric last)) found
  | _ => ereport ERRCODE_INTERNAL_ERROR
  end.

(** The walker: [executeItemOptUnwrapTarget] and [executeBoolItem], mutually
    recursive on the path item. *)
Fixpoint executeItemOptUnwrapTarget (jsp : JsonPathItem) (jb : JsonbValue)
    (found : option JsonValueList) (unwrap : bool) {struct jsp} : Exec Res :=
  executeItemBody executeItemOptUnwrapTarget executeBoolItem
    (fun v f =>
       executeItemBody executeItemOptUnwrapTarget executeBoolItem
         (fun _ _ => ereport ERRCODE_INTERNAL_ERROR) jsp v f false)
    jsp jb found unwrap
with executeBoolItem (jsp : JsonPathItem) (jb : JsonbValue)
    (canHaveNext : bool) {struct jsp} : Exec JsonPathBool :=
  executeBoolItemBody executeItemOptUnwrapTarget executeBoolItem
    jsp jb canHaveNext.

(** ** Interface to the jsonpath executor *)

(** [executeJsonPath]: [path] is the jsonpath to be executed, [vars] the
    variables to be substituted (NULL allowed), [getVar] and [countVars] the
    callbacks over [vars], [json] the target document, [throwErrors_] tells
    whether suppressible errors are thrown, [result] is the list to store
    result items into (NULL when the caller only checks existence). *)
Definition executeJsonPath {V : Type} (path : JsonPath) (vars : option V)
    (getVar_ : V -> JsonPathGetVar) (countVars : option V -> Outcome Z)
    (json : Jsonb) (throwErrors_ : bool) (result : option JsonValueList)
    (useTz_ : bool) : Outcome Res :=
  let jbv := match JsonbExtractScalar (root json) with
             | Some scalar => scalar
             | None => JsonbInitBinary json
             end in
  obind (countVars vars) (fun nvars =>
    let cxt :=
      {| getVar := match vars with Some v => Some (getVar_ v) | None => None end;
         cxt_root := jbv;
         current := jbv;
         baseObject := {| base_jbc := 0; base_id := 0 |};
         (* 1 + number of base objects in vars *)
         lastGeneratedObjectId := int32_wrap (1 + nvars);
         innermostArraySize := -1;
         laxMode := header_lax path;
         ignoreStructuralErrors := header_lax path;
         throwErrors := throwErrors_;
         useTz := useTz_ |} in
    if jspStrictAbsenceOfErrors cxt && found_is_null result then
      (* In strict mode we must get a complete list of values to check that
         there are no errors at all. *)
      match executeItem executeItemOptUnwrapTarget (expr path) jbv
                        (Some JsonValueListEmpty) cxt with
      | Raised e => Raised e
      | Done ((res, vals), _) =>
          if jperIsError res then Done (res, result)
          else Done (if JsonValueListIsEmpty (found_list vals)
                     then jperNotFound else jperOk, result)
      end
    else
      match executeItem executeItemOptUnwrapTarget (expr path) jbv result cxt with
      | Raised e => Raised e
      | Done (res, _) => Done res
      end).

(** Definition of JsonPathGetVarCallback for when JsonPathExecContext.vars
    is specified as a jsonb value. *)
Definition getJsonPathVariableFromJsonb (vars : Jsonb) : JsonPathGetVar :=
  fun varName =>
    match findJsonbValueFromContainer (root vars) varName with
    | None => Done None
    | Some result => Done (Some (result, JsonbInitBinary vars, 1))
    end.

(** Definition of JsonPathCountVarsCallback for when
    JsonPathExecContext.vars is specified as a jsonb value. *)
Definition countVariablesFromJsonb (vars : option Jsonb) : Outcome Z :=
  match vars with
  | Some v =>
      if negb (JsonContainerIsObject (root v))
      then Raised ERRCODE_INVALID_PARAMETER_VALUE
      else Done 1       (* count of base objects *)
  | None => Done 0
  end.

(** Returns the computed value of a JSON path variable with given name
    ([GetJsonPathVar], over the list of PASSING variables). *)
Definition GetJsonPathVar (vars : list JsonPathVariable) : JsonPathGetVar :=
  fun varName =>
    (fix search (l : list JsonPathVariable) (id : Z)
       : Outcome (option (JsonbValue * JsonbValue * Z)) :=
       match l with
       | [] => Done None
       | curvar :: rest =>
           if String.eqb (name curvar) varName then
             obind (if isnull curvar then Done JsonbNull
                    else host_item_from_datum (var_value curvar)
                           (var_typid curvar) (var_typmod curvar))
                   (fun result => Done (Some (result, result, id)))
           else search rest (id + 1)
       end) vars 1.

Definition CountJsonPathVars (vars : option (list JsonPathVariable)) : Outcome Z :=
  match vars with
  | Some l => Done (Z.of_nat (List.length l))
  | None => Done 0
  end.

(** A [List *] of variables: NIL is the NULL pointer. *)
Definition vars_list (l : list JsonPathVariable) : option (list JsonPathVariable) :=
  match l with [] => None | _ => Some l end.

(** ** User interface to the executor

    [args] holds the third and fourth SQL arguments, vars and silent, when
    the function is called with four ([PG_NARGS() == 4]); the answer is
    [None] for SQL NULL. *)

Definition arg_vars (args : option (Jsonb * bool)) : option Jsonb :=
  match args with Some (vars, _) => Some vars | None => None end.

Definition arg_silent (args : option (Jsonb * bool)) : bool :=
  match args with Some (_, silent) => silent | None => true end.

(** jsonb_path_exists: returns true if jsonpath returns at least one item
    for the specified jsonb value. *)
Definition jsonb_path_exists_internal (jb : Jsonb) (jp : JsonPath)
    (args : option (Jsonb * bool)) (tz : bool) : Outcome (option bool) :=
  let vars := arg_vars args in
  let silent := arg_silent args in
  obind (executeJsonPath jp vars getJsonPathVariableFromJsonb
                         countVariablesFromJsonb jb (negb silent) None tz)
        (fun '(res, _) =>
           if jperIsError res then Done None
           else Done (Some (JsonPathExecResult_eqb res jperOk))).

(** jsonb_path_match: returns jsonpath predicate result item for the
    specified jsonb value. *)
Definition jsonb_path_match_internal (jb : Jsonb) (jp : JsonPath)
    (args : option (Jsonb * bool)) (tz : bool) : Outcome (option bool) :=
  let vars := arg_vars args in
  let silent := arg_silent args in
  obind (executeJsonPath jp vars getJsonPathVariableFromJsonb
                         countVariablesFromJsonb jb (negb silent)
                         (Some JsonValueListEmpty) tz)
        (fun '(_, found) =>
           let fall_through : Outcome (option bool) :=
             if negb silent
             then Raised ERRCODE_SINGLETON_SQL_JSON_ITEM_REQUIRED
             else Done None in
           if JsonValueListLength (found_list found) =? 1 then
             match JsonValueListHead (found_list found) with
             | Some (JsonbBool b) => Done (Some b)
             | Some JsonbNull => Done None
             | _ => fall_through
             end
           else fall_through).

(** jsonb_path_query: executes jsonpath for given jsonb document and
    returns result as rowset (the list the first call stores). *)
Definition jsonb_path_query_internal (jb : Jsonb) (jp : JsonPath)
    (vars : Jsonb) (silent : bool) (tz : bool) : Outcome (list JsonbValue) :=
  obind (executeJsonPath jp (Some vars) getJsonPathVariableFromJsonb
                         countVariablesFromJsonb jb (negb silent)
                         (Some JsonValueListEmpty) tz)
        (fun '(_, found) => Done (JsonValueListGetList (found_list found))).

(** jsonb_path_query_first: executes jsonpath for given jsonb document and
    returns first result item.  If there are no items, NULL returned. *)
Definition jsonb_path_query_first_internal (jb : Jsonb) (jp : JsonPath)
    (vars : Jsonb) (silent : bool) (tz : bool) : Outcome (option JsonbValue) :=
  obind (executeJsonPath jp (Some vars) getJsonPathVariableFromJsonb
                         countVariablesFromJsonb jb (negb silent)
                         (Some JsonValueListEmpty) tz)
        (fun '(_, found) =>
           if JsonValueListLength (found_list found) >=? 1
           then Done (JsonValueListHead (found_list found))
           else Done None).

(** Construct a JSON array from the item list: the elements of the
    in-memory array value that is handed to [JsonbValueToJsonb]. *)
Definition wrapItemsInArray (items : JsonValueList) : list JsonbValue :=
  JsonValueListItems items.

(** jsonb_path_query_array: executes jsonpath for given jsonb document and
    returns result as jsonb array (its elements). *)
Definition jsonb_path_query_array_internal (jb : Jsonb) (jp : JsonPath)
    (vars : Jsonb) (silent : bool) (tz : bool) : Outcome (list JsonbValue) :=
  obind (executeJsonPath jp (Some vars) getJsonPathVariableFromJsonb
                         countVariablesFromJsonb jb (negb silent)
                         (Some JsonValueListEmpty) tz)
        (fun '(_, found) => Done (wrapItemsInArray (found_list found))).

(** ** Executor-callable SQL/JSON functions

    [error] tells whether the caller passed an error flag ([bool *error] is
    not NULL).  The out parameters are given by what is written to them:
    [None] when the pointee is left as the caller set it. *)

(** [enum JsonWrapper] (nodes/primnodes.h); the [elog(ERROR)] arm for any
    other value is not represented. *)
Inductive JsonWrapper : Type :=
| JSW_UNSPEC | JSW_NONE | JSW_CONDITIONAL | JSW_UNCONDITIONAL.

(** What [JsonPathQuery] hands to [JsonbValueToJsonb]: an item of the
    sequence, or the array [wrapItemsInArray] builds. *)
Inductive JsonQueryValue : Type :=
| QueryItem (v : JsonbValue)
| QueryArray (elems : list JsonbValue).

Record JsonPathOut (A : Type) : Type := {
  out_value : option A;          (* None: NULL *)
  out_empty : option bool;       (* written to [*empty] *)
  out_error : option bool        (* written to [*error] *)
}.

(** Executor-callable JSON_EXISTS implementation.  Returns NULL instead of
    throwing errors if [error] is not NULL, setting [*error] to true. *)
Definition JsonPathExists (jb : Jsonb) (jp : JsonPath) (error : bool)
    (vars : list JsonPathVariable) : Outcome (bool * option bool) :=
  obind (executeJsonPath jp (vars_list vars) GetJsonPathVar CountJsonPathVars
                         jb (negb error) None true)
        (fun '(res, _) =>
           Done (JsonPathExecResult_eqb res jperOk,
                 if error && jperIsError res then Some true else None)).

(** Executor-callable JSON_QUERY implementation.  Returns NULL instead of
    throwing errors if [error] is not NULL, setting [*error] to true.
    [*empty] is set to true if no match is found. *)
Definition JsonPathQuery (jb : Jsonb) (jp : JsonPath) (wrapper : JsonWrapper)
    (error : bool) (vars : list JsonPathVariable) (column_name : option string)
  : Outcome (JsonPathOut JsonQueryValue) :=
  obind (executeJsonPath jp (vars_list vars) GetJsonPathVar CountJsonPathVars
                         jb (negb error) (Some JsonValueListEmpty) true)
        (fun '(res, found_) =>
           let found := found_list found_ in
           if error && jperIsError res then
             Done {| out_value := None; out_empty := Some false;
                     out_error := Some true |}
           else
             (* Determine whether to wrap the result in a JSON array or
                not. *)
             let count := JsonValueListLength found in
             let singleton :=
               if count >? 0 then JsonValueListHead found else None in
             let wrap :=
               match singleton with
               | None => false
               | Some _ =>
                   match wrapper with
                   | JSW_NONE | JSW_UNSPEC => false
                   | JSW_UNCONDITIONAL => true
                   | JSW_CONDITIONAL => count >? 1
                   end
               end in
             if wrap then
               Done {| out_value := Some (QueryArray (wrapItemsInArray found));
                       out_empty := None; out_error := None |}
             else if count >? 1 then
               (* No wrapping means only one item is expected. *)
               if error then
                 Done {| out_value := None; out_empty := None;
                         out_error := Some true |}
               else Raised ERRCODE_MORE_THAN_ONE_SQL_JSON_ITEM
             else
               match singleton with
               | Some v =>
                   Done {| out_value := Some (QueryItem v);
                           out_empty := None; out_error := None |}
               | None =>
                   Done {| out_value := None; out_empty := Some true;
                           out_error := None |}
               end).

(** [IsAJsonbScalar] (utils/jsonb.h). *)
Definition IsAJsonbScalar (jbv : JsonbValue) : bool :=
  match jbv with
  | JsonbNull | JsonbString _ | JsonbNumeric _ | JsonbBool _
  | JsonbDatetime _ _ _ _ => true
  | JsonbBinary _ => false
  end.

(** Executor-callable JSON_VALUE implementation.  Returns NULL instead of
    throwing errors if [error] is not NULL, setting [*error] to true.
    [*empty] is set to true if no match is found. *)
Definition JsonPathValue (jb : Jsonb) (jp : JsonPath) (error : bool)
    (vars : list JsonPathVariable) (column_name : option string)
  : Outcome (JsonPathOut JsonbValue) :=
  obind (executeJsonPath jp (vars_list vars) GetJsonPathVar CountJsonPathVars
                         jb (negb error) (Some JsonValueListEmpty) true)
        (fun '(jper, found_) =>
           let found := found_list found_ in
           if error && jperIsError jper then
             Done {| out_value := None; out_empty := Some false;
                     out_error := Some true |}
           else
             let count := JsonValueListLength found in
             let empty := count =? 0 in
             if empty then
               Done {| out_value := None; out_empty := Some empty;
                       out_error := None |}
             else if count >? 1 then
               (* JSON_VALUE expects to get only singletons. *)
               if error then
                 Done {| out_value := None; out_empty := Some empty;
                         out_error := Some true |}
               else Raised ERRCODE_MORE_THAN_ONE_SQL_JSON_ITEM
             else
               match JsonValueListHead found with
               | None => Raised ERRCODE_INTERNAL_ERROR
               | Some res0 =>
                   let res :=
                     match res0 with
                     | JsonbBinary data =>
                         if JsonContainerIsScalar data then
                           match JsonbExtractScalar data with
                           | Some scalar => scalar
                           | None => res0
                           end
                         else res0
                     | _ => res0
                     end in
                   (* JSON_VALUE expects to get only scalars. *)
                   if negb (IsAJsonbScalar res) then
                     if error then
                       Done {| out_value := None; out_empty := Some empty;
                               out_error := Some true |}
                     else Raised ERRCODE_SQL_JSON_SCALAR_REQUIRED
                   else
                     match res with
                     | JsonbNull =>
                         Done {| out_value := None; out_empty := Some empty;
                                 out_error := None |}
                     | _ =>
                         Done {| out_value := Some res; out_empty := Some empty;
                                 out_error := None |}
                     end
               end).

(** ** JSON_TABLE

    The plan tree ([JsonTablePathScan], [JsonTableSiblingJoin]) and its
    state tree.  A [JsonTablePlanState] of the source points to its plan;
    here the plan is passed next to the state.  The back link to the parent
    is used to read the parent's current row only, which is passed where the
    source follows the link. *)

Inductive JsonTablePlan : Type :=
| JsonTablePathScan (path : JsonPath) (errorOnError : bool)
                    (child : option JsonTablePlan)
| JsonTableSiblingJoin (lplan rplan : JsonTablePlan).

(** The result of jsonpath evaluation to be used as source row. *)
Record JsonTablePlanRowSource : Type := {
  rs_value : option Jsonb;      (* None: PointerGetDatum(NULL) *)
  rs_isnull : bool
}.

Inductive JsonTablePlanState : Type :=
| PathScanState (args : list JsonPathVariable)
                (found : JsonValueList) (iter : JsonValueListIterator)
                (cur : JsonTablePlanRowSource) (ordinal : Z)
                (nested : option JsonTablePlanState)
| SiblingJoinState (lstate rstate : JsonTablePlanState).

Definition null_row : JsonTablePlanRowSource :=
  {| rs_value := None; rs_isnull := true |}.

(** JsonTableInitPlan: initialize information for evaluating jsonpath in
    the given JsonTablePlan and, recursively, in any child plans. *)
Fixpoint JsonTableInitPlan (plan : JsonTablePlan) (args : list JsonPathVariable)
  : JsonTablePlanState :=
  match plan with
  | JsonTablePathScan _ _ child =>
      PathScanState args JsonValueListEmpty
        {| it_value := None; it_list := []; it_next := [] |}
        null_row 0
        match child with
        | Some c => Some (JsonTableInitPlan c args)
        | None => None
        end
  | JsonTableSiblingJoin lplan rplan =>
      SiblingJoinState (JsonTableInitPlan lplan args)
                       (JsonTableInitPlan rplan args)
  end.

(** Evaluate a JsonTablePlan's jsonpath to get a new row pattern from the
    given context item. *)
Definition JsonTableResetRowPattern (path : JsonPath) (errorOnError : bool)
    (args : list JsonPathVariable) (nested : option JsonTablePlanState)
    (item : Jsonb) : Outcome JsonTablePlanState :=
  obind (executeJsonPath path (vars_list args) GetJsonPathVar CountJsonPathVars
                         item errorOnError (Some JsonValueListEmpty) true)
        (fun '(res, found) =>
           let found' := if jperIsError res then JsonValueListEmpty
                         else found_list found in
           (* Reset plan iterator to the beginning of the item list *)
           Done (PathScanState args found' (JsonValueListInitIterator found')
                               null_row 0 nested)).

(** Re-evaluate the row pattern of a nested plan using the new parent row
    pattern. *)
Fixpoint JsonTableResetNestedPlan (plan : JsonTablePlan)
    (parent_current : JsonTablePlanRowSource) (planstate : JsonTablePlanState)
  : Outcome JsonTablePlanState :=
  match plan, planstate with
  | JsonTablePathScan path errorOnError _, PathScanState args _ _ _ _ nested =>
      if negb (rs_isnull parent_current) then
        match rs_value parent_current with
        | Some item => JsonTableResetRowPattern path errorOnError args nested item
        | None => Raised ERRCODE_INTERNAL_ERROR
        end
      else Done planstate
  | JsonTableSiblingJoin lplan rplan, SiblingJoinState l r =>
      obind (JsonTableResetNestedPlan lplan parent_current l) (fun l' =>
      obind (JsonTableResetNestedPlan rplan parent_current r) (fun r' =>
      Done (SiblingJoinState l' r')))
  | _, _ => Done planstate
  end.

(** The fetch routine as the scan and the join call it back. *)
Definition NextRow : Type :=
  JsonTablePlan -> JsonTablePlanState -> Outcome (bool * JsonTablePlanState).

(** Fetch next row from a JsonTablePlan's path evaluation result and from
    any child nested path(s).  Returns true if any of the paths (this or the
    nested) has more rows to return. *)
Definition JsonTablePlanScanNextRow (next_row : NextRow)
    (child : option JsonTablePlan) (args : list JsonPathVariable)
    (found : JsonValueList) (iter : JsonValueListIterator)
    (cur : JsonTablePlanRowSource) (ordinal : Z)
    (nested : option JsonTablePlanState)
  : Outcome (bool * JsonTablePlanState) :=
  (* If planstate already has an active row and there is a nested plan,
     check if it has an active row to join with the former. *)
  obind (if negb (rs_isnull cur) then
           match child, nested with
           | Some c, Some n =>
               obind (next_row c n) (fun '(more, n') => Done (more, Some n'))
           | _, _ => Done (false, nested)
           end
         else Done (false, nested))
        (fun '(joined, nested1) =>
           if joined : bool then
             Done (true, PathScanState args found iter cur ordinal nested1)
           else
             (* Fetch new row from the list of found values to set as
                active. *)
             let '(jbv, iter') := JsonValueListNext iter in
             match jbv with
             | None =>       (* End of list? *)
                 Done (false, PathScanState args found iter' null_row ordinal nested1)
             | Some row =>
                 let ordinal' := int32_wrap (ordinal + 1) in
                 let cur' := {| rs_value :=
                                  Some (JsonbValueToJsonb (palloc_row ordinal') row);
                                rs_isnull := false |} in
                 (* Process nested plan(s), if any. *)
                 obind (match child, nested1 with
                        | Some c, Some n =>
                            (* Re-evaluate the nested path using the above
                               parent row. *)
                            obind (JsonTableResetNestedPlan c cur' n) (fun n' =>
                            obind (next_row c n') (fun '(_, n'') =>
                            Done (Some n'')))
                        | _, _ => Done nested1
                        end)
                       (fun nested2 =>
                          (* There are more rows. *)
                          Done (true, PathScanState args found iter' cur'
                                                    ordinal' nested2))
             end).

(** Fetch the next row from a JsonTableSiblingJoin.  This is essentially a
    UNION between the rows from left and right siblings. *)
Definition JsonTablePlanJoinNextRow (next_row : NextRow)
    (lplan rplan : JsonTablePlan) (lstate rstate : JsonTablePlanState)
  : Outcome (bool * JsonTablePlanState) :=
  (* Fetch row from left sibling. *)
  obind (next_row lplan lstate) (fun '(more, lstate') =>
    if more : bool then Done (true, SiblingJoinState lstate' rstate)
    else
      (* Left sibling ran out of rows, so start fetching from the right
         sibling. *)
      obind (next_row rplan rstate) (fun '(more', rstate') =>
        Done (more', SiblingJoinState lstate' rstate'))).

(** Fetch next row from a JsonTablePlan.  Returns false if the plan has run
    out of rows, true otherwise. *)
Fixpoint JsonTablePlanNextRow (plan : JsonTablePlan)
    (planstate : JsonTablePlanState) {struct plan}
  : Outcome (bool * JsonTablePlanState) :=
  match plan, planstate with
  | JsonTablePathScan _ _ child, PathScanState args found iter cur ordinal nested =>
      JsonTablePlanScanNextRow JsonTablePlanNextRow child args found iter cur
                               ordinal nested
  | JsonTableSiblingJoin lplan rplan, SiblingJoinState lstate rstate =>
      JsonTablePlanJoinNextRow JsonTablePlanNextRow lplan rplan lstate rstate
  | _, _ => Raised ERRCODE_INTERNAL_ERROR
  end.

(** JsonTableSetDocument: install the input document and evaluate the row
    pattern of the root plan (a path scan). *)
Definition JsonTableSetDocument (rootplan : JsonTablePlan)
    (rootplanstate : JsonTablePlanState) (value : Jsonb)
  : Outcome JsonTablePlanState :=
  match rootplan, rootplanstate with
  | JsonTablePathScan path errorOnError _, PathScanState args _ _ _ _ nested =>
      JsonTableResetRowPattern path errorOnError args nested value
  | _, _ => Raised ERRCODE_INTERNAL_ERROR
  end.

(** JsonTableFetchRow: prepare the next "current" row for upcoming GetValue
    calls.  Returns false if no more rows can be returned. *)
Definition JsonTableFetchRow (rootplan : JsonTablePlan)
    (rootplanstate : JsonTablePlanState) : Outcome (bool * JsonTablePlanState) :=
  JsonTablePlanNextRow rootplan rootplanstate.

End Walker.

(** ** A reference host over the integers

    Numerics and datums are integers; the comparators are the integer
    comparison.  It serves to run the executor on concrete documents. *)

Definition Z_cmp (a b : Z) : Z :=
  match Z.compare a b with Lt => -1 | Eq => 0 | Gt => 1 end.

#[export] Instance ZHostTypes : HostTypes := {| Numeric := Z; Datum := Z |}.

Definition ERRCODE_DIVISION_BY_ZERO : ErrCode := ERRCODE_HOST 22012.

Definition Z_type_name (jb : @JsonbValue ZHostTypes) : string :=
  match jb with
  | JsonbNull => "null"
  | JsonbString _ => "string"
  | JsonbNumeric _ => "number"
  | JsonbBool _ => "boolean"
  | JsonbDatetime _ DATEOID _ _ => "date"
  | JsonbDatetime _ TIMEOID _ _ => "time without time zone"
  | JsonbDatetime _ TIMETZOID _ _ => "time with time zone"
  | JsonbDatetime _ TIMESTAMPOID _ _ => "timestamp without time zone"
  | JsonbDatetime _ TIMESTAMPTZOID _ _ => "timestamp with time zone"
  | JsonbBinary jbc => if JsonContainerIsObject jbc then "object" else "array"
  end.

#[export] Instance ZHostOps : @HostOps ZHostTypes := {|
  numeric_cmp := Z_cmp;
  numeric_add_opt_error := fun a b => Done (a + b);
  numeric_sub_opt_error := fun a b => Done (a - b);
  numeric_mul_opt_error := fun a b => Done (a * b);
  numeric_div_opt_error := fun a b =>
    if b =? 0 then Raised ERRCODE_DIVISION_BY_ZERO else Done (Z.quot a b);
  numeric_mod_opt_error := fun a b =>
    if b =? 0 then Raised ERRCODE_DIVISION_BY_ZERO else Done (Z.rem a b);
  numeric_uminus := Z.opp;
  numeric_abs := Z.abs;
  numeric_floor := fun a => a;
  numeric_ceil := fun a => a;
  numeric_trunc := fun a => a;
  numeric_int4_opt_error := fun a =>
    if (- 2 ^ 31 <=? a) && (a <? 2 ^ 31) then Some a else None;
  int64_to_numeric := fun a => a;
  date_cmp := Z_cmp;
  time_cmp := Z_cmp;
  timetz_cmp := Z_cmp;
  timestamp_cmp := Z_cmp;
  date_cmp_timestamp_internal := Z_cmp;
  date_cmp_timestamptz_internal := Z_cmp;
  timestamp_cmp_timestamptz_internal := Z_cmp;
  time_timetz := fun t => t;
  GetDatabaseEncoding := PG_UTF8;
  pg_server_to_any := fun _ => None;
  RE_compile_and_execute := fun pattern _ s => Done (String.eqb pattern s);
  JsonbTypeName := Z_type_name;
  palloc_jsonb := fun n => 4294967296 * n;
  palloc_row := fun n => - 4294967296 * n;
  keyvalue_value_offset := fun _ _ => 64;
  host_item_method := fun _ _ _ jb =>
    match jb with
    | JsonbNumeric n => MethodValue (JsonbNumeric n)
    | _ => MethodError ERRCODE_NON_NUMERIC_SQL_JSON_ITEM
    end;
  host_item_from_datum := fun d _ _ => Done (JsonbNumeric d)
|}.

(** Documents and paths used as concrete inputs. *)

Definition jnum (n : Z) : @JsonbValue ZHostTypes := JsonbNumeric (n : @Numeric ZHostTypes).
Definition jarr (a : Z) (vs : list JsonbValue) : @JsonbValue ZHostTypes :=
  JsonbBinary (JsonbContainerC JB_FARRAY a [] vs).
Definition jobj (a : Z) (kvs : list (string * JsonbValue)) : @JsonbValue ZHostTypes :=
  JsonbBinary (JsonbContainerC JB_FOBJECT a (List.map fst kvs) (List.map snd kvs)).
Definition jdoc (v : @JsonbValue ZHostTypes) : Jsonb :=
  match v with
  | JsonbBinary data => {| root := data |}
  | scalar => {| root := JsonbContainerC JB_FSCALAR 0 [] [scalar] |}
  end.

Definition p_root (next : option JsonPathItem) : @JsonPathItem ZHostTypes :=
  jspLeaf jpiRoot [] next.
Definition p_num (n : Z) : @JsonPathItem ZHostTypes :=
  jspValue jpiNumeric (JspNumeric (n : @Numeric ZHostTypes)) None.
Definition lax_path (e : JsonPathItem) : @JsonPath ZHostTypes :=
  {| header_lax := true; expr := e |}.
Definition strict_path (e : JsonPathItem) : @JsonPath ZHostTypes :=
  {| header_lax := false; expr := e |}.

(** ** The statements of the specification in the terms of the model *)

(** The six comparison operators. *)
Definition is_comparison (op : JsonPathItemType) : bool :=
  match op with
  | jpiEqual | jpiNotEqual | jpiLess | jpiGreater
  | jpiLessOrEqual | jpiGreaterOrEqual => true
  | _ => false
  end.

(** The datetime ladder of the specification: the pairs of type tags it
    marks comparable, and those among them it marks as requiring timezone
    use. *)
Definition datetime_comparable (t1 t2 : Oid) : bool :=
  match t1, t2 with
  | DATEOID, (DATEOID | TIMESTAMPOID | TIMESTAMPTZOID) => true
  | TIMEOID, (TIMEOID | TIMETZOID) => true
  | TIMETZOID, (TIMEOID | TIMETZOID) => true
  | TIMESTAMPOID, (DATEOID | TIMESTAMPOID | TIMESTAMPTZOID) => true
  | TIMESTAMPTZOID, (DATEOID | TIMESTAMPOID | TIMESTAMPTZOID) => true
  | _, _ => false
  end.

Definition datetime_requires_tz (t1 t2 : Oid) : bool :=
  match t1, t2 with
  | DATEOID, TIMESTAMPTZOID | TIMESTAMPTZOID, DATEOID => true
  | TIMEOID, TIMETZOID | TIMETZOID, TIMEOID => true
  | TIMESTAMPOID, TIMESTAMPTZOID | TIMESTAMPTZOID, TIMESTAMPOID => true
  | _, _ => false
  end.

(** [-cmp] on the outcome of [compareDatetime]. *)
Definition negate_comparison (o : Outcome (Z * bool)) : Outcome (Z * bool) :=
  match o with
  | Done (cmp, cast_error) => Done (- cmp, cast_error)
  | Raised e => Raised e
  end.

(** Kleene's conjunction and disjunction, as the specification words them:
    AND is F if either is F, else U if either is U, else T; OR dually. *)
Definition kleene_and (a b : JsonPathBool) : JsonPathBool :=
  match a, b with
  | jpbFalse, _ | _, jpbFalse => jpbFalse
  | jpbUnknown, _ | _, jpbUnknown => jpbUnknown
  | jpbTrue, jpbTrue => jpbTrue
  end.

Definition kleene_or (a b : JsonPathBool) : JsonPathBool :=
  match a, b with
  | jpbTrue, _ | _, jpbTrue => jpbTrue
  | jpbUnknown, _ | _, jpbUnknown => jpbUnknown
  | jpbFalse, jpbFalse => jpbFalse
  end.

(** The binary and the unary arithmetic operators, with the host routine
    each one applies. *)
Definition is_binary_arith (op : JsonPathItemType) : bool :=
  match op with
  | jpiAdd | jpiSub | jpiMul | jpiDiv | jpiMod => true
  | _ => false
  end.

Definition is_unary_arith (op : JsonPathItemType) : bool :=
  match op with
  | jpiPlus | jpiMinus => true
  | _ => false
  end.

(** A sequence that is exactly one numeric value. *)
Definition is_numeric_singleton {HT : HostTypes} (items : list JsonbValue) : bool :=
  match items with
  | [JsonbNumeric _] => true
  | _ => false
  end.

Section Statements.

Context {HT : HostTypes} {HO : HostOps}.

(** What the host's comparators are assumed to satisfy: the same-type
    comparators are antisymmetric, the cross-type ones answer a sign. *)
Definition antisymmetric_comparator (f : Datum -> Datum -> Z) : Prop :=
  forall a b, f a b = - f b a.

Definition sign_comparator (f : Datum -> Datum -> Z) : Prop :=
  forall a b, -1 <= f a b <= 1.

Record DatetimeComparators : Prop := {
  date_cmp_antisym : antisymmetric_comparator date_cmp;
  time_cmp_antisym : antisymmetric_comparator time_cmp;
  timetz_cmp_antisym : antisymmetric_comparator timetz_cmp;
  timestamp_cmp_antisym : antisymmetric_comparator timestamp_cmp;
  date_cmp_timestamp_sign : sign_comparator date_cmp_timestamp_internal;
  date_cmp_timestamptz_sign : sign_comparator date_cmp_timestamptz_internal;
  timestamp_cmp_timestamptz_sign :
    sign_comparator timestamp_cmp_timestamptz_internal
}.



(** The sequence an operand evaluates to: the operand run on [jb] with lax
    result-unwrapping, into a fresh list. *)
Definition operand_sequence (arg : JsonPathItem) (jb : JsonbValue)
  : Exec Res :=
  executeItemOptUnwrapResult (executeItem executeItemOptUnwrapTarget arg) jb
                             true (Some JsonValueListEmpty).

(** What a unary operator does to a numeric. *)
Definition apply_unary (op : JsonPathItemType) (n : Numeric) : Numeric :=
  match op with
  | jpiMinus => numeric_uminus n
  | _ => n
  end.

(** The host routine of a unary operator: none for unary plus. *)
Definition unary_func (op : JsonPathItemType) : option (Numeric -> Numeric) :=
  match op with
  | jpiMinus => Some numeric_uminus
  | _ => None
  end.

(** Values handed to the rest of the path one after the other, in order:
    an error of the rest of the path ends the run; so does its first
    [jperOk] when no result list is kept ([stop_on_ok]).  The status is
    [jperOk] once the rest of the path has answered [jperOk] for a value. *)
Fixpoint hand_on_each (rest : Step) (stop_on_ok : bool) (vs : list JsonbValue)
    (res : JsonPathExecResult) (fnd : option JsonValueList) {struct vs}
  : Exec Res :=
  match vs with
  | [] => fun cxt => Done ((res, fnd), cxt)
  | v :: vs' =>
      fun cxt =>
        match rest v fnd cxt with
        | Raised e => Raised e
        | Done ((r, f), cxt') =>
            if jperIsError r then Done ((r, f), cxt')
            else if JsonPathExecResult_eqb r jperOk then
              if stop_on_ok then Done ((jperOk, f), cxt')
              else hand_on_each rest stop_on_ok vs' jperOk f cxt'
            else hand_on_each rest stop_on_ok vs' res f cxt'
        end
  end.

(** Whether one of the items is a numeric. *)
Definition has_numeric (items : list JsonbValue) : bool :=
  List.existsb (fun v => jbvType_eqb (jbv_type v) jbvNumeric) items.

(** The pairs of [.keyvalue()]. *)


(** The pairs [.keyvalue()] builds for the members of one object, the
    first one being the [n]-th object generated by the evaluation. *)
Fixpoint keyvalue_objects (idval : JsonbValue) (n : Z) (ks : list string)
    (vs : list JsonbValue) {struct ks} : list JsonbValue :=
  match ks, vs with
  | key :: ks', val :: vs' =>
      JsonbInitBinary (keyvalue_object (palloc_jsonb n) (JsonbString key) val idval)
      :: keyvalue_objects idval (int32_wrap (n + 1)) ks' vs'
  | _, _ => []
  end.




(** JSON_TABLE: iterators, fetch sequences and the states they start from. *)

(** An iterator as [JsonValueListInitIterator] and [JsonValueListNext] leave
    it: once it has no current value it has no further cell. *)
Definition iterator_ok (it : JsonValueListIterator) : bool :=
  match it_value it, it_next it with
  | None, _ :: _ => false
  | _, _ => true
  end.

(** The iterators of the path scans a fetch from this state reads: those of
    the scans reached through sibling joins. *)
Fixpoint iterators_ok (planstate : JsonTablePlanState) : bool :=
  match planstate with
  | PathScanState _ _ iter _ _ _ => iterator_ok iter
  | SiblingJoinState lstate rstate => iterators_ok lstate && iterators_ok rstate
  end.

(** The rows fetched from a plan state until the plan reports exhaustion:
    the state after each successful fetch, and the state the failed fetch
    leaves. *)
Inductive Fetches (plan : JsonTablePlan)
  : JsonTablePlanState -> list JsonTablePlanState -> JsonTablePlanState -> Prop :=
| Fetches_exhausted (st st' : JsonTablePlanState) :
    JsonTablePlanNextRow plan st = Done (false, st') ->
    Fetches plan st [] st'
| Fetches_row (st st1 st' : JsonTablePlanState) (rows : list JsonTablePlanState) :
    JsonTablePlanNextRow plan st = Done (true, st1) ->
    Fetches plan st1 rows st' ->
    Fetches plan st (st1 :: rows) st'.

(** A state all of whose iterators, those of the nested plans included, are
    as the iterator routines leave them. *)
Fixpoint planstate_wf (planstate : JsonTablePlanState) : bool :=
  match planstate with
  | PathScanState _ _ iter _ _ nested =>
      iterator_ok iter
      && match nested with Some n => planstate_wf n | None => true end
  | SiblingJoinState lstate rstate => planstate_wf lstate && planstate_wf rstate
  end.

(** A fetch sequence that ends in an error: some fetch raises after
    finitely many rows. *)
Inductive FetchRaises (plan : JsonTablePlan) : JsonTablePlanState -> Prop :=
| FetchRaises_now (st : JsonTablePlanState) (e : ErrCode) :
    JsonTablePlanNextRow plan st = Raised e -> FetchRaises plan st
| FetchRaises_later (st st1 : JsonTablePlanState) :
    JsonTablePlanNextRow plan st = Done (true, st1) ->
    FetchRaises plan st1 -> FetchRaises plan st.

(** A fetch sequence that ends: finitely many rows, then exhaustion or an
    error. *)
Definition Drains (plan : JsonTablePlan) (st : JsonTablePlanState) : Prop :=
  (exists rows st', Fetches plan st rows st') \/ FetchRaises plan st.

(** The two phases of [JsonTablePlanScanNextRow]: the fetch from the nested
    plan for the current row, and the advance to the next row of the scan's
    own row pattern ([JsonTablePlanNextRow_scan] relates them to the
    routine). *)
Definition scan_nested_phase (child : option JsonTablePlan)
    (cur : JsonTablePlanRowSource) (nested : option JsonTablePlanState)
  : Outcome (bool * option JsonTablePlanState) :=
  if negb (rs_isnull cur) then
    match child, nested with
    | Some c, Some n =>
        obind (JsonTablePlanNextRow c n) (fun '(more, n') => Done (more, Some n'))
    | _, _ => Done (false, nested)
    end
  else Done (false, nested).

Definition scan_own_phase (child : option JsonTablePlan)
    (args : list JsonPathVariable) (found : JsonValueList)
    (iter : JsonValueListIterator) (ordinal : Z)
    (nested1 : option JsonTablePlanState)
  : Outcome (bool * JsonTablePlanState) :=
  let '(jbv, iter') := JsonValueListNext iter in
  match jbv with
  | None => Done (false, PathScanState args found iter' null_row ordinal nested1)
  | Some row =>
      let ordinal' := int32_wrap (ordinal + 1) in
      let cur' := {| rs_value := Some (JsonbValueToJsonb (palloc_row ordinal') row);
                     rs_isnull := false |} in
      obind (match child, nested1 with
             | Some c, Some n =>
                 obind (JsonTableResetNestedPlan c cur' n) (fun n' =>
                 obind (JsonTablePlanNextRow c n') (fun '(_, n'') =>
                 Done (Some n'')))
             | _, _ => Done nested1
             end)
            (fun nested2 =>
               Done (true, PathScanState args found iter' cur' ordinal' nested2))
  end.

(** Induction on a plan that reaches the nested plan of a path scan. *)
Fixpoint JsonTablePlan_ind' (P : JsonTablePlan -> Prop)
    (Hscan : forall path errorOnError child,
        match child with Some c => P c | None => True end ->
        P (JsonTablePathScan path errorOnError child))
    (Hjoin : forall lplan, P lplan -> forall rplan, P rplan ->
        P (JsonTableSiblingJoin lplan rplan))
    (plan : JsonTablePlan) {struct plan} : P plan :=
  match plan with
  | JsonTablePathScan path errorOnError child =>
      Hscan path errorOnError child
            match child with
            | Some c => JsonTablePlan_ind' P Hscan Hjoin c
            | None => I
            end
  | JsonTableSiblingJoin lplan rplan =>
      Hjoin lplan (JsonTablePlan_ind' P Hscan Hjoin lplan)
            rplan (JsonTablePlan_ind' P Hscan Hjoin rplan)
  end.

(** [n] calls of [JsonValueListNext] in a row: what each one answers. *)
Fixpoint JsonValueListNext_times (n : nat) (it : JsonValueListIterator)
  : list (option JsonbValue) :=
  match n with
  | O => []
  | S n' =>
      let '(v, it') := JsonValueListNext it in
      v :: JsonValueListNext_times n' it'
  end.

(** A boolean as a predicate result. *)
Definition jpb_of_bool (b : bool) : JsonPathBool :=
  if b then jpbTrue else jpbFalse.

(** The loop of [executeItemUnwrapTargetArray] and of the [.*] accessor over
    the values of one container when an item follows: the item is run on
    each value in stored order; an error stops the loop, and so does the
    first success when no result list is kept ([stop_on_ok]).  The status is
    that of the last value visited. *)
Fixpoint each_element (run : Step) (stop_on_ok : bool) (vs : list JsonbValue)
    (res : JsonPathExecResult) (fnd : option JsonValueList) {struct vs}
  : Exec Res :=
  match vs with
  | [] => fun cxt => Done ((res, fnd), cxt)
  | v :: vs' =>
      fun cxt =>
        match run v fnd cxt with
        | Raised e => Raised e
        | Done ((r, f), cxt') =>
            if jperIsError r then Done ((r, f), cxt')
            else if JsonPathExecResult_eqb r jperOk && stop_on_ok
            then Done ((r, f), cxt')
            else each_element run stop_on_ok vs' r f cxt'
        end
  end.

(** What a structural error amounts to: nothing is found when structural
    errors are ignored (lax mode, and below [.**]); otherwise it is an error,
    thrown or returned as the context asks. *)
Definition structural_error (e : ErrCode) (found : option JsonValueList)
  : Exec Res :=
  fun cxt =>
    if ignoreStructuralErrors cxt then Done ((jperNotFound, found), cxt)
    else if throwErrors cxt then Raised e
    else Done ((jperError, found), cxt).

(** What an accessor that ends the path does with the values it selects:
    with a result list all of them are appended (the status stays
    [jperNotFound]); without one the first value answers [jperOk]. *)
Definition select_all (vs : list JsonbValue) (found : option JsonValueList)
  : Exec Res :=
  fun cxt =>
    match found with
    | Some fl => Done ((jperNotFound, Some (fold_left JsonValueListAppend vs fl)), cxt)
    | None => Done ((match vs with [] => jperNotFound | _ => jperOk end, None), cxt)
    end.

(** The items an array accessor indexes: the elements of an array; any other
    value stands for the one-element array holding it (lax mode). *)
Definition subscript_items (jb : JsonbValue) : list JsonbValue :=
  match jb with
  | JsonbBinary (JsonbContainerC JB_FARRAY _ _ vs) => vs
  | _ => [jb]
  end.

(** The numeric a subscript expression denotes when it is a numeric literal
    or [last], in an array of [size] elements. *)
Definition subscript_value (jsp : JsonPathItem) (size : Z) : option Numeric :=
  match jsp with
  | jspValue jpiNumeric (JspNumeric n) None => Some n
  | jspLeaf jpiLast _ None => Some (int64_to_numeric (size - 1))
  | _ => None
  end.

(** The items at the positions [lo] to [hi], both included. *)
Definition slice (lo hi : Z) (items : list JsonbValue) : list JsonbValue :=
  List.firstn (Z.to_nat (hi - lo + 1)) (List.skipn (Z.to_nat lo) items).

(** Kleene's negation. *)
Definition kleene_not (a : JsonPathBool) : JsonPathBool :=
  match a with
  | jpbTrue => jpbFalse
  | jpbFalse => jpbTrue
  | jpbUnknown => jpbUnknown
  end.

(** What a predicate with existence semantics answers, given what its test
    answers on each pair of operand items.  In lax mode one True pair makes
    it True, whatever the others are; in strict mode one Unknown pair makes
    it Unknown, whatever the others are. *)
Definition existence_verdict (strict : bool) (answers : list JsonPathBool)
  : JsonPathBool :=
  let some (b : JsonPathBool) := List.existsb (JsonPathBool_eqb b) answers in
  if strict then
    if some jpbUnknown then jpbUnknown
    else if some jpbTrue then jpbTrue else jpbFalse
  else
    if some jpbTrue then jpbTrue
    else if some jpbUnknown then jpbUnknown else jpbFalse.

(** The right items a predicate pairs each left item with: those of the
    right operand's sequence, or no item, once, when the predicate has no
    right operand. *)
Definition right_values (rs : option (list JsonbValue))
  : list (option JsonbValue) :=
  match rs with
  | Some rvals => List.map Some rvals
  | None => [None]
  end.

(** The answers of a test on the pairs of two item sequences, in the order
    [executePredicate] visits them. *)
Definition pair_answers (test : JsonbValue -> option JsonbValue -> JsonPathBool)
    (ls : list JsonbValue) (rs : option (list JsonbValue)) : list JsonPathBool :=
  List.flat_map (fun l => List.map (test l) (right_values rs)) ls.

(** The host routine behind each binary arithmetic operator, and behind each
    numeric item method. *)
Definition binary_func (op : JsonPathItemType) : BinaryArithmFunc :=
  match op with
  | jpiAdd => numeric_add_opt_error
  | jpiSub => numeric_sub_opt_error
  | jpiMul => numeric_mul_opt_error
  | jpiDiv => numeric_div_opt_error
  | _ => numeric_mod_opt_error
  end.

Definition is_numeric_method (op : JsonPathItemType) : bool :=
  match op with
  | jpiAbs | jpiFloor | jpiCeiling => true
  | _ => false
  end.

Definition numeric_method_func (op : JsonPathItemType) : Numeric -> Numeric :=
  match op with
  | jpiAbs => numeric_abs
  | jpiFloor => numeric_floor
  | _ => numeric_ceil
  end.

Definition is_datetime_method (op : JsonPathItemType) : bool :=
  match op with
  | jpiDatetime | jpiDate | jpiTime | jpiTimeTz | jpiTimestamp
  | jpiTimestampTz => true
  | _ => false
  end.

(** What an item method hands on when it ends the path and no result list is
    kept: nothing, the answer is [jperOk]; otherwise the value goes to the
    rest of the path. *)
Definition hand_on (next : option JsonPathItem) (v : JsonbValue)
    (found : option JsonValueList) : Exec Res :=
  if negb (has_next next) && found_is_null found
  then fun cxt => Done ((jperOk, found), cxt)
  else executeNextItem executeItemOptUnwrapTarget next v found.

(** A suppressible error: thrown when the context asks for it, returned as
    the [jperError] status otherwise. *)
Definition suppressible_error (e : ErrCode) (found : option JsonValueList)
  : Exec Res :=
  fun cxt =>
    if throwErrors cxt then Raised e else Done ((jperError, found), cxt).

(** What lax unwrapping makes of one item of a sequence: the elements of an
    array, one level deep; any other item as it is. *)
Definition unwrap_one (v : JsonbValue) : list JsonbValue :=
  match v with
  | JsonbBinary (JsonbContainerC JB_FOBJECT _ _ _) => [v]
  | JsonbBinary (JsonbContainerC _ _ _ vs) => vs
  | _ => [v]
  end.

(** The current row of a path scan and its ordinal (FOR ORDINALITY). *)
Definition row_source (st : JsonTablePlanState) : JsonTablePlanRowSource :=
  match st with
  | PathScanState _ _ _ cur _ _ => cur
  | SiblingJoinState _ _ => null_row
  end.

Definition row_ordinal (st : JsonTablePlanState) : Z :=
  match st with
  | PathScanState _ _ _ _ ordinal _ => ordinal
  | SiblingJoinState _ _ => 0
  end.

(** The [k]-th row of a scan holds the [k]-th item of the row pattern as a
    document of its own, and [k] as its ordinal. *)
Definition is_row (st : JsonTablePlanState) (k : nat) (item : JsonbValue)
  : Prop :=
  row_source st
  = {| rs_value := Some (JsonbValueToJsonb (palloc_row (Z.of_nat k)) item);
       rs_isnull := false |}
  /\ row_ordinal st = Z.of_nat k.

(** A member of an emitted pair, by its key. *)
Definition emitted_member (key : string) (pair : JsonbValue) : option JsonbValue :=
  match pair with
  | JsonbBinary data => findJsonbValueFromContainer data key
  | _ => None
  end.

(** An item and everything below it, in document order, each with its depth
    ([level] for the item itself). *)
Fixpoint subtree (level : Z) (v : JsonbValue) {struct v}
  : list (Z * JsonbValue) :=
  (level, v)
  :: match v with
     | JsonbBinary (JsonbContainerC _ _ _ children) =>
         flat_map (subtree (level + 1)) children
     | _ => []
     end.

(** What lies strictly below an item, its children at depth 1. *)
Definition below (jb : JsonbValue) : list (Z * JsonbValue) :=
  match jb with
  | JsonbBinary (JsonbContainerC _ _ _ children) => flat_map (subtree 1) children
  | _ => []
  end.

(** The depths the [.**] accessor selects: between [first] and [last]; with
    both bounds at the maximum, the scalars at any depth up to it. *)
Definition any_selected (first last : Z) (p : Z * JsonbValue) : bool :=
  (fst p <=? last)
  && ((first <=? fst p)
      || ((first =? PG_UINT32_MAX) && (last =? PG_UINT32_MAX)
          && negb (jbvType_eqb (jbv_type (snd p)) jbvBinary))).

(** The items a row pattern finds on an item: none when the evaluation
    reports an error that is not thrown; no answer when it raises. *)
Definition row_pattern_items (path : JsonPath) (errorOnError : bool)
    (args : list JsonPathVariable) (item : Jsonb) : option (list JsonbValue) :=
  match executeJsonPath path (vars_list args) GetJsonPathVar CountJsonPathVars
                        item errorOnError (Some JsonValueListEmpty) true with
  | Done (res, fnd) =>
      Some (if jperIsError res then []
            else JsonValueListGetList (found_list fnd))
  | Raised _ => None
  end.

(** The document a scan holds as its [k]-th row. *)
Definition row_document (k : nat) (item : JsonbValue) : Jsonb :=
  JsonbValueToJsonb (palloc_row (Z.of_nat k)) item.

(** The rows of a parent row joined with its nested path, as an outer join:
    the parent's position and item with each nested row, its position counted
    from 1 for every parent row; with no nested row, the parent row once. *)
Definition outer_join_rows (path : JsonPath) (errorOnError : bool)
    (args : list JsonPathVariable) (kp : nat * JsonbValue)
  : list (nat * JsonbValue * option (nat * JsonbValue)) :=
  match row_pattern_items path errorOnError args
          (row_document (fst kp) (snd kp)) with
  | Some (c :: cs) =>
      map (fun jc => (kp, Some jc))
          (List.combine (List.seq 1 (List.length (c :: cs))) (c :: cs))
  | _ => [(kp, None)]
  end.

Definition is_joined_row (st : JsonTablePlanState)
    (r : nat * JsonbValue * option (nat * JsonbValue)) : Prop :=
  is_row st (fst (fst r)) (snd (fst r))
  /\ match st with
     | PathScanState _ _ _ _ _ (Some n) =>
         match snd r with
         | Some jc => is_row n (fst jc) (snd jc)
         | None => row_source n = null_row
         end
     | _ => False
     end.

(** A nested scan that has run through its rows. *)
Definition child_idle (args : list JsonPathVariable) (n : JsonTablePlanState)
  : Prop :=
  exists (found : JsonValueList) (iter : JsonValueListIterator)
         (cur : JsonTablePlanRowSource) (ordinal : Z),
    n = PathScanState args found iter cur ordinal None
    /\ iterator_ok iter = true
    /\ iterator_items iter = [].

(** The counter of generated objects after [k] more objects. *)
Definition counter_after (k : nat) (n : Z) : Z :=
  Nat.iter k (fun m => int32_wrap (m + 1)) n.

(** What every path item keeps of the context it is run in: the base object
    is the one it found, and the counter of generated objects has only
    advanced. *)
Definition keeps_base_and_counter (cxt cxt' : JsonPathExecContext) : Prop :=
  baseObject cxt' = baseObject cxt
  /\ exists k : nat,
      lastGeneratedObjectId cxt'
      = counter_after k (lastGeneratedObjectId cxt).

(** A routine that keeps them whenever it returns. *)
Definition Frame {A : Type} (m : Exec A) : Prop :=
  forall (cxt : JsonPathExecContext) (a : A) (cxt' : JsonPathExecContext),
    m cxt = Done (a, cxt') -> keeps_base_and_counter cxt cxt'.





End Statements.

(** ** Concrete inputs over the reference host *)

(** A context as [executeJsonPath] sets it up for a document without
    variables. *)
Definition example_cxt (lax throw : bool) (jbv : @JsonbValue ZHostTypes)
  : JsonPathExecContext :=
  {| getVar := None;
     cxt_root := jbv;
     current := jbv;
     baseObject := {| base_jbc := 0; base_id := 0 |};
     lastGeneratedObjectId := 1;
     innermostArraySize := -1;
     laxMode := lax;
     ignoreStructuralErrors := lax;
     throwErrors := throw;
     useTz := false |}.

Definition items (vs : list (@JsonbValue ZHostTypes)) : JsonValueList :=
  {| jvl_singleton := None; jvl_list := vs |}.

Definition one_item (v : @JsonbValue ZHostTypes) : JsonValueList :=
  {| jvl_singleton := Some v; jvl_list := [] |}.

Definition array_123 : @JsonbValue ZHostTypes := jarr 0 [jnum 1; jnum 2; jnum 3].

(** [$[*]] *)
Definition path_elements : @JsonPathItem ZHostTypes :=
  p_root (Some (jspLeaf jpiAnyArray [] None)).


(** [{"a": 1, "b": 2}] and the empty variables object. *)
Definition doc_two_members : Jsonb := jdoc (jobj 0 [("a", jnum 1); ("b", jnum 2)]).
Definition empty_vars : Jsonb := jdoc (jobj 0 []).



(** [1 == 2], [$x == 1] and their conjunction. *)
Definition pred_one_is_two : @JsonPathItem ZHostTypes :=
  jspArgs jpiEqual (p_num 1) (p_num 2) None.
Definition pred_undefined_variable : @JsonPathItem ZHostTypes :=
  jspArgs jpiEqual (jspValue jpiVariable (JspString "x") None) (p_num 1) None.
Definition pred_false_and_undefined : @JsonPathItem ZHostTypes :=
  jspArgs jpiAnd pred_one_is_two pred_undefined_variable None.

(** A sibling join of two scans of [$[*]], the left one holding the rows 1
    and 2, the right one the row 3. *)
Definition scan_elements : @JsonTablePlan ZHostTypes :=
  JsonTablePathScan (lax_path path_elements) false None.
Definition scan_state (vs : list (@JsonbValue ZHostTypes)) : JsonTablePlanState :=
  PathScanState [] (items vs) (JsonValueListInitIterator (items vs))
                null_row 0 None.

(** [[[[1], 2], 3]]: an array in an array in an array. *)
Definition array_nested : @JsonbValue ZHostTypes :=
  jarr 0 [jarr 8 [jarr 16 [jnum 1]; jnum 2]; jnum 3].

(** [1 / 0] *)
Definition one_by_zero : @JsonPathItem ZHostTypes :=
  jspArgs jpiDiv (p_num 1) (p_num 0) None.

(** [$x] *)
Definition path_variable_x : @JsonPathItem ZHostTypes :=
  jspValue jpiVariable (JspString "x") None.

(** [[[1, 2], [], [3]]] *)
Definition array_of_arrays : @JsonbValue ZHostTypes :=
  jarr 0 [jarr 8 [jnum 1; jnum 2]; jarr 16 []; jarr 24 [jnum 3]].

(** A scan of [$[*]] with the nested path [$[*]]. *)
Definition scan_nested_elements : @JsonTablePlan ZHostTypes :=
  JsonTablePathScan (lax_path path_elements) false (Some scan_elements).

(** * Laws *)

(** ** Item sequences and the comparison kernel *)

Section Laws.

Context {HT : HostTypes} {HO : HostOps}.

(** *** Item sequences *)

Lemma JsonValueListItems_GetList (jvl : JsonValueList) :
  JsonValueListItems jvl = JsonValueListGetList jvl.
Proof.
  unfold JsonValueListItems, JsonValueListInitIterator, JsonValueListGetList,
    iterator_items.
  destruct (jvl_singleton jvl); [reflexivity|].
  destruct (jvl_list jvl); reflexivity.
Qed.

Lemma JsonValueListGetList_Append (jvl : JsonValueList) (v : JsonbValue) :
  JsonValueListGetList (JsonValueListAppend jvl v) = JsonValueListGetList jvl ++ [v].
Proof.
  unfold JsonValueListGetList, JsonValueListAppend.
  destruct (jvl_singleton jvl); [reflexivity|].
  destruct (jvl_list jvl) as [|x l]; [reflexivity|].
  cbn. reflexivity.
Qed.

Lemma JsonValueListGetList_fold_Append (vs : list JsonbValue) :
  forall jvl,
    JsonValueListGetList (fold_left JsonValueListAppend vs jvl)
    = JsonValueListGetList jvl ++ vs.
Proof.
  induction vs as [|v vs IH]; intro jvl; cbn.
  - now rewrite app_nil_r.
  - rewrite IH, JsonValueListGetList_Append, <- app_assoc. reflexivity.
Qed.

Lemma JsonValueListLength_GetList (jvl : JsonValueList) :
  JsonValueListLength jvl = Z.of_nat (List.length (JsonValueListGetList jvl)).
Proof.
  unfold JsonValueListLength, JsonValueListGetList.
  destruct (jvl_singleton jvl); reflexivity.
Qed.

Lemma JsonValueListHead_GetList (jvl : JsonValueList) :
  JsonValueListHead jvl = List.hd_error (JsonValueListGetList jvl).
Proof.
  unfold JsonValueListHead, JsonValueListGetList.
  destruct (jvl_singleton jvl); reflexivity.
Qed.

Lemma JsonValueListIsEmpty_GetList (jvl : JsonValueList) :
  JsonValueListIsEmpty jvl
  = match JsonValueListGetList jvl with [] => true | _ => false end.
Proof.
  unfold JsonValueListIsEmpty, JsonValueListGetList.
  destruct (jvl_singleton jvl); [reflexivity|].
  destruct (jvl_list jvl); reflexivity.
Qed.

(** *** Comparison kernel *)

Lemma jbvType_eqb_eq (a b : jbvType) : jbvType_eqb a b = true <-> a = b.
Proof. destruct a, b; cbn; split; intro H; try reflexivity; discriminate. Qed.

Lemma jbvType_eqb_neq (a b : jbvType) : jbvType_eqb a b = false <-> a <> b.
Proof.
  destruct a, b; cbn; split; intro H; try reflexivity; try discriminate;
    try (exfalso; apply H; reflexivity).
Qed.

(** C3: for each of the six comparison operators, comparing a JSON null with
    a non-null item (in either order) answers False, except for [<>] which
    answers True; comparing two non-null items of different kinds answers
    Unknown. *)
Theorem C3_compareItems_null_and_mixed_kinds :
  forall (op : JsonPathItemType) (jb1 jb2 : JsonbValue) (tz : bool),
    is_comparison op = true ->
    jbv_type jb1 <> jbv_type jb2 ->
    ((jbv_type jb1 = jbvNull \/ jbv_type jb2 = jbvNull) ->
     compareItems op jb1 jb2 tz
     = Done (match op with jpiNotEqual => jpbTrue | _ => jpbFalse end))
    /\ (jbv_type jb1 <> jbvNull -> jbv_type jb2 <> jbvNull ->
        compareItems op jb1 jb2 tz = Done jpbUnknown).
Proof.
  intros op jb1 jb2 tz _ Hdiff.
  apply jbvType_eqb_neq in Hdiff.
  unfold compareItems. rewrite Hdiff. cbn [negb].
  split.
  - intros [H | H]; rewrite H; cbn.
    + reflexivity.
    + rewrite orb_true_r. reflexivity.
  - intros H1 H2.
    apply jbvType_eqb_neq in H1, H2. rewrite H1, H2. reflexivity.
Qed.

(** C9: two JSON nulls compare as equal scalars: [==], [<=] and [>=] answer
    True; [<>], [<] and [>] answer False. *)
Theorem C9_compareItems_null_null :
  forall tz : bool,
    compareItems jpiEqual JsonbNull JsonbNull tz = Done jpbTrue
    /\ compareItems jpiNotEqual JsonbNull JsonbNull tz = Done jpbFalse
    /\ compareItems jpiLessOrEqual JsonbNull JsonbNull tz = Done jpbTrue
    /\ compareItems jpiGreaterOrEqual JsonbNull JsonbNull tz = Done jpbTrue
    /\ compareItems jpiLess JsonbNull JsonbNull tz = Done jpbFalse
    /\ compareItems jpiGreater JsonbNull JsonbNull tz = Done jpbFalse.
Proof. intro tz. repeat split; reflexivity. Qed.

Lemma int32_neg_sign (c : Z) : -1 <= c <= 1 -> int32_neg c = - c.
Proof.
  intro H. unfold int32_neg, int32_wrap.
  assert (c = -1 \/ c = 0 \/ c = 1) as [-> | [-> | ->]] by lia; reflexivity.
Qed.

(** C4: on the pairs of type tags the ladder marks comparable the cross-type
    comparison is antisymmetric, [cmp(a, b) = - cmp(b, a)] (both sides are
    refused alike when the timezone is required and not used); on every
    other pair each operator answers Unknown; and every entry marked as
    requiring timezone use raises FEATURE_NOT_SUPPORTED when [useTz] is
    false, from [compareDatetime] and from [compareItems] alike. *)
Theorem C4_datetime_ladder :
  DatetimeComparators ->
  forall (v1 v2 : Datum) (t1 t2 : Oid) (tz : bool),
    (datetime_comparable t1 t2 = true ->
     compareDatetime v1 t1 v2 t2 tz
     = negate_comparison (compareDatetime v2 t2 v1 t1 tz))
    /\ (datetime_comparable t1 t2 = false ->
        forall (op : JsonPathItemType) (m1 z1 m2 z2 : Z),
          compareItems op (JsonbDatetime v1 t1 m1 z1) (JsonbDatetime v2 t2 m2 z2) tz
          = Done jpbUnknown)
    /\ (datetime_requires_tz t1 t2 = true ->
        compareDatetime v1 t1 v2 t2 false = Raised ERRCODE_FEATURE_NOT_SUPPORTED
        /\ forall (op : JsonPathItemType) (m1 z1 m2 z2 : Z),
            compareItems op (JsonbDatetime v1 t1 m1 z1)
                         (JsonbDatetime v2 t2 m2 z2) false
            = Raised ERRCODE_FEATURE_NOT_SUPPORTED).
Proof.
  intros [Hd Ht Htz Hts Hdts Hdtstz Htstz] v1 v2 t1 t2 tz.
  split; [|split].
  - intro Hc.
    destruct t1, t2; try discriminate Hc; cbn;
      unfold cmpDateToTimestamp, cmpDateToTimestampTz,
        cmpTimestampToTimestampTz, castTimeToTimeTz,
        checkTimezoneIsUsedForCast;
      destruct tz; cbn;
      rewrite ?int32_neg_sign by auto;
      rewrite ?Z.opp_involutive;
      try reflexivity;
      first [ now rewrite (Hd v1 v2) | now rewrite (Ht v1 v2)
            | now rewrite (Htz v1 v2) | now rewrite (Hts v1 v2)
            | now rewrite (Htz (time_timetz v1) v2)
            | now rewrite (Htz v1 (time_timetz v2)) | idtac ].
  - intros Hc op m1 z1 m2 z2.
    destruct t1, t2; try discriminate Hc; reflexivity.
  - intro Hr.
    destruct t1, t2; try discriminate Hr; split; try reflexivity;
      intros op m1 z1 m2 z2; reflexivity.
Qed.

(** *** Item sequences, built and read back *)

Lemma JsonValueListNext_times_items (k : nat) (rest : list JsonbValue) :
  forall (v : option JsonbValue) (l : list JsonbValue),
    iterator_ok {| it_value := v; it_list := l; it_next := rest |} = true ->
    JsonValueListNext_times
      (List.length (iterator_items {| it_value := v; it_list := l; it_next := rest |}) + k)
      {| it_value := v; it_list := l; it_next := rest |}
    = List.map Some (iterator_items {| it_value := v; it_list := l; it_next := rest |})
      ++ List.repeat None k.
Proof.
  induction rest as [|w rest IH]; intros v l Hok.
  - destruct v as [x|]; unfold iterator_items; cbn.
    + f_equal. induction k as [|k IHk]; cbn; [reflexivity|].
      f_equal. exact IHk.
    + induction k as [|k IHk]; cbn; [reflexivity|]. f_equal. exact IHk.
  - destruct v as [x|]; [|discriminate Hok].
    unfold iterator_items in *. cbn [it_value it_next List.length Nat.add
                                     JsonValueListNext_times JsonValueListNext
                                     List.map app it_list].
    f_equal. apply (IH (Some w) l). reflexivity.
Qed.

(** X1: The items appended to an empty list, one by one, are what the list
    holds: [JsonValueListGetList] gives them back in order,
    [JsonValueListLength] counts them, [JsonValueListHead] is the first one,
    [JsonValueListIsEmpty] holds exactly when there is none, and an iterator
    returns each of them in order and NULL from then on, however often it is
    asked. *)
Theorem JsonValueList_reads_back_what_was_appended :
  forall (vs : list JsonbValue) (k : nat),
    let jvl := fold_left JsonValueListAppend vs JsonValueListEmpty in
    JsonValueListGetList jvl = vs
    /\ JsonValueListLength jvl = Z.of_nat (List.length vs)
    /\ JsonValueListHead jvl = List.hd_error vs
    /\ JsonValueListIsEmpty jvl = match vs with [] => true | _ => false end
    /\ JsonValueListNext_times (List.length vs + k) (JsonValueListInitIterator jvl)
       = List.map Some vs ++ List.repeat None k.
Proof.
  intros vs k jvl.
  assert (G : JsonValueListGetList jvl = vs).
  { unfold jvl. rewrite JsonValueListGetList_fold_Append. reflexivity. }
  split; [exact G|].
  split; [rewrite JsonValueListLength_GetList, G; reflexivity|].
  split; [rewrite JsonValueListHead_GetList, G; reflexivity|].
  split; [rewrite JsonValueListIsEmpty_GetList, G; reflexivity|].
  pose proof (JsonValueListItems_GetList jvl) as I.
  unfold JsonValueListItems in I. rewrite G in I.
  assert (Hok : iterator_ok (JsonValueListInitIterator jvl) = true).
  { unfold JsonValueListInitIterator, iterator_ok.
    destruct (jvl_singleton jvl); [reflexivity|].
    destruct (jvl_list jvl); reflexivity. }
  destruct (JsonValueListInitIterator jvl) as [v l rest].
  rewrite <- I. apply JsonValueListNext_times_items. exact Hok.
Qed.

(** *** Byte-wise string order *)

Lemma binaryCompareStrings_cons (c1 c2 : Ascii.ascii) (r1 r2 : string) :
  binaryCompareStrings (String c1 r1) (String c2 r2)
  = match N.compare (Ascii.N_of_ascii c1) (Ascii.N_of_ascii c2) with
    | Lt => -1
    | Gt => 1
    | Eq => binaryCompareStrings r1 r2
    end.
Proof.
  unfold binaryCompareStrings.
  cbn [String.length Nat.min memcmp Nat.eqb Nat.ltb Nat.leb].
  destruct (N.compare (Ascii.N_of_ascii c1) (Ascii.N_of_ascii c2)); reflexivity.
Qed.

Lemma binaryCompareStrings_empty_l (s : string) :
  binaryCompareStrings "" s = match s with EmptyString => 0 | _ => -1 end.
Proof. destruct s; reflexivity. Qed.

Lemma binaryCompareStrings_empty_r (s : string) :
  binaryCompareStrings s "" = match s with EmptyString => 0 | _ => 1 end.
Proof.
  destruct s as [|c r]; [reflexivity|].
  unfold binaryCompareStrings. cbn [String.length]. rewrite Nat.min_0_r.
  reflexivity.
Qed.

Lemma N_of_ascii_inj (c1 c2 : Ascii.ascii) :
  Ascii.N_of_ascii c1 = Ascii.N_of_ascii c2 -> c1 = c2.
Proof.
  intro E. rewrite <- (Ascii.ascii_N_embedding c1), <- (Ascii.ascii_N_embedding c2).
  now rewrite E.
Qed.

Lemma binaryCompareStrings_zero (s1 : string) :
  forall s2 : string, binaryCompareStrings s1 s2 = 0 <-> s1 = s2.
Proof.
  induction s1 as [|c1 r1 IH]; intros [|c2 r2].
  - split; reflexivity.
  - rewrite binaryCompareStrings_empty_l. split; discriminate.
  - rewrite binaryCompareStrings_empty_r. split; discriminate.
  - rewrite binaryCompareStrings_cons.
    destruct (N.compare_spec (Ascii.N_of_ascii c1) (Ascii.N_of_ascii c2))
      as [E | L | L].
    + apply N_of_ascii_inj in E. subst c2. rewrite IH.
      split; [intros ->; reflexivity | intro H; injection H as ->; reflexivity].
    + split; [discriminate|]. intro H. injection H as -> _. lia.
    + split; [discriminate|]. intro H. injection H as -> _. lia.
Qed.

Lemma binaryCompareStrings_antisym (s1 : string) :
  forall s2 : string, binaryCompareStrings s2 s1 = - binaryCompareStrings s1 s2.
Proof.
  induction s1 as [|c1 r1 IH]; intros [|c2 r2].
  - reflexivity.
  - reflexivity.
  - rewrite binaryCompareStrings_empty_l, binaryCompareStrings_empty_r.
    reflexivity.
  - rewrite !binaryCompareStrings_cons.
    rewrite (N.compare_antisym (Ascii.N_of_ascii c1) (Ascii.N_of_ascii c2)).
    destruct (N.compare (Ascii.N_of_ascii c1) (Ascii.N_of_ascii c2)); cbn;
      [apply IH | reflexivity | reflexivity].
Qed.

Lemma binaryCompareStrings_trans (s1 : string) :
  forall s2 s3 : string,
    binaryCompareStrings s1 s2 < 0 -> binaryCompareStrings s2 s3 < 0 ->
    binaryCompareStrings s1 s3 < 0.
Proof.
  induction s1 as [|c1 r1 IH]; intros [|c2 r2] [|c3 r3];
    rewrite ?binaryCompareStrings_empty_l, ?binaryCompareStrings_empty_r;
    try lia.
  rewrite !binaryCompareStrings_cons.
  destruct (N.compare_spec (Ascii.N_of_ascii c1) (Ascii.N_of_ascii c2))
    as [E12 | L12 | L12];
    destruct (N.compare_spec (Ascii.N_of_ascii c2) (Ascii.N_of_ascii c3))
      as [E23 | L23 | L23];
    destruct (N.compare_spec (Ascii.N_of_ascii c1) (Ascii.N_of_ascii c3))
      as [E13 | L13 | L13];
    try lia.
  apply IH.
Qed.

(** X2: [binaryCompareStrings] orders strings: it answers 0 exactly on equal
    strings, its sign flips when the operands are exchanged, "less" is
    transitive, a proper prefix is less than the string it starts, and
    otherwise the first differing byte decides. *)
Theorem binaryCompareStrings_is_a_total_order :
  (forall s1 s2 : string, binaryCompareStrings s1 s2 = 0 <-> s1 = s2)
  /\ (forall s1 s2 : string,
         binaryCompareStrings s1 s2 < 0 <-> binaryCompareStrings s2 s1 > 0)
  /\ (forall s1 s2 s3 : string,
         binaryCompareStrings s1 s2 < 0 -> binaryCompareStrings s2 s3 < 0 ->
         binaryCompareStrings s1 s3 < 0)
  /\ (forall (s : string) (c : Ascii.ascii) (r : string),
         binaryCompareStrings s (s ++ String c r) < 0)
  /\ (forall (p : string) (c1 c2 : Ascii.ascii) (r1 r2 : string),
         (Ascii.N_of_ascii c1 < Ascii.N_of_ascii c2)%N ->
         binaryCompareStrings (p ++ String c1 r1) (p ++ String c2 r2) < 0).
Proof.
  split; [|split; [|split; [|split]]].
  - intros s1 s2. apply binaryCompareStrings_zero.
  - intros s1 s2. rewrite (binaryCompareStrings_antisym s1 s2). lia.
  - intros s1 s2 s3. apply binaryCompareStrings_trans.
  - intros s c r. induction s as [|a s IH].
    + reflexivity.
    + cbn [String.append]. rewrite binaryCompareStrings_cons, N.compare_refl.
      exact IH.
  - intros p c1 c2 r1 r2 L. induction p as [|a p IH].
    + cbn [String.append]. rewrite binaryCompareStrings_cons.
      apply N.compare_lt_iff in L. rewrite L. lia.
    + cbn [String.append]. rewrite binaryCompareStrings_cons, N.compare_refl.
      exact IH.
Qed.

(** *** Strings under the comparison operators *)

Lemma compareStrings_zero (s1 s2 : string) :
  compareStrings s1 s2 = 0 <-> s1 = s2.
Proof.
  unfold compareStrings.
  destruct GetDatabaseEncoding; try apply binaryCompareStrings_zero.
  split.
  - destruct (pg_server_to_any s1) as [u1|], (pg_server_to_any s2) as [u2|];
      try (destruct (Z.eqb_spec (binaryCompareStrings u1 u2) 0) as [E|E];
           [apply binaryCompareStrings_zero | intro H; contradiction]);
      try (destruct (Z.eqb_spec (binaryCompareStrings u1 s2) 0) as [E|E];
           [apply binaryCompareStrings_zero | intro H; contradiction]);
      try (destruct (Z.eqb_spec (binaryCompareStrings s1 u2) 0) as [E|E];
           [apply binaryCompareStrings_zero | intro H; contradiction]).
    apply binaryCompareStrings_zero.
  - intros <-.
    destruct (pg_server_to_any s1) as [u1|].
    + rewrite (proj2 (binaryCompareStrings_zero u1 u1) eq_refl).
      change (0 =? 0) with true. cbv iota.
      apply binaryCompareStrings_zero. reflexivity.
    + apply binaryCompareStrings_zero. reflexivity.
Qed.

Lemma memcmp_equal_length (s1 : string) :
  forall s2 : string,
    Nat.eqb (String.length s1) (String.length s2)
    && (memcmp s1 s2 (String.length s1) =? 0)
    = String.eqb s1 s2.
Proof.
  induction s1 as [|c1 r1 IH]; intros [|c2 r2]; try reflexivity.
  cbn [String.length Nat.eqb memcmp String.eqb].
  destruct (N.compare_spec (Ascii.N_of_ascii c1) (Ascii.N_of_ascii c2))
    as [E | L | L].
  - apply N_of_ascii_inj in E. subst c2. rewrite Ascii.eqb_refl. apply IH.
  - rewrite andb_false_r. symmetry.
    destruct (Ascii.eqb_spec c1 c2) as [->|_]; [lia | reflexivity].
  - rewrite andb_false_r. symmetry.
    destruct (Ascii.eqb_spec c1 c2) as [->|_]; [lia | reflexivity].
Qed.

(** X3: Two strings under the six operators, in every database encoding: [==]
    holds exactly when the strings are equal byte for byte and [!=] exactly
    when they are not; exactly one of [<], [==] and [>] holds; [<=] is [<] or
    [==], and [>=] is [>] or [==].  The result is never Unknown and nothing is
    raised. *)
Theorem compareItems_strings_trichotomy :
  forall (s1 s2 : string) (tz : bool),
    let cmp (op : JsonPathItemType) :=
      compareItems op (JsonbString s1) (JsonbString s2) tz in
    cmp jpiEqual = Done (jpb_of_bool (String.eqb s1 s2))
    /\ cmp jpiNotEqual = Done (jpb_of_bool (negb (String.eqb s1 s2)))
    /\ (exists lt gt : bool,
           cmp jpiLess = Done (jpb_of_bool lt)
           /\ cmp jpiGreater = Done (jpb_of_bool gt)
           /\ cmp jpiLessOrEqual = Done (jpb_of_bool (lt || String.eqb s1 s2))
           /\ cmp jpiGreaterOrEqual = Done (jpb_of_bool (gt || String.eqb s1 s2))
           /\ (if String.eqb s1 s2 then lt = false /\ gt = false
               else lt = negb gt)).
Proof.
  intros s1 s2 tz cmp. unfold cmp, compareItems.
  cbn [jbv_type jbvType_eqb negb compare_result].
  pose proof (compareStrings_zero s1 s2) as Z0.
  split; [|split].
  - rewrite <- memcmp_equal_length.
    destruct (Nat.eqb (String.length s1) (String.length s2)),
      (memcmp s1 s2 (String.length s1) =? 0); reflexivity.
  - destruct (String.eqb_spec s1 s2) as [E|E].
    + rewrite (proj2 Z0 E). reflexivity.
    + destruct (Z.eqb_spec (compareStrings s1 s2) 0) as [C|C];
        [apply Z0 in C; contradiction | reflexivity].
  - exists (compareStrings s1 s2 <? 0), (compareStrings s1 s2 >? 0).
    unfold jpb_of_bool.
    destruct (String.eqb_spec s1 s2) as [E|E].
    + rewrite (proj2 Z0 E). repeat split; reflexivity.
    + assert (C : compareStrings s1 s2 <> 0) by (intro C; apply Z0 in C; contradiction).
      rewrite !orb_false_r.
      destruct (Z.ltb_spec (compareStrings s1 s2) 0),
        (Z.leb_spec (compareStrings s1 s2) 0);
        rewrite ?Z.gtb_ltb, ?Z.geb_leb;
        destruct (Z.ltb_spec 0 (compareStrings s1 s2)),
          (Z.leb_spec 0 (compareStrings s1 s2));
        try lia; repeat split; reflexivity.
Qed.

(** *** STARTS WITH *)

Lemma memcmp_prefix (s : string) :
  forall w : string,
    Nat.leb (String.length s) (String.length w)
    && (memcmp w s (String.length s) =? 0)
    = String.prefix s w.
Proof.
  induction s as [|c r IH]; intros [|d q]; try reflexivity.
  cbn [String.length Nat.leb memcmp String.prefix].
  destruct (N.compare_spec (Ascii.N_of_ascii d) (Ascii.N_of_ascii c))
    as [E | L | L].
  - apply N_of_ascii_inj in E. subst d.
    destruct (Ascii.ascii_dec c c) as [_|N]; [apply IH | contradiction].
  - rewrite andb_false_r.
    destruct (Ascii.ascii_dec c d) as [->|_]; [lia | reflexivity].
  - rewrite andb_false_r.
    destruct (Ascii.ascii_dec c d) as [->|_]; [lia | reflexivity].
Qed.

(** X4: [whole starts with initial] answers True exactly when both are strings
    and the second is a prefix of the first (the empty string is a prefix of
    every string), False when both are strings otherwise, and Unknown as soon
    as one of them is not a string. *)
Theorem executeStartsWith_is_the_prefix_test :
  forall whole initial : JsonbValue,
    executeStartsWith whole (Some initial)
    = Done match whole, initial with
           | JsonbString w, JsonbString s => jpb_of_bool (String.prefix s w)
           | _, _ => jpbUnknown
           end.
Proof.
  intros whole initial. unfold executeStartsWith, getScalar.
  destruct whole; cbn [jbv_type jbvType_eqb]; try reflexivity.
  destruct initial; cbn [jbv_type jbvType_eqb]; try reflexivity.
  rewrite memcmp_prefix. reflexivity.
Qed.

(** *** What a comparison raises *)

(** X5: A comparison raises in one case only: two datetime items whose types
    compare through a timezone, when the timezone is not to be used; the error
    is FEATURE_NOT_SUPPORTED.  On every other pair of items each of the six
    operators answers True, False or Unknown. *)
Theorem compareItems_raises_only_for_timezones :
  forall (op : JsonPathItemType) (jb1 jb2 : JsonbValue) (tz : bool)
         (e : ErrCode),
    is_comparison op = true ->
    compareItems op jb1 jb2 tz = Raised e ->
    e = ERRCODE_FEATURE_NOT_SUPPORTED
    /\ tz = false
    /\ exists (v1 v2 : Datum) (t1 t2 : Oid) (m1 z1 m2 z2 : Z),
        jb1 = JsonbDatetime v1 t1 m1 z1
        /\ jb2 = JsonbDatetime v2 t2 m2 z2
        /\ datetime_requires_tz t1 t2 = true.
Proof.
  intros op jb1 jb2 tz e Hop H.
  assert (R : forall c b, compare_result op c <> Raised b).
  { intros c b. destruct op; try discriminate Hop; discriminate. }
  unfold compareItems in H.
  destruct jb1 as [|s1|n1|b1|v1 t1 m1 z1|d1], jb2 as [|s2|n2|b2|v2 t2 m2 z2|d2];
    cbn [jbv_type jbvType_eqb negb orb] in H;
    try discriminate H;
    try (exfalso; exact (R _ _ H)).
  - destruct op; try discriminate Hop; try discriminate H;
      exfalso; exact (R _ _ H).
  - destruct t1, t2, tz;
      cbn in H; try discriminate H;
      try (exfalso; exact (R _ _ H));
      injection H as <-;
      (split; [reflexivity | split; [reflexivity|]]);
      repeat eexists.
Qed.

End Laws.

(** ** The walker *)

Section WalkerLaws.

Context {HT : HostTypes} {HO : HostOps}.

(** *** The walker's closure for the elements of an unwrapped array *)

(** With [unwrap] false no arm of the walker calls the closure it is given
    for the elements of an array. *)
Lemma executeItemBody_unwrap_false (walk : ItemWalker) (walkBool : BoolWalker)
    (self1 self2 : Step) (jsp : JsonPathItem) (jb : JsonbValue)
    (found : option JsonValueList) :
  executeItemBody walk walkBool self1 jsp jb found false
  = executeItemBody walk walkBool self2 jsp jb found false.
Proof.
  destruct jsp as [type value next | type l r next | type arg next
                  | type args next | elems next | first last next
                  | e p f next];
    try destruct type; try reflexivity.
Qed.

Lemma executeItemOptUnwrapTarget_unfold (jsp : JsonPathItem) (jb : JsonbValue)
    (found : option JsonValueList) (unwrap : bool) :
  executeItemOptUnwrapTarget jsp jb found unwrap
  = executeItemBody executeItemOptUnwrapTarget executeBoolItem
      (fun v f =>
         executeItemBody executeItemOptUnwrapTarget executeBoolItem
           (fun _ _ => ereport ERRCODE_INTERNAL_ERROR) jsp v f false)
      jsp jb found unwrap.
Proof. destruct jsp; reflexivity. Qed.

(** The elements of an unwrapped array are given to the same item by
    [executeItemOptUnwrapTarget] with [unwrap] false, as
    [executeItemUnwrapTargetArray] of the source does. *)
Lemma walker_self_is_the_item_without_unwrap (jsp : JsonPathItem)
    (v : JsonbValue) (f : option JsonValueList) :
  executeItemBody executeItemOptUnwrapTarget executeBoolItem
    (fun _ _ => ereport ERRCODE_INTERNAL_ERROR) jsp v f false
  = executeItemOptUnwrapTarget jsp v f false.
Proof.
  rewrite executeItemOptUnwrapTarget_unfold. apply executeItemBody_unwrap_false.
Qed.

Lemma singleton_numeric_spec (seq : JsonValueList) :
  singleton_numeric seq
  = match JsonValueListGetList seq with
    | [JsonbNumeric n] => Some n
    | _ => None
    end.
Proof.
  unfold singleton_numeric.
  rewrite JsonValueListLength_GetList, JsonValueListHead_GetList.
  destruct (JsonValueListGetList seq) as [|v [|w l]]; cbn [List.length hd_error].
  - reflexivity.
  - cbn. destruct v; reflexivity.
  - destruct (Z.eqb_spec (Z.of_nat (S (S (List.length l)))) 1) as [E|E];
      [lia|]. destruct v; reflexivity.
Qed.

Lemma singleton_numeric_none (seq : JsonValueList) :
  is_numeric_singleton (JsonValueListGetList seq) = false ->
  singleton_numeric seq = None.
Proof.
  intro H. rewrite singleton_numeric_spec. unfold is_numeric_singleton in H.
  destruct (JsonValueListGetList seq) as [|v [|w l]]; try reflexivity;
    destruct v; try reflexivity; discriminate H.
Qed.

(** C2 (as the code has it): in every mode, strict included, AND evaluates
    its left operand first and evaluates the right operand exactly when the
    left result is not False (True or Unknown); OR evaluates the right
    operand exactly when the left result is not True.  The result follows
    Kleene logic. *)
Theorem C2_and_or_evaluate_right_operand_on_demand :
  forall (larg rarg : JsonPathItem) (jb : JsonbValue) (canHaveNext : bool)
         (cxt : JsonPathExecContext),
    executeBoolItem (jspArgs jpiAnd larg rarg None) jb canHaveNext cxt
    = match executeBoolItem larg jb false cxt with
      | Raised e => Raised e
      | Done (jpbFalse, cxt1) => Done (jpbFalse, cxt1)
      | Done (res, cxt1) =>
          match executeBoolItem rarg jb false cxt1 with
          | Raised e => Raised e
          | Done (res2, cxt2) => Done (kleene_and res res2, cxt2)
          end
      end
    /\ executeBoolItem (jspArgs jpiOr larg rarg None) jb canHaveNext cxt
       = match executeBoolItem larg jb false cxt with
         | Raised e => Raised e
         | Done (jpbTrue, cxt1) => Done (jpbTrue, cxt1)
         | Done (res, cxt1) =>
             match executeBoolItem rarg jb false cxt1 with
             | Raised e => Raised e
             | Done (res2, cxt2) => Done (kleene_or res res2, cxt2)
             end
         end.
Proof.
  intros larg rarg jb canHaveNext cxt.
  split.
  - change (executeBoolItem (jspArgs jpiAnd larg rarg None) jb canHaveNext cxt)
      with (executeBoolItemBody executeItemOptUnwrapTarget executeBoolItem
              (jspArgs jpiAnd larg rarg None) jb canHaveNext cxt).
    unfold executeBoolItemBody, jspHasNext. cbn [jspGetNext].
    rewrite andb_false_r. unfold bind at 1.
    destruct (executeBoolItem larg jb false cxt) as [[res cxt1]|e]; [|reflexivity].
    destruct res; cbn [JsonPathBool_eqb]; try reflexivity;
      unfold bind, ret;
      destruct (executeBoolItem rarg jb false cxt1) as [[res2 cxt2]|e];
      try reflexivity; destruct res2; reflexivity.
  - change (executeBoolItem (jspArgs jpiOr larg rarg None) jb canHaveNext cxt)
      with (executeBoolItemBody executeItemOptUnwrapTarget executeBoolItem
              (jspArgs jpiOr larg rarg None) jb canHaveNext cxt).
    unfold executeBoolItemBody, jspHasNext. cbn [jspGetNext].
    rewrite andb_false_r. unfold bind at 1.
    destruct (executeBoolItem larg jb false cxt) as [[res cxt1]|e]; [|reflexivity].
    destruct res; cbn [JsonPathBool_eqb]; try reflexivity;
      unfold bind, ret;
      destruct (executeBoolItem rarg jb false cxt1) as [[res2 cxt2]|e];
      try reflexivity; destruct res2; reflexivity.
Qed.

(** The arm of the walker for a binary arithmetic item. *)
Lemma executeItem_binary_arith (op : JsonPathItemType)
    (larg rarg : JsonPathItem) (next : option JsonPathItem) (jb : JsonbValue)
    (found : option JsonValueList) (unwrap : bool) :
  is_binary_arith op = true ->
  exists func : BinaryArithmFunc,
    executeItemOptUnwrapTarget (jspArgs op larg rarg next) jb found unwrap
    = executeBinaryArithmExpr executeItemOptUnwrapTarget larg rarg next jb
                              func found.
Proof.
  intro H. destruct op; try discriminate H;
    eexists; reflexivity.
Qed.

(** C5: for each binary arithmetic operator, both operands are evaluated
    with lax result-unwrapping (the left one first, the right one in the
    context the left one leaves); when both evaluations succeed and one of
    the two sequences is not exactly one numeric value, the operation fails
    with SINGLETON_SQL_JSON_ITEM_REQUIRED: raised when [throwErrors] is set,
    returned as the [jperError] status otherwise. *)
Theorem C5_binary_arith_requires_numeric_singletons :
  forall (op : JsonPathItemType) (larg rarg : JsonPathItem)
         (next : option JsonPathItem) (jb : JsonbValue)
         (found : option JsonValueList) (unwrap : bool)
         (cxt cxt1 cxt2 : JsonPathExecContext)
         (jperL jperR : JsonPathExecResult) (lseq rseq : option JsonValueList),
    is_binary_arith op = true ->
    operand_sequence larg jb cxt = Done ((jperL, lseq), cxt1) ->
    jperIsError jperL = false ->
    operand_sequence rarg jb cxt1 = Done ((jperR, rseq), cxt2) ->
    jperIsError jperR = false ->
    is_numeric_singleton (JsonValueListGetList (found_list lseq))
    && is_numeric_singleton (JsonValueListGetList (found_list rseq)) = false ->
    executeItemOptUnwrapTarget (jspArgs op larg rarg next) jb found unwrap cxt
    = if throwErrors cxt2
      then Raised ERRCODE_SINGLETON_SQL_JSON_ITEM_REQUIRED
      else Done ((jperError, found), cxt2).
Proof.
  intros op larg rarg next jb found unwrap cxt cxt1 cxt2 jperL jperR lseq rseq
         Hop HL HeL HR HeR Hsing.
  destruct (executeItem_binary_arith op larg rarg next jb found unwrap Hop)
    as [func ->].
  unfold operand_sequence in HL, HR.
  unfold executeBinaryArithmExpr.
  unfold bind at 1. rewrite HL. rewrite HeL.
  unfold bind at 1. rewrite HR. rewrite HeR.
  apply andb_false_iff in Hsing as [Hs | Hs].
  - rewrite (singleton_numeric_none _ Hs). reflexivity.
  - destruct (singleton_numeric (found_list lseq)).
    + rewrite (singleton_numeric_none _ Hs). reflexivity.
    + reflexivity.
Qed.

Lemma executeItem_unary_arith (op : JsonPathItemType) (arg : JsonPathItem)
    (next : option JsonPathItem) (jb : JsonbValue)
    (found : option JsonValueList) (unwrap : bool) :
  is_unary_arith op = true ->
  executeItemOptUnwrapTarget (jspArg op arg next) jb found unwrap
  = executeUnaryArithmExpr executeItemOptUnwrapTarget arg next jb
                           (unary_func op) found.
Proof. intro H. destruct op; try discriminate H; reflexivity. Qed.

Lemma apply_unary_func (op : JsonPathItemType) (n : Numeric) :
  match unary_func op with Some f => f n | None => n end = apply_unary op n.
Proof. destruct op; reflexivity. Qed.

(** The loop of the unary operators over a run of numerics, when results are
    collected and no item follows: every numeric is transformed and
    appended, in order. *)
Lemma executeUnaryArithmExpr_loop_numerics (op : JsonPathItemType)
    (fl0 : JsonValueList) (ns : list Numeric) :
  forall (tail : list JsonbValue) (jper : JsonPathExecResult)
         (fl : JsonValueList) (cxt : JsonPathExecContext),
    executeUnaryArithmExpr_loop executeItemOptUnwrapTarget None (unary_func op)
      (Some fl0) (List.map JsonbNumeric ns ++ tail) jper (Some fl) cxt
    = executeUnaryArithmExpr_loop executeItemOptUnwrapTarget None (unary_func op)
        (Some fl0) tail
        (match ns with [] => jper | _ => jperOk end)
        (Some (fold_left JsonValueListAppend
                 (List.map (fun n => JsonbNumeric (apply_unary op n)) ns) fl))
        cxt.
Proof.
  induction ns as [|n ns IH]; intros tail jper fl cxt.
  - reflexivity.
  - cbn [List.map app executeUnaryArithmExpr_loop getScalar jbv_type
           jbvType_eqb found_is_null andb negb fold_left].
    unfold bind at 1. cbn [executeNextItem ret found_append].
    cbn [jperIsError JsonPathExecResult_eqb].
    rewrite IH. rewrite apply_unary_func.
    destruct ns; reflexivity.
Qed.

(** The loop over a run of numerics followed by any items, when an item
    follows or results are collected: every numeric is transformed and
    handed to the rest of the path; the loop goes on with the items after
    the run unless the rest of the path ended it. *)
Lemma executeUnaryArithmExpr_loop_hands_on (op : JsonPathItemType)
    (next : option JsonPathItem) (found : option JsonValueList)
    (ns : list Numeric) :
  has_next next || negb (found_is_null found) = true ->
  forall (tail : list JsonbValue) (jper : JsonPathExecResult)
         (fnd : option JsonValueList) (cxt : JsonPathExecContext),
    jper = jperNotFound \/ (jper = jperOk /\ found_is_null found = false) ->
    executeUnaryArithmExpr_loop executeItemOptUnwrapTarget next (unary_func op)
      found (List.map JsonbNumeric ns ++ tail) jper fnd cxt
    = match hand_on_each (executeNextItem executeItemOptUnwrapTarget next)
              (found_is_null found)
              (List.map (fun n => JsonbNumeric (apply_unary op n)) ns)
              jper fnd cxt with
      | Raised e => Raised e
      | Done ((r, f), cxt') =>
          if jperIsError r
             || (JsonPathExecResult_eqb r jperOk && found_is_null found)
          then Done ((r, f), cxt')
          else executeUnaryArithmExpr_loop executeItemOptUnwrapTarget next
                 (unary_func op) found tail r f cxt'
      end.
Proof.
  intros Hmode.
  assert (Hskip : found_is_null found && negb (has_next next) = false).
  { destruct next, found; cbn in *; congruence. }
  induction ns as [|n ns IH]; intros tail jper fnd cxt Hjper.
  - cbn [List.map app hand_on_each].
    destruct Hjper as [-> | [-> ->]]; reflexivity.
  - cbn [List.map app executeUnaryArithmExpr_loop getScalar jbv_type
           jbvType_eqb hand_on_each].
    fold (has_next next). rewrite Hskip. rewrite apply_unary_func.
    unfold bind at 1.
    destruct (executeNextItem executeItemOptUnwrapTarget next
                (JsonbNumeric (apply_unary op n)) fnd cxt)
      as [[[r f] cxt']|e]; [|reflexivity].
    destruct r; cbn [jperIsError JsonPathExecResult_eqb orb andb].
    + destruct (found_is_null found) eqn:Efn.
      * reflexivity.
      * apply IH. right. split; reflexivity.
    + apply IH. exact Hjper.
    + reflexivity.
Qed.

(** C10: the unary operators impose no singleton requirement.  The operand
    is evaluated with lax result-unwrapping, and the operator is applied to
    the items of the sequence one by one, whatever their number.  When an
    item follows or results are collected, (1) over a sequence of numerics
    every item is transformed and handed to the rest of the path, in order;
    an error of the rest of the path ends the run, and so does its first
    [jperOk] when no result list is kept; (2) the first non-numeric item the
    run reaches fails it with SQL_JSON_NUMBER_NOT_FOUND, thrown when
    [throwErrors] is set and returned as [jperError] otherwise, the numerics
    before it having been handed on.  At the end of a path with a result
    list that is (3) one output item per input item, appended in order
    ([jperNotFound] for the empty sequence), and (4) the outputs for the
    numerics before the first non-numeric appended when the operation
    fails.  (5) When only existence is asked for and no item follows,
    nothing is transformed and a non-numeric is not an error: the answer is
    [jperOk] exactly when the sequence holds a numeric. *)
Theorem C10_unary_arith_is_elementwise :
  forall (op : JsonPathItemType) (arg : JsonPathItem) (jb : JsonbValue)
         (unwrap : bool) (cxt cxt1 : JsonPathExecContext)
         (jper : JsonPathExecResult) (seq : option JsonValueList),
    is_unary_arith op = true ->
    operand_sequence arg jb cxt = Done ((jper, seq), cxt1) ->
    jperIsError jper = false ->
    let items := JsonValueListGetList (found_list seq) in
    let output (n : Numeric) := JsonbNumeric (apply_unary op n) in
    let rest (next : option JsonPathItem) :=
      executeNextItem executeItemOptUnwrapTarget next in
    (forall (next : option JsonPathItem) (found : option JsonValueList)
            (ns : list Numeric),
        has_next next || negb (found_is_null found) = true ->
        items = List.map JsonbNumeric ns ->
        executeItemOptUnwrapTarget (jspArg op arg next) jb found unwrap cxt
        = hand_on_each (rest next) (found_is_null found) (List.map output ns)
            jperNotFound found cxt1)
    /\ (forall (next : option JsonPathItem) (found : option JsonValueList)
               (ns : list Numeric) (v : JsonbValue) (others : list JsonbValue),
           has_next next || negb (found_is_null found) = true ->
           items = List.map JsonbNumeric ns ++ v :: others ->
           jbv_type v <> jbvNumeric ->
           executeItemOptUnwrapTarget (jspArg op arg next) jb found unwrap cxt
           = match hand_on_each (rest next) (found_is_null found)
                     (List.map output ns) jperNotFound found cxt1 with
             | Raised e => Raised e
             | Done ((r, f), cxt2) =>
                 if jperIsError r
                    || (JsonPathExecResult_eqb r jperOk && found_is_null found)
                 then Done ((r, f), cxt2)
                 else if throwErrors cxt2
                      then Raised ERRCODE_SQL_JSON_NUMBER_NOT_FOUND
                      else Done ((jperError, f), cxt2)
             end)
    /\ (forall (fl : JsonValueList) (ns : list Numeric),
           items = List.map JsonbNumeric ns ->
           executeItemOptUnwrapTarget (jspArg op arg None) jb (Some fl) unwrap
             cxt
           = Done ((match ns with [] => jperNotFound | _ => jperOk end,
                    Some (fold_left JsonValueListAppend (List.map output ns)
                            fl)),
                   cxt1))
    /\ (forall (fl : JsonValueList) (ns : list Numeric) (v : JsonbValue)
               (others : list JsonbValue),
           items = List.map JsonbNumeric ns ++ v :: others ->
           jbv_type v <> jbvNumeric ->
           executeItemOptUnwrapTarget (jspArg op arg None) jb (Some fl) unwrap
             cxt
           = if throwErrors cxt1
             then Raised ERRCODE_SQL_JSON_NUMBER_NOT_FOUND
             else Done ((jperError,
                         Some (fold_left JsonValueListAppend
                                 (List.map output ns) fl)),
                        cxt1))
    /\ executeItemOptUnwrapTarget (jspArg op arg None) jb None unwrap cxt
       = Done ((if has_numeric items then jperOk else jperNotFound, None),
               cxt1).
Proof.
  intros op arg jb unwrap cxt cxt1 jper seq Hop Hseq Herr items output rest.
  assert (E : forall (next : option JsonPathItem)
                     (found : option JsonValueList),
             executeItemOptUnwrapTarget (jspArg op arg next) jb found unwrap
               cxt
             = executeUnaryArithmExpr_loop executeItemOptUnwrapTarget next
                 (unary_func op) found items jperNotFound found cxt1).
  { intros next found.
    rewrite (executeItem_unary_arith op arg next jb found unwrap Hop).
    unfold executeUnaryArithmExpr, operand_sequence in *.
    unfold bind at 1. rewrite Hseq, Herr.
    rewrite JsonValueListItems_GetList. reflexivity. }
  split; [|split; [|split; [|split]]].
  - intros next found ns Hmode Hns. rewrite E, Hns.
    rewrite <- (app_nil_r (List.map JsonbNumeric ns)).
    rewrite (executeUnaryArithmExpr_loop_hands_on op next found ns Hmode)
      by (left; reflexivity).
    unfold rest, output.
    destruct (hand_on_each _ _ _ _ _ _) as [[[r f] cxt2]|e]; [|reflexivity].
    cbn [executeUnaryArithmExpr_loop]. unfold ret.
    destruct (jperIsError r
              || JsonPathExecResult_eqb r jperOk && found_is_null found);
      reflexivity.
  - intros next found ns v others Hmode Hns Hv. rewrite E, Hns.
    rewrite (executeUnaryArithmExpr_loop_hands_on op next found ns Hmode)
      by (left; reflexivity).
    unfold rest, output.
    destruct (hand_on_each _ _ _ _ _ _) as [[[r f] cxt2]|e]; [|reflexivity].
    destruct (jperIsError r
              || JsonPathExecResult_eqb r jperOk && found_is_null found);
      [reflexivity|].
    cbn [executeUnaryArithmExpr_loop]. unfold getScalar.
    apply jbvType_eqb_neq in Hv. rewrite Hv.
    fold (has_next next).
    assert (Hskip : found_is_null found && negb (has_next next) = false)
      by (destruct next, found; cbn in *; congruence).
    rewrite Hskip. reflexivity.
  - intros fl ns Hns. rewrite E, Hns.
    rewrite <- (app_nil_r (List.map JsonbNumeric ns)).
    rewrite executeUnaryArithmExpr_loop_numerics. reflexivity.
  - intros fl ns v others Hns Hv. rewrite E, Hns.
    rewrite executeUnaryArithmExpr_loop_numerics.
    cbn [executeUnaryArithmExpr_loop].
    unfold getScalar.
    apply jbvType_eqb_neq in Hv. rewrite Hv.
    reflexivity.
  - rewrite E. generalize items. clear.
    assert (L : forall (vs : list JsonbValue) (cxt : JsonPathExecContext),
               executeUnaryArithmExpr_loop executeItemOptUnwrapTarget None
                 (unary_func op) None vs jperNotFound None cxt
               = Done ((if has_numeric vs then jperOk else jperNotFound, None),
                       cxt)).
    { induction vs as [|v vs IH]; intro cxt; [reflexivity|].
      cbn [executeUnaryArithmExpr_loop has_numeric List.existsb].
      unfold getScalar.
      destruct v; cbn [jbv_type jbvType_eqb found_is_null negb andb orb];
        try apply IH; reflexivity. }
    intro vs. apply L.
Qed.

(** *** The identifiers of [.keyvalue()] *)





(** *** Entry points *)


(** C7: the match operation answers the boolean when the evaluation produces
    exactly one boolean item, SQL null when it produces exactly one JSON null
    item, and in every other case (no item, several items, or one item that
    is neither) raises SINGLETON_SQL_JSON_ITEM_REQUIRED when [silent] is
    false and answers SQL null when [silent] is true; it fails as the
    evaluation fails. *)
Theorem C7_match_expects_one_boolean_or_null :
  forall (jb : Jsonb) (jp : JsonPath) (args : option (Jsonb * bool)) (tz : bool),
    jsonb_path_match_internal jb jp args tz
    = match executeJsonPath jp (arg_vars args) getJsonPathVariableFromJsonb
                            countVariablesFromJsonb jb (negb (arg_silent args))
                            (Some JsonValueListEmpty) tz with
      | Raised err => Raised err
      | Done (_, found) =>
          match JsonValueListGetList (found_list found) with
          | [JsonbBool b] => Done (Some b)
          | [JsonbNull] => Done None
          | _ => if arg_silent args then Done None
                 else Raised ERRCODE_SINGLETON_SQL_JSON_ITEM_REQUIRED
          end
      end.
Proof.
  intros jb jp args tz. unfold jsonb_path_match_internal.
  destruct (executeJsonPath jp (arg_vars args) getJsonPathVariableFromJsonb
              countVariablesFromJsonb jb (negb (arg_silent args))
              (Some JsonValueListEmpty) tz) as [[res found]|err];
    [|reflexivity].
  cbn [obind].
  rewrite JsonValueListLength_GetList, JsonValueListHead_GetList.
  destruct (JsonValueListGetList (found_list found)) as [|v [|w l]].
  - cbn. destruct (arg_silent args); reflexivity.
  - cbn. destruct v, (arg_silent args); reflexivity.
  - destruct (Z.eqb_spec (Z.of_nat (List.length (v :: w :: l))) 1) as [E|_];
      [cbn [List.length] in E; lia|].
    destruct v, (arg_silent args); reflexivity.
Qed.

(** *** Contexts saved and restored *)

Lemma set_baseObject_same (cxt : JsonPathExecContext) :
  set_baseObject (baseObject cxt) cxt = cxt.
Proof. destruct cxt; reflexivity. Qed.

Lemma set_current_same (cxt : JsonPathExecContext) :
  set_current (current cxt) cxt = cxt.
Proof. destruct cxt; reflexivity. Qed.

Lemma set_throwErrors_same (cxt : JsonPathExecContext) :
  set_throwErrors (throwErrors cxt) cxt = cxt.
Proof. destruct cxt; reflexivity. Qed.

Lemma set_ignoreStructuralErrors_same (cxt : JsonPathExecContext) :
  set_ignoreStructuralErrors (ignoreStructuralErrors cxt) cxt = cxt.
Proof. destruct cxt; reflexivity. Qed.

Lemma set_innermostArraySize_same (cxt : JsonPathExecContext) :
  set_innermostArraySize (innermostArraySize cxt) cxt = cxt.
Proof. destruct cxt; reflexivity. Qed.

(** *** The values of one container, without descent *)

Ltac walker_unfold :=
  rewrite executeItemOptUnwrapTarget_unfold;
  match goal with
  | |- context [executeItemBody ?w ?b ?s ?jsp ?jb ?f ?u] =>
      let self := fresh "self" in
      set (self := s);
      cbv beta iota zeta delta [executeItemBody];
      subst self
  end.

Ltac run_exec :=
  cbv beta iota zeta delta
    [bind gets modify ret lift ereport RETURN_ERROR jspIgnoreStructuralErrors
     jspThrowErrors jspAutoUnwrap jspAutoWrap jspStrictAbsenceOfErrors].

Lemma executeAnyItem_collects (h : JsonbContainerKind) (a : Z)
    (ks : list string) (vs : list JsonbValue) (fl : JsonValueList)
    (cxt : JsonPathExecContext) :
  executeAnyItem None (JsonbContainerC h a ks vs) (Some fl) 1 1 1 false cxt
  = Done ((jperNotFound, Some (fold_left JsonValueListAppend vs fl)), cxt).
Proof.
  cbn [executeAnyItem]. change (1 >? 1) with false. cbv iota.
  match goal with
  | |- ?loop vs jperNotFound (Some fl) cxt = _ =>
      assert (L : forall (ws : list JsonbValue) (res : JsonPathExecResult)
                         (l : JsonValueList),
                 loop ws res (Some l) cxt
                 = Done ((res, Some (fold_left JsonValueListAppend ws l)), cxt))
  end.
  { induction ws as [|w ws IH]; intros res l.
    - reflexivity.
    - cbn [fold_left]. rewrite <- IH.
      destruct w; reflexivity. }
  apply L.
Qed.

Lemma executeAnyItem_exists (h : JsonbContainerKind) (a : Z)
    (ks : list string) (vs : list JsonbValue) (cxt : JsonPathExecContext) :
  executeAnyItem None (JsonbContainerC h a ks vs) None 1 1 1 false cxt
  = Done ((match vs with [] => jperNotFound | _ => jperOk end, None), cxt).
Proof. destruct vs; reflexivity. Qed.

Lemma executeAnyItem_each (run : Step) (h : JsonbContainerKind) (a : Z)
    (ks : list string) (vs : list JsonbValue) (found : option JsonValueList)
    (cxt : JsonPathExecContext) :
  executeAnyItem (Some run) (JsonbContainerC h a ks vs) found 1 1 1 false cxt
  = each_element run (found_is_null found) vs jperNotFound found cxt.
Proof.
  cbn [executeAnyItem]. change (1 >? 1) with false. cbv iota.
  match goal with
  | |- ?loop vs jperNotFound found cxt = _ =>
      assert (L : forall (ws : list JsonbValue) (res : JsonPathExecResult)
                         (fnd : option JsonValueList) (c : JsonPathExecContext),
                 loop ws res fnd c
                 = each_element run (found_is_null found) ws res fnd c)
  end.
  { induction ws as [|w ws IH]; intros res fnd c.
    - reflexivity.
    - cbn [each_element]. change (1 >=? 1) with true. change (1 <? 1) with false.
      cbn [orb]. run_exec.
      destruct (run w fnd c) as [[[r f] c']|e]; [|reflexivity].
      destruct (jperIsError r); [reflexivity|].
      destruct (JsonPathExecResult_eqb r jperOk && found_is_null found);
        [reflexivity|].
      rewrite <- IH. destruct w; reflexivity. }
  apply L.
Qed.

Lemma each_element_ext (run1 run2 : Step) (stop : bool) :
  (forall v f c, run1 v f c = run2 v f c) ->
  forall (vs : list JsonbValue) (res : JsonPathExecResult)
         (fnd : option JsonValueList) (cxt : JsonPathExecContext),
    each_element run1 stop vs res fnd cxt = each_element run2 stop vs res fnd cxt.
Proof.
  intros E vs. induction vs as [|v vs IH]; intros res fnd cxt.
  - reflexivity.
  - cbn [each_element]. rewrite E.
    destruct (run2 v fnd cxt) as [[[r f] c']|e]; [|reflexivity].
    destruct (jperIsError r); [reflexivity|].
    destruct (JsonPathExecResult_eqb r jperOk && stop); [reflexivity|].
    apply IH.
Qed.

(** What [executeItemUnwrapTargetArray] does for an item applied to an
    array it is to unwrap: the item is run on each element, without further
    unwrapping. *)
Lemma unwrap_target_array (jsp : JsonPathItem) (h : JsonbContainerKind)
    (a : Z) (ks : list string) (vs : list JsonbValue)
    (found : option JsonValueList) (cxt : JsonPathExecContext) :
  executeItemUnwrapTargetArray
    (Some (fun v f =>
             executeItemBody executeItemOptUnwrapTarget executeBoolItem
               (fun _ _ => ereport ERRCODE_INTERNAL_ERROR) jsp v f false))
    (JsonbBinary (JsonbContainerC h a ks vs)) found cxt
  = each_element (fun v f => executeItemOptUnwrapTarget jsp v f false)
      (found_is_null found) vs jperNotFound found cxt.
Proof.
  cbv beta iota delta [executeItemUnwrapTargetArray].
  rewrite executeAnyItem_each. apply each_element_ext.
  intros v f c. rewrite walker_self_is_the_item_without_unwrap. reflexivity.
Qed.

(** *** Member accessor *)

Lemma structural_error_run (e : ErrCode) (found : option JsonValueList)
    (cxt : JsonPathExecContext) :
  bind (gets jspIgnoreStructuralErrors)
       (fun ignore => if negb ignore then RETURN_ERROR e found
                      else ret (jperNotFound, found)) cxt
  = structural_error e found cxt.
Proof.
  unfold structural_error. run_exec.
  destruct (ignoreStructuralErrors cxt); cbn [negb]; [reflexivity|].
  destruct (throwErrors cxt); reflexivity.
Qed.

Lemma JsonbType_not_object_not_array (jb : JsonbValue) :
  JsonbType jb <> jbvObject -> JsonbType jb <> jbvArray ->
  match jb with JsonbBinary _ => False | _ => True end.
Proof.
  destruct jb as [| | | | |data]; try (intros; exact I).
  cbn [JsonbType]. destruct (JsonContainerIsObject data); intros H1 H2;
    [apply H1 | apply H2]; reflexivity.
Qed.

(** X6: The member accessor [.key].  On an object it hands the value stored
    under the key to the rest of the path; a missing key is a structural error
    (MEMBER_NOT_FOUND).  On an array that is to be unwrapped (lax mode) it is
    applied to each element in turn, without further unwrapping.  On anything
    else it is the structural error. *)
Theorem member_accessor :
  forall (key : string) (next : option JsonPathItem)
         (found : option JsonValueList) (cxt : JsonPathExecContext),
    let item := jspValue jpiKey (JspString key) next in
    (forall (unwrap : bool) (addr : Z) (ks : list string) (vs : list JsonbValue),
        executeItemOptUnwrapTarget item
          (JsonbBinary (JsonbContainerC JB_FOBJECT addr ks vs)) found unwrap cxt
        = match find_pair key ks vs with
          | Some v => executeNextItem executeItemOptUnwrapTarget next v found cxt
          | None => structural_error ERRCODE_SQL_JSON_MEMBER_NOT_FOUND found cxt
          end)
    /\ (forall (addr : Z) (ks : list string) (vs : list JsonbValue),
           executeItemOptUnwrapTarget item
             (JsonbBinary (JsonbContainerC JB_FARRAY addr ks vs)) found true cxt
           = each_element (fun v f => executeItemOptUnwrapTarget item v f false)
               (found_is_null found) vs jperNotFound found cxt)
    /\ (forall (unwrap : bool) (jb : JsonbValue),
           JsonbType jb <> jbvObject ->
           unwrap = false \/ JsonbType jb <> jbvArray ->
           executeItemOptUnwrapTarget item jb found unwrap cxt
           = structural_error ERRCODE_SQL_JSON_MEMBER_NOT_FOUND found cxt).
Proof.
  intros key next found cxt item. unfold item. split; [|split].
  - intros unwrap addr ks vs. walker_unfold.
    cbn [JsonbType JsonContainerIsObject container_header jbvType_eqb
         findJsonbValueFromContainer container_keys container_children].
    destruct (find_pair key ks vs) as [v|]; [reflexivity|].
    unfold structural_error. run_exec.
    destruct (ignoreStructuralErrors cxt); cbn [negb]; [reflexivity|].
    destruct (throwErrors cxt); reflexivity.
  - intros addr ks vs. walker_unfold.
    cbn [JsonbType JsonContainerIsObject container_header jbvType_eqb andb].
    apply unwrap_target_array.
  - intros unwrap jb Hobj Harr. walker_unfold.
    destruct jb as [| | | | |data]; try apply structural_error_run.
    apply jbvType_eqb_neq in Hobj. rewrite Hobj.
    destruct Harr as [-> | Harr].
    + apply structural_error_run.
    + apply jbvType_eqb_neq in Harr. rewrite Harr, andb_false_r.
      apply structural_error_run.
Qed.

(** *** Wildcard accessors *)

(** X7: The wildcard array accessor [[*]].  On an array: when it ends the path
    every element is selected, in stored order; when an item follows, that item
    is run on each element (unwrapping it in lax mode).  On anything else: in
    lax mode the value stands for the one-element array holding it and goes to
    the rest of the path; otherwise it is the structural error ARRAY_NOT_FOUND.
    *)
Theorem wildcard_array_accessor :
  forall (args : list JspValue) (next : option JsonPathItem)
         (found : option JsonValueList) (unwrap : bool)
         (cxt : JsonPathExecContext),
    let item := jspLeaf jpiAnyArray args next in
    (forall (addr : Z) (ks : list string) (vs : list JsonbValue),
        executeItemOptUnwrapTarget item
          (JsonbBinary (JsonbContainerC JB_FARRAY addr ks vs)) found unwrap cxt
        = match next with
          | None => select_all vs found cxt
          | Some n =>
              each_element
                (fun v f => executeItemOptUnwrapTarget n v f (laxMode cxt))
                (found_is_null found) vs jperNotFound found cxt
          end)
    /\ (forall jb : JsonbValue,
           JsonbType jb <> jbvArray ->
           executeItemOptUnwrapTarget item jb found unwrap cxt
           = if laxMode cxt
             then executeNextItem executeItemOptUnwrapTarget next jb found cxt
             else structural_error ERRCODE_SQL_JSON_ARRAY_NOT_FOUND found cxt).
Proof.
  intros args next found unwrap cxt item. unfold item. split.
  - intros addr ks vs. walker_unfold.
    cbn [JsonbType JsonContainerIsObject container_header jbvType_eqb].
    run_exec. cbv beta iota delta [executeItemUnwrapTargetArray next_step].
    destruct next as [n|].
    + apply executeAnyItem_each.
    + unfold select_all. destruct found as [fl|].
      * apply executeAnyItem_collects.
      * apply executeAnyItem_exists.
  - intros jb Harr. walker_unfold.
    apply jbvType_eqb_neq in Harr. rewrite Harr. run_exec.
    destruct (laxMode cxt); [reflexivity|].
    unfold structural_error.
    destruct (ignoreStructuralErrors cxt); cbn [negb]; [reflexivity|].
    destruct (throwErrors cxt); reflexivity.
Qed.

(** X8: The wildcard member accessor [.*].  On an object: when it ends the path
    every member value is selected, in stored order; when an item follows, that
    item is run on each value.  On an array that is to be unwrapped it is
    applied to each element; on anything else it is the structural error
    OBJECT_NOT_FOUND. *)
Theorem wildcard_member_accessor :
  forall (args : list JspValue) (next : option JsonPathItem)
         (found : option JsonValueList) (cxt : JsonPathExecContext),
    let item := jspLeaf jpiAnyKey args next in
    (forall (unwrap : bool) (addr : Z) (ks : list string) (vs : list JsonbValue),
        executeItemOptUnwrapTarget item
          (JsonbBinary (JsonbContainerC JB_FOBJECT addr ks vs)) found unwrap cxt
        = match next with
          | None => select_all vs found cxt
          | Some n =>
              each_element
                (fun v f => executeItemOptUnwrapTarget n v f (laxMode cxt))
                (found_is_null found) vs jperNotFound found cxt
          end)
    /\ (forall (addr : Z) (ks : list string) (vs : list JsonbValue),
           executeItemOptUnwrapTarget item
             (JsonbBinary (JsonbContainerC JB_FARRAY addr ks vs)) found true cxt
           = each_element (fun v f => executeItemOptUnwrapTarget item v f false)
               (found_is_null found) vs jperNotFound found cxt)
    /\ (forall (unwrap : bool) (jb : JsonbValue),
           JsonbType jb <> jbvObject ->
           unwrap = false \/ JsonbType jb <> jbvArray ->
           executeItemOptUnwrapTarget item jb found unwrap cxt
           = structural_error ERRCODE_SQL_JSON_OBJECT_NOT_FOUND found cxt).
Proof.
  intros args next found cxt item. unfold item. split; [|split].
  - intros unwrap addr ks vs. walker_unfold.
    cbn [JsonbType JsonContainerIsObject container_header jbvType_eqb].
    run_exec. cbv beta iota delta [next_step].
    destruct next as [n|].
    + apply executeAnyItem_each.
    + unfold select_all. destruct found as [fl|].
      * apply executeAnyItem_collects.
      * apply executeAnyItem_exists.
  - intros addr ks vs. walker_unfold.
    cbn [JsonbType JsonContainerIsObject container_header jbvType_eqb andb].
    apply unwrap_target_array.
  - intros unwrap jb Hobj Harr. walker_unfold.
    destruct jb as [| | | | |data]; try apply structural_error_run.
    apply jbvType_eqb_neq in Hobj. rewrite Hobj.
    destruct Harr as [-> | Harr].
    + apply structural_error_run.
    + apply jbvType_eqb_neq in Harr. rewrite Harr, andb_false_r.
      apply structural_error_run.
Qed.

(** *** Array accessor *)

Lemma getArrayIndex_subscript (jsp : JsonPathItem) (jb : JsonbValue)
    (n : Numeric) (cxt : JsonPathExecContext) :
  0 <= innermostArraySize cxt ->
  subscript_value jsp (innermostArraySize cxt) = Some n ->
  getArrayIndex executeItemOptUnwrapTarget jsp jb cxt
  = match numeric_int4_opt_error (numeric_trunc n) with
    | Some i => Done ((jperOk, i), cxt)
    | None =>
        if throwErrors cxt then Raised ERRCODE_INVALID_SQL_JSON_SUBSCRIPT
        else Done ((jperError, 0), cxt)
    end.
Proof.
  intros Hsize Hv.
  destruct jsp as [type value next | | | type args next | | | ];
    try discriminate Hv.
  - destruct type; try discriminate Hv.
    destruct value as [| |m|]; try discriminate Hv.
    destruct next; [discriminate Hv|]. injection Hv as ->.
    unfold getArrayIndex, executeItem. run_exec. walker_unfold.
    cbv beta iota zeta delta [has_next found_is_null negb andb getJsonPathItem
                                executeNextItem found_append].
    run_exec. rewrite set_baseObject_same. cbn.
    destruct (numeric_int4_opt_error (numeric_trunc n)); [reflexivity|].
    destruct (throwErrors cxt); reflexivity.
  - destruct type; try discriminate Hv.
    destruct next; [discriminate Hv|]. injection Hv as <-.
    unfold getArrayIndex, executeItem. run_exec. walker_unfold.
    run_exec.
    destruct (Z.ltb_spec (innermostArraySize cxt) 0) as [L|_]; [lia|].
    cbv beta iota zeta delta [has_next found_is_null negb andb
                                executeNextItem found_append].
    run_exec. cbn.
    destruct (numeric_int4_opt_error
                (numeric_trunc (int64_to_numeric (innermostArraySize cxt - 1))));
      [reflexivity|].
    destruct (throwErrors cxt); reflexivity.
Qed.

Lemma subscript_items_size (jb : JsonbValue) :
  (if JsonbArraySize jb <? 0 then 1 else JsonbArraySize jb)
  = Z.of_nat (List.length (subscript_items jb)).
Proof.
  destruct jb as [| | | | |[h a ks vs]]; try reflexivity.
  destruct h; try reflexivity.
  cbv beta iota delta [JsonbArraySize JsonContainerIsArray JsonContainerIsScalar
       container_header andb negb JsonContainerSize container_children
       subscript_items].
  destruct (Z.ltb_spec (Z.of_nat (List.length vs)) 0); [lia | reflexivity].
Qed.

Lemma subscript_items_singleton (jb : JsonbValue) :
  (JsonbArraySize jb <? 0) = true -> subscript_items jb = [jb].
Proof.
  destruct jb as [| | | | |[h a ks vs]]; try reflexivity.
  destruct h; try reflexivity.
  cbv beta iota delta [JsonbArraySize JsonContainerIsArray JsonContainerIsScalar
       container_header andb negb JsonContainerSize container_children].
  intro H. apply Z.ltb_lt in H. lia.
Qed.

Lemma subscript_items_array (jb : JsonbValue) :
  (JsonbArraySize jb <? 0) = false ->
  exists (a : Z) (ks : list string) (vs : list JsonbValue),
    jb = JsonbBinary (JsonbContainerC JB_FARRAY a ks vs).
Proof.
  destruct jb as [| | | | |[h a ks vs]]; try discriminate.
  destruct h; try discriminate.
  intros _. exists a, ks, vs. reflexivity.
Qed.

Lemma set_innermostArraySize_restore (n : Z) (cxt : JsonPathExecContext) :
  set_innermostArraySize (innermostArraySize cxt) (set_innermostArraySize n cxt)
  = cxt.
Proof. destruct cxt; reflexivity. Qed.

Lemma slice_cons (lo hi : Z) (vs : list JsonbValue) :
  0 <= lo <= hi ->
  slice lo hi vs
  = match List.nth_error vs (Z.to_nat lo) with
    | Some v => v :: slice (lo + 1) hi vs
    | None => []
    end.
Proof.
  intros H. unfold slice.
  replace (Z.to_nat (hi - lo + 1)) with (S (Z.to_nat (hi - (lo + 1) + 1))) by lia.
  replace (Z.to_nat (lo + 1)) with (S (Z.to_nat lo)) by lia.
  generalize (Z.to_nat (hi - (lo + 1) + 1)) as c.
  generalize (Z.to_nat lo) as k. clear H. intros k c.
  revert vs. induction k as [|k IH]; intros [|v vs]; cbn; try reflexivity.
  apply IH.
Qed.

(** X9: The array accessor with one subscript, [[from]] or [[from to to]],
    whose bounds are numeric literals or [last], when it ends the path and
    results are collected.  The items indexed are the elements of the array; in
    lax mode any other value stands for the one-element array holding it.  With
    structural errors ignored (lax mode) the bounds are clamped to the array
    and the items at the positions left are selected in order, none when the
    range is empty; otherwise a bound outside the array or a reversed range is
    the error INVALID_SQL_JSON_SUBSCRIPT, and when that error is returned
    rather than thrown the context keeps the array size set for [last]. *)
Theorem array_accessor_selects_the_clamped_range (from : JsonPathItem)
    (to : option JsonPathItem) (jb : JsonbValue) (fl : JsonValueList)
    (unwrap : bool) (cxt : JsonPathExecContext) (n1 : Numeric) (i1 i2 : Z) :
  let items := subscript_items jb in
  let size := Z.of_nat (List.length items) in
  JsonbType jb = jbvArray \/ laxMode cxt = true ->
  subscript_value from size = Some n1 ->
  numeric_int4_opt_error (numeric_trunc n1) = Some i1 ->
  match to with
  | Some t =>
      match subscript_value t size with
      | Some n2 => numeric_int4_opt_error (numeric_trunc n2)
      | None => None
      end
  | None => Some i1
  end = Some i2 ->
  executeItemOptUnwrapTarget (jspArray [(from, to)] None) jb (Some fl) unwrap cxt
  = if negb (ignoreStructuralErrors cxt)
       && ((i1 <? 0) || (i1 >? i2) || (i2 >=? size))
    then
      if throwErrors cxt then Raised ERRCODE_INVALID_SQL_JSON_SUBSCRIPT
      else Done ((jperError, Some fl), set_innermostArraySize size cxt)
    else
      let sel := slice (Z.max 0 i1) (Z.min i2 (size - 1)) items in
      Done ((match sel with [] => jperNotFound | _ => jperOk end,
             Some (fold_left JsonValueListAppend sel fl)), cxt).
Proof.
  intros items size Hmode Hfrom Hi1 Hto.
  walker_unfold. unfold executeIndexArray. run_exec.
  rewrite (subscript_items_size jb). fold items. fold size.
  assert (Hc : jbvType_eqb (JsonbType jb) jbvArray || laxMode cxt = true).
  { destruct Hmode as [-> | ->]; [reflexivity | apply orb_true_r]. }
  rewrite Hc. cbv beta iota.
  rewrite (@getArrayIndex_subscript from jb n1
             (set_innermostArraySize size cxt));
    [| cbn; unfold size; lia | exact Hfrom].
  rewrite Hi1. cbv beta iota. cbn [jperIsError].
  assert (Hto' :
            match to with
            | Some t => getArrayIndex executeItemOptUnwrapTarget t jb
            | None => fun cxt2 => Done ((jperOk, i1), cxt2)
            end (set_innermostArraySize size cxt)
            = Done ((jperOk, i2), set_innermostArraySize size cxt)).
  { destruct to as [t|].
    - destruct (subscript_value t size) as [n2|] eqn:Et; [|discriminate Hto].
      rewrite (@getArrayIndex_subscript t jb n2
                 (set_innermostArraySize size cxt));
        [| cbn; unfold size; lia | exact Et].
      rewrite Hto. reflexivity.
    - injection Hto as ->. reflexivity. }
  rewrite Hto'. cbv beta iota. cbn [jperIsError].
  change (ignoreStructuralErrors (set_innermostArraySize size cxt))
    with (ignoreStructuralErrors cxt).
  destruct (negb (ignoreStructuralErrors cxt)
            && ((i1 <? 0) || (i1 >? i2) || (i2 >=? size))) eqn:Echeck.
  - cbv beta iota.
    change (throwErrors (set_innermostArraySize size cxt)) with (throwErrors cxt).
    destruct (throwErrors cxt); reflexivity.
  - cbv beta iota.
    replace (if i1 <? 0 then 0 else i1) with (Z.max 0 i1)
      by (destruct (Z.ltb_spec i1 0); lia).
    replace (if i2 >=? size then size - 1 else i2) with (Z.min i2 (size - 1))
      by (rewrite Z.geb_leb; destruct (Z.leb_spec size i2); lia).
    set (lo := Z.max 0 i1). set (hi := Z.min i2 (size - 1)).
    set (cxt0 := set_innermostArraySize size cxt).
    cbv beta iota delta [has_next found_is_null negb andb].
    assert (Hlo : 0 <= lo) by (unfold lo; lia).
    destruct (JsonbArraySize jb <? 0) eqn:Esgl.
    + (* the value stands for a one-element array *)
      assert (Hitems : items = [jb]) by (apply subscript_items_singleton, Esgl).
      assert (Hsize : size = 1) by (unfold size; rewrite Hitems; reflexivity).
      match goal with
      | |- context [?el (Z.to_nat (hi - lo + 1)) lo jperNotFound (Some fl) cxt0] =>
          assert (L : forall (count : nat) (index : Z) (res : JsonPathExecResult)
                             (l : JsonValueList),
                     el count index res (Some l) cxt0
                     = Done ((false, match count with O => res | _ => jperOk end,
                              Some (fold_left JsonValueListAppend
                                      (List.repeat jb count) l)), cxt0))
      end.
      { induction count as [|count IH]; intros index res l.
        - reflexivity.
        - cbn [List.repeat fold_left].
          cbv beta iota delta [executeNextItem ret found_append jperIsError
                                 JsonPathExecResult_eqb andb].
          rewrite IH. destruct count; reflexivity. }
      rewrite L. cbv beta iota.
      assert (Hsel : List.repeat jb (Z.to_nat (hi - lo + 1)) = slice lo hi items).
      { rewrite Hitems. unfold slice.
        destruct (Z.le_gt_cases (hi - lo + 1) 0) as [Le|Gt].
        - replace (Z.to_nat (hi - lo + 1)) with 0%nat by lia. reflexivity.
        - assert (lo = 0 /\ hi = 0) as [-> ->] by (unfold hi in *; lia).
          reflexivity. }
      rewrite Hsel.
      assert (Hst : match Z.to_nat (hi - lo + 1) with
                    | O => jperNotFound
                    | S _ => jperOk
                    end
                    = match slice lo hi items with
                      | [] => jperNotFound
                      | _ => jperOk
                      end).
      { rewrite <- Hsel. destruct (Z.to_nat (hi - lo + 1)); reflexivity. }
      rewrite Hst.
      destruct (slice lo hi items); cbn [jperIsError JsonPathExecResult_eqb];
        unfold cxt0; rewrite set_innermostArraySize_restore; reflexivity.
    + (* an array *)
      destruct (subscript_items_array jb Esgl) as (a & ks & vs & ->).
      change items with vs in *.
      match goal with
      | |- context [?el (Z.to_nat (hi - lo + 1)) lo jperNotFound (Some fl) cxt0] =>
          assert (L : forall (count : nat) (index : Z) (res : JsonPathExecResult)
                             (l : JsonValueList),
                     0 <= index ->
                     el count index res (Some l) cxt0
                     = Done ((false,
                              match slice index (index + Z.of_nat count - 1) vs with
                              | [] => res
                              | _ => jperOk
                              end,
                              Some (fold_left JsonValueListAppend
                                      (slice index (index + Z.of_nat count - 1) vs)
                                      l)), cxt0))
      end.
      { induction count as [|count IH]; intros index res l Hidx.
        - unfold slice.
          replace (Z.to_nat (index + Z.of_nat 0 - 1 - index + 1)) with 0%nat by lia.
          reflexivity.
        - rewrite (slice_cons (lo := index)) by lia.
          cbv beta iota delta [getIthJsonbValueFromContainer
                                 JsonContainerIsArray container_header
                                 container_children andb].
          destruct (Z.leb_spec 0 index) as [_|N]; [|lia].
          destruct (List.nth_error vs (Z.to_nat index)) as [v|] eqn:Env.
          + cbv beta iota delta [executeNextItem ret found_append jperIsError
                                   JsonPathExecResult_eqb andb].
            rewrite IH by lia.
            replace (index + 1 + Z.of_nat count - 1)
              with (index + Z.of_nat (S count) - 1) by lia.
            cbn [fold_left].
            destruct (slice (index + 1) (index + Z.of_nat (S count) - 1) vs);
              reflexivity.
          + rewrite IH by lia.
            assert (E : slice (index + 1) (index + 1 + Z.of_nat count - 1) vs = []).
            { unfold slice. apply nth_error_None in Env.
              rewrite skipn_all2 by lia. apply firstn_nil. }
            rewrite E. reflexivity. }
      rewrite L by exact Hlo. cbv beta iota.
      assert (Hsel : slice lo (lo + Z.of_nat (Z.to_nat (hi - lo + 1)) - 1) vs
                     = slice lo hi vs).
      { destruct (Z.le_gt_cases (hi - lo + 1) 0) as [Le|Gt].
        - unfold slice.
          replace (Z.to_nat (hi - lo + 1)) with 0%nat by lia.
          replace (Z.to_nat (lo + Z.of_nat 0 - 1 - lo + 1)) with 0%nat by lia.
          reflexivity.
        - f_equal. lia. }
      rewrite Hsel.
      destruct (slice lo hi vs); cbn [jperIsError JsonPathExecResult_eqb];
        unfold cxt0; rewrite set_innermostArraySize_restore; reflexivity.
Qed.

(** X10: Where the array accessor and [last] fail.  Applied to a value that is
    not an array, outside lax mode, the accessor is the structural error
    ARRAY_NOT_FOUND.  A subscript that does not fit a 32-bit integer is the
    error INVALID_SQL_JSON_SUBSCRIPT, thrown or returned as the context asks
    (the array size saved for [last] is restored).  [last] outside of any array
    subscript is an internal error, raised whatever the mode. *)
Theorem array_accessor_failures :
  forall (elems : list (JsonPathItem * option JsonPathItem))
         (next : option JsonPathItem) (jb : JsonbValue)
         (found : option JsonValueList) (unwrap : bool)
         (cxt : JsonPathExecContext),
    (JsonbType jb <> jbvArray -> laxMode cxt = false ->
     executeItemOptUnwrapTarget (jspArray elems next) jb found unwrap cxt
     = structural_error ERRCODE_SQL_JSON_ARRAY_NOT_FOUND found cxt)
    /\ (forall (from : JsonPathItem) (to : option JsonPathItem) (n1 : Numeric),
           JsonbType jb = jbvArray \/ laxMode cxt = true ->
           subscript_value from (Z.of_nat (List.length (subscript_items jb)))
           = Some n1 ->
           numeric_int4_opt_error (numeric_trunc n1) = None ->
           executeItemOptUnwrapTarget (jspArray ((from, to) :: elems) next) jb
             found unwrap cxt
           = if throwErrors cxt then Raised ERRCODE_INVALID_SQL_JSON_SUBSCRIPT
             else Done ((jperError, found), cxt))
    /\ (forall args : list JspValue,
           innermostArraySize cxt < 0 ->
           executeItemOptUnwrapTarget (jspLeaf jpiLast args next) jb found
             unwrap cxt
           = Raised ERRCODE_INTERNAL_ERROR).
Proof.
  intros elems next jb found unwrap cxt. split; [|split].
  - intros Harr Hlax. walker_unfold. unfold executeIndexArray. run_exec.
    apply jbvType_eqb_neq in Harr. rewrite Harr, Hlax. cbn [orb].
    unfold structural_error.
    destruct (ignoreStructuralErrors cxt); cbn [negb]; [reflexivity|].
    destruct (throwErrors cxt); reflexivity.
  - intros from to n1 Hmode Hfrom Hi1.
    walker_unfold. unfold executeIndexArray. run_exec.
    rewrite (subscript_items_size jb).
    assert (Hc : jbvType_eqb (JsonbType jb) jbvArray || laxMode cxt = true).
    { destruct Hmode as [-> | ->]; [reflexivity | apply orb_true_r]. }
    rewrite Hc. cbv beta iota.
    rewrite (@getArrayIndex_subscript from jb n1
               (set_innermostArraySize
                  (Z.of_nat (List.length (subscript_items jb))) cxt));
      [| cbn; lia | exact Hfrom].
    rewrite Hi1.
    change (throwErrors (set_innermostArraySize
                           (Z.of_nat (List.length (subscript_items jb))) cxt))
      with (throwErrors cxt).
    destruct (throwErrors cxt); [reflexivity|].
    cbn [jperIsError]. cbv beta iota.
    rewrite set_innermostArraySize_restore. reflexivity.
  - intros args Hneg. walker_unfold. run_exec.
    destruct (Z.ltb_spec (innermostArraySize cxt) 0) as [_|N]; [reflexivity|lia].
Qed.

(** X12: The [.size()] method: the number of elements of an array; on any other
    value 1 in lax mode and the structural error ARRAY_NOT_FOUND otherwise.  An
    array is not unwrapped for it. *)
Theorem size_method :
  forall (args : list JspValue) (next : option JsonPathItem)
         (found : option JsonValueList) (unwrap : bool)
         (cxt : JsonPathExecContext),
    (forall (a : Z) (ks : list string) (vs : list JsonbValue),
        executeItemOptUnwrapTarget (jspLeaf jpiSize args next)
          (JsonbBinary (JsonbContainerC JB_FARRAY a ks vs)) found unwrap cxt
        = executeNextItem executeItemOptUnwrapTarget next
            (JsonbNumeric (int64_to_numeric (Z.of_nat (List.length vs))))
            found cxt)
    /\ (forall jb : JsonbValue,
           JsonbArraySize jb = -1 ->
           executeItemOptUnwrapTarget (jspLeaf jpiSize args next) jb found
             unwrap cxt
           = if laxMode cxt
             then executeNextItem executeItemOptUnwrapTarget next
                    (JsonbNumeric (int64_to_numeric 1)) found cxt
             else structural_error ERRCODE_SQL_JSON_ARRAY_NOT_FOUND found cxt)
    /\ (forall jb : JsonbValue,
           JsonbArraySize jb = -1
           \/ exists (a : Z) (ks : list string) (vs : list JsonbValue),
               jb = JsonbBinary (JsonbContainerC JB_FARRAY a ks vs)).
Proof.
  intros args next found unwrap cxt. split; [|split].
  - intros a ks vs. walker_unfold. run_exec.
    cbv beta iota delta [JsonbArraySize JsonContainerIsArray
                           JsonContainerIsScalar container_header andb negb
                           JsonContainerSize container_children].
    destruct (Z.ltb_spec (Z.of_nat (List.length vs)) 0) as [L|_]; [lia|].
    reflexivity.
  - intros jb Hsz. walker_unfold. run_exec. rewrite Hsz.
    change (-1 <? 0) with true. cbn [andb].
    destruct (laxMode cxt); cbn [negb]; [reflexivity|].
    unfold structural_error.
    destruct (ignoreStructuralErrors cxt); cbn [negb]; [reflexivity|].
    destruct (throwErrors cxt); reflexivity.
  - intros [| | | | |[h a ks vs]]; try (left; reflexivity).
    destruct h; [left; reflexivity | right | left; reflexivity].
    exists a, ks, vs. reflexivity.
Qed.

(** *** Predicates *)

(** X13: A filter [?(pred)] evaluates the predicate with the item as the
    current item [@] and puts the previous current item back afterwards; the
    item goes to the rest of the path exactly when the predicate is True: False
    and Unknown both drop it, with [jperNotFound] and no error.  An array that
    is to be unwrapped is filtered element by element. *)
Theorem filter_passes_the_item_when_true :
  forall (pred : JsonPathItem) (next : option JsonPathItem)
         (found : option JsonValueList) (cxt : JsonPathExecContext),
    let item := jspArg jpiFilter pred next in
    (forall (jb : JsonbValue) (unwrap : bool),
        unwrap = false \/ JsonbType jb <> jbvArray ->
        executeItemOptUnwrapTarget item jb found unwrap cxt
        = match executeBoolItem pred jb false (set_current jb cxt) with
          | Raised e => Raised e
          | Done (st, cxt1) =>
              let cxt2 := set_current (current cxt) cxt1 in
              match st with
              | jpbTrue =>
                  executeNextItem executeItemOptUnwrapTarget next jb found cxt2
              | _ => Done ((jperNotFound, found), cxt2)
              end
          end)
    /\ (forall (a : Z) (ks : list string) (vs : list JsonbValue),
           executeItemOptUnwrapTarget item
             (JsonbBinary (JsonbContainerC JB_FARRAY a ks vs)) found true cxt
           = each_element (fun v f => executeItemOptUnwrapTarget item v f false)
               (found_is_null found) vs jperNotFound found cxt).
Proof.
  intros pred next found cxt item. unfold item. split.
  - intros jb unwrap H. walker_unfold.
    assert (E : unwrap && jbvType_eqb (JsonbType jb) jbvArray = false).
    { destruct H as [-> | H]; [reflexivity|].
      apply jbvType_eqb_neq in H. rewrite H. apply andb_false_r. }
    rewrite E. unfold executeNestedBoolItem. run_exec.
    destruct (executeBoolItem pred jb false (set_current jb cxt))
      as [[st cxt1]|e]; [|reflexivity].
    destruct st; reflexivity.
  - intros a ks vs. walker_unfold.
    cbn [JsonbType JsonContainerIsObject container_header jbvType_eqb andb].
    apply unwrap_target_array.
Qed.

Lemma executeBoolItem_not (arg : JsonPathItem) (jb : JsonbValue)
    (canHaveNext : bool) (cxt : JsonPathExecContext) :
  executeBoolItem (jspArg jpiNot arg None) jb canHaveNext cxt
  = match executeBoolItem arg jb false cxt with
    | Raised e => Raised e
    | Done (res, cxt1) => Done (kleene_not res, cxt1)
    end.
Proof.
  change (executeBoolItem (jspArg jpiNot arg None) jb canHaveNext cxt)
    with (executeBoolItemBody executeItemOptUnwrapTarget executeBoolItem
            (jspArg jpiNot arg None) jb canHaveNext cxt).
  unfold executeBoolItemBody, jspHasNext. cbn [jspGetNext].
  rewrite andb_false_r. run_exec.
  destruct (executeBoolItem arg jb false cxt) as [[res cxt1]|e];
    [|reflexivity].
  destruct res; reflexivity.
Qed.

Lemma executeBoolItem_is_unknown (arg : JsonPathItem) (jb : JsonbValue)
    (canHaveNext : bool) (cxt : JsonPathExecContext) :
  executeBoolItem (jspArg jpiIsUnknown arg None) jb canHaveNext cxt
  = match executeBoolItem arg jb false cxt with
    | Raised e => Raised e
    | Done (res, cxt1) =>
        Done (jpb_of_bool (JsonPathBool_eqb res jpbUnknown), cxt1)
    end.
Proof.
  change (executeBoolItem (jspArg jpiIsUnknown arg None) jb canHaveNext cxt)
    with (executeBoolItemBody executeItemOptUnwrapTarget executeBoolItem
            (jspArg jpiIsUnknown arg None) jb canHaveNext cxt).
  unfold executeBoolItemBody, jspHasNext. cbn [jspGetNext].
  rewrite andb_false_r. run_exec.
  destruct (executeBoolItem arg jb false cxt) as [[res cxt1]|e];
    [|reflexivity].
  destruct res; reflexivity.
Qed.

Lemma executeBoolItem_and (larg rarg : JsonPathItem) (jb : JsonbValue)
    (canHaveNext : bool) (cxt : JsonPathExecContext) :
  executeBoolItem (jspArgs jpiAnd larg rarg None) jb canHaveNext cxt
  = match executeBoolItem larg jb false cxt with
    | Raised e => Raised e
    | Done (jpbFalse, cxt1) => Done (jpbFalse, cxt1)
    | Done (res, cxt1) =>
        match executeBoolItem rarg jb false cxt1 with
        | Raised e => Raised e
        | Done (jpbTrue, cxt2) => Done (res, cxt2)
        | Done (res2, cxt2) => Done (res2, cxt2)
        end
    end.
Proof.
  change (executeBoolItem (jspArgs jpiAnd larg rarg None) jb canHaveNext cxt)
    with (executeBoolItemBody executeItemOptUnwrapTarget executeBoolItem
            (jspArgs jpiAnd larg rarg None) jb canHaveNext cxt).
  unfold executeBoolItemBody, jspHasNext. cbn [jspGetNext].
  rewrite andb_false_r. run_exec.
  destruct (executeBoolItem larg jb false cxt) as [[res cxt1]|e];
    [|reflexivity].
  destruct res; cbn [JsonPathBool_eqb]; try reflexivity;
    destruct (executeBoolItem rarg jb false cxt1) as [[res2 cxt2]|e];
    try reflexivity; destruct res2; reflexivity.
Qed.

Lemma executeBoolItem_or (larg rarg : JsonPathItem) (jb : JsonbValue)
    (canHaveNext : bool) (cxt : JsonPathExecContext) :
  executeBoolItem (jspArgs jpiOr larg rarg None) jb canHaveNext cxt
  = match executeBoolItem larg jb false cxt with
    | Raised e => Raised e
    | Done (jpbTrue, cxt1) => Done (jpbTrue, cxt1)
    | Done (res, cxt1) =>
        match executeBoolItem rarg jb false cxt1 with
        | Raised e => Raised e
        | Done (jpbFalse, cxt2) => Done (res, cxt2)
        | Done (res2, cxt2) => Done (res2, cxt2)
        end
    end.
Proof.
  change (executeBoolItem (jspArgs jpiOr larg rarg None) jb canHaveNext cxt)
    with (executeBoolItemBody executeItemOptUnwrapTarget executeBoolItem
            (jspArgs jpiOr larg rarg None) jb canHaveNext cxt).
  unfold executeBoolItemBody, jspHasNext. cbn [jspGetNext].
  rewrite andb_false_r. run_exec.
  destruct (executeBoolItem larg jb false cxt) as [[res cxt1]|e];
    [|reflexivity].
  destruct res; cbn [JsonPathBool_eqb]; try reflexivity;
    destruct (executeBoolItem rarg jb false cxt1) as [[res2 cxt2]|e];
    try reflexivity; destruct res2; reflexivity.
Qed.

(** X14: The boolean connectives obey the laws of Kleene's three-valued logic,
    with the same operands evaluated in the same order, the same context left
    and the same errors raised on both sides.  [!] exchanges True and False and
    keeps Unknown; a double negation is the predicate itself; the negation of a
    conjunction is the disjunction of the negations, and the negation of a
    disjunction the conjunction of the negations.  [is unknown] is never
    Unknown itself: applied twice it is False. *)
Theorem boolean_connectives_obey_kleene_laws :
  forall (a b : JsonPathItem) (jb : JsonbValue) (canHaveNext : bool)
         (cxt : JsonPathExecContext),
    let p_not (x : JsonPathItem) := jspArg jpiNot x None in
    executeBoolItem (p_not a) jb canHaveNext cxt
    = match executeBoolItem a jb false cxt with
      | Raised e => Raised e
      | Done (res, cxt1) => Done (kleene_not res, cxt1)
      end
    /\ executeBoolItem (p_not (p_not a)) jb canHaveNext cxt
       = executeBoolItem a jb false cxt
    /\ executeBoolItem (p_not (jspArgs jpiAnd a b None)) jb canHaveNext cxt
       = executeBoolItem (jspArgs jpiOr (p_not a) (p_not b) None) jb
           canHaveNext cxt
    /\ executeBoolItem (p_not (jspArgs jpiOr a b None)) jb canHaveNext cxt
       = executeBoolItem (jspArgs jpiAnd (p_not a) (p_not b) None) jb
           canHaveNext cxt
    /\ executeBoolItem
         (jspArg jpiIsUnknown (jspArg jpiIsUnknown a None) None) jb
         canHaveNext cxt
       = match executeBoolItem a jb false cxt with
         | Raised e => Raised e
         | Done (_, cxt1) => Done (jpbFalse, cxt1)
         end.
Proof.
  intros a b jb canHaveNext cxt p_not. unfold p_not.
  split; [apply executeBoolItem_not|].
  split; [|split; [|split]].
  - rewrite !executeBoolItem_not.
    destruct (executeBoolItem a jb false cxt) as [[[] cxt1]|e]; reflexivity.
  - rewrite executeBoolItem_not, executeBoolItem_and, executeBoolItem_or,
      executeBoolItem_not.
    destruct (executeBoolItem a jb false cxt) as [[[] cxt1]|e];
      try reflexivity; cbn [kleene_not];
      rewrite executeBoolItem_not;
      destruct (executeBoolItem b jb false cxt1) as [[[] cxt2]|e];
      reflexivity.
  - rewrite executeBoolItem_not, executeBoolItem_and, executeBoolItem_or,
      executeBoolItem_not.
    destruct (executeBoolItem a jb false cxt) as [[[] cxt1]|e];
      try reflexivity; cbn [kleene_not];
      rewrite executeBoolItem_not;
      destruct (executeBoolItem b jb false cxt1) as [[[] cxt2]|e];
      reflexivity.
  - rewrite !executeBoolItem_is_unknown.
    destruct (executeBoolItem a jb false cxt) as [[[] cxt1]|e]; reflexivity.
Qed.

(** X15: [exists (path)] evaluates its operand with suppressible errors
    returned, not thrown, whatever the caller asked for, and puts the caller's
    setting back afterwards.  An error of the operand makes it Unknown.  In
    strict mode the operand is enumerated in full and the answer is True
    exactly when it produced an item; in lax mode the evaluation keeps no
    result list and the answer is True exactly when it reports an item found.
    *)
Theorem exists_predicate :
  forall (arg : JsonPathItem) (jb : JsonbValue) (canHaveNext : bool)
         (cxt : JsonPathExecContext),
    executeBoolItem (jspArg jpiExists arg None) jb canHaveNext cxt
    = match executeItem executeItemOptUnwrapTarget arg jb
              (if laxMode cxt then None else Some JsonValueListEmpty)
              (set_throwErrors false cxt) with
      | Raised e => Raised e
      | Done ((res, vals), cxt1) =>
          Done (if jperIsError res then jpbUnknown
                else if laxMode cxt
                     then jpb_of_bool (JsonPathExecResult_eqb res jperOk)
                     else jpb_of_bool
                            (negb (JsonValueListIsEmpty (found_list vals))),
                set_throwErrors (throwErrors cxt) cxt1)
      end.
Proof.
  intros arg jb canHaveNext cxt.
  change (executeBoolItem (jspArg jpiExists arg None) jb canHaveNext cxt)
    with (executeBoolItemBody executeItemOptUnwrapTarget executeBoolItem
            (jspArg jpiExists arg None) jb canHaveNext cxt).
  unfold executeBoolItemBody, jspHasNext. cbn [jspGetNext].
  rewrite andb_false_r.
  unfold executeItemOptUnwrapResultNoThrow, executeItemOptUnwrapResult.
  run_exec.
  destruct (laxMode cxt); cbn [negb andb].
  - destruct (executeItem executeItemOptUnwrapTarget arg jb None
                (set_throwErrors false cxt)) as [[[res vals] cxt1]|e];
      [|reflexivity].
    destruct res; reflexivity.
  - destruct (executeItem executeItemOptUnwrapTarget arg jb
                (Some JsonValueListEmpty) (set_throwErrors false cxt))
      as [[[res vals] cxt1]|e]; [|reflexivity].
    destruct res; cbn [jperIsError]; try reflexivity;
      destruct (JsonValueListIsEmpty (found_list vals)); reflexivity.
Qed.

Lemma executePredicate_verdict (larg : Step) (rarg : option Step)
    (jb : JsonbValue) (unwrapRightArg : bool) (exec : PredicateCallback)
    (test : JsonbValue -> option JsonbValue -> JsonPathBool)
    (cxt cxt1 cxt2 : JsonPathExecContext) (resL resR : JsonPathExecResult)
    (lseq rseq : option JsonValueList) :
  let rs := match rarg with
            | Some _ => Some (JsonValueListGetList (found_list rseq))
            | None => None
            end in
  executeItemOptUnwrapResultNoThrow larg jb true (Some JsonValueListEmpty) cxt
  = Done ((resL, lseq), cxt1) ->
  jperIsError resL = false ->
  match rarg with
  | Some r => executeItemOptUnwrapResultNoThrow r jb unwrapRightArg
                (Some JsonValueListEmpty) cxt1
  | None => Done ((jperOk, Some JsonValueListEmpty), cxt1)
  end = Done ((resR, rseq), cxt2) ->
  jperIsError resR = false ->
  (forall (l : JsonbValue) (r : option JsonbValue),
      List.In r (right_values rs) -> exec l r = Done (test l r)) ->
  executePredicate larg rarg jb unwrapRightArg exec cxt
  = Done (existence_verdict (negb (laxMode cxt2))
            (pair_answers test (JsonValueListGetList (found_list lseq)) rs),
          cxt2).
Proof.
  intros rs HL HeL HR HeR Hpure.
  unfold executePredicate. unfold bind at 1. rewrite HL, HeL.
  unfold bind at 1.
  replace (match rarg with
           | Some r => executeItemOptUnwrapResultNoThrow r jb unwrapRightArg
                         (Some JsonValueListEmpty)
           | None => ret (jperOk, Some JsonValueListEmpty)
           end cxt1)
    with (Done ((resR, rseq), cxt2))
    by (rewrite <- HR; destruct rarg; reflexivity).
  rewrite HeR. run_exec. rewrite !JsonValueListItems_GetList.
  set (strict := negb (laxMode cxt2)).
  replace (match rarg with
           | Some _ => List.map Some (JsonValueListGetList (found_list rseq))
           | None => [None]
           end)
    with (right_values rs) by (unfold rs; destruct rarg; reflexivity).
  unfold pair_answers.
  generalize dependent (right_values rs). intros rvals Hpure.
  generalize (JsonValueListGetList (found_list lseq)) as ls. intro ls.
  set (some := fun (b : JsonPathBool) (l : list JsonPathBool) =>
                 List.existsb (JsonPathBool_eqb b) l).
  match goal with
  | |- match ?outer ls false false with _ => _ end = _ =>
      assert (L : forall (ws : list JsonbValue) (error fnd : bool),
                 outer ws error fnd
                 = Done (let P := List.flat_map
                                    (fun l => List.map (test l) rvals) ws in
                         if strict then
                           if some jpbUnknown P then jpbUnknown
                           else if fnd || some jpbTrue P then jpbTrue
                                else if error then jpbUnknown else jpbFalse
                         else
                           if some jpbTrue P then jpbTrue
                           else if fnd then jpbTrue
                                else if error || some jpbUnknown P
                                     then jpbUnknown else jpbFalse))
  end.
  { induction ws as [|w ws IH]; intros error fnd.
    - cbn. destruct strict, fnd, error; reflexivity.
    - cbn [List.flat_map].
      match goal with
      | |- obind (?inner rvals error fnd) _ = _ =>
          assert (I : forall (rs : list (option JsonbValue)) (e f : bool),
                     (forall r, List.In r rs -> List.In r rvals) ->
                     inner rs e f
                     = Done (let A := List.map (test w) rs in
                             if strict then
                               if some jpbUnknown A then inl jpbUnknown
                               else inr (e, f || some jpbTrue A)
                             else
                               if some jpbTrue A then inl jpbTrue
                               else inr (e || some jpbUnknown A, f)))
      end.
      { induction rs0 as [|r rs0 IHr]; intros e f Hin.
        - cbn. rewrite !orb_false_r. destruct strict; reflexivity.
        - rewrite (Hpure w r (Hin r (or_introl eq_refl))).
          assert (Hin' : forall r', List.In r' rs0 -> List.In r' rvals)
            by (intros r' Hr'; apply Hin; right; exact Hr').
          cbn [List.map obind]. unfold some in *. cbn [List.existsb].
          destruct (test w r); cbn [JsonPathBool_eqb orb negb];
            destruct strict; cbn [negb]; rewrite ?(IHr _ _ Hin'); cbv zeta;
            rewrite ?orb_true_r, ?orb_true_l; reflexivity. }
      rewrite I by (intros r Hr; exact Hr).
      cbv zeta. unfold some in *. rewrite !existsb_app.
      destruct strict.
      + destruct (List.existsb (JsonPathBool_eqb jpbUnknown)
                    (List.map (test w) rvals)); [reflexivity|].
        cbn [obind orb]. rewrite IH. cbv zeta.
        destruct (List.existsb (JsonPathBool_eqb jpbUnknown)
                    (List.flat_map (fun l => List.map (test l) rvals) ws));
          [reflexivity|].
        rewrite orb_assoc. reflexivity.
      + destruct (List.existsb (JsonPathBool_eqb jpbTrue)
                    (List.map (test w) rvals)); [reflexivity|].
        cbn [obind orb]. rewrite IH. cbv zeta.
        destruct (List.existsb (JsonPathBool_eqb jpbTrue)
                    (List.flat_map (fun l => List.map (test l) rvals) ws));
          [reflexivity|].
        rewrite orb_assoc. reflexivity. }
  rewrite L. cbv zeta. unfold existence_verdict, some.
  cbn [orb]. destruct strict; reflexivity.
Qed.

(** X16: Predicates have existence semantics over the pairs of their operands'
    items.  Both operands are evaluated with suppressible errors returned, not
    thrown; an error of either makes the predicate Unknown.  Otherwise, when
    the test raises nothing on the pairs visited: in lax mode the predicate is
    True as soon as one pair is True, else Unknown if some pair is Unknown,
    else False; in strict mode it is Unknown as soon as one pair is Unknown,
    else True if some pair is True, else False.  The answer does not depend on
    the order of the items. *)
Theorem predicate_existence_semantics :
  forall (larg : Step) (rarg : option Step) (jb : JsonbValue)
         (unwrapRightArg : bool) (exec : PredicateCallback)
         (cxt cxt1 : JsonPathExecContext) (resL : JsonPathExecResult)
         (lseq : option JsonValueList),
    executeItemOptUnwrapResultNoThrow larg jb true (Some JsonValueListEmpty) cxt
    = Done ((resL, lseq), cxt1) ->
    (jperIsError resL = true ->
     executePredicate larg rarg jb unwrapRightArg exec cxt
     = Done (jpbUnknown, cxt1))
    /\ (forall (cxt2 : JsonPathExecContext) (resR : JsonPathExecResult)
               (rseq : option JsonValueList),
           jperIsError resL = false ->
           match rarg with
           | Some r => executeItemOptUnwrapResultNoThrow r jb unwrapRightArg
                         (Some JsonValueListEmpty) cxt1
           | None => Done ((jperOk, Some JsonValueListEmpty), cxt1)
           end = Done ((resR, rseq), cxt2) ->
           let rs := match rarg with
                     | Some _ => Some (JsonValueListGetList (found_list rseq))
                     | None => None
                     end in
           (jperIsError resR = true ->
            executePredicate larg rarg jb unwrapRightArg exec cxt
            = Done (jpbUnknown, cxt2))
           /\ (forall test : JsonbValue -> option JsonbValue -> JsonPathBool,
                  jperIsError resR = false ->
                  (forall (l : JsonbValue) (r : option JsonbValue),
                      List.In r (right_values rs) -> exec l r = Done (test l r)) ->
                  executePredicate larg rarg jb unwrapRightArg exec cxt
                  = Done (existence_verdict (negb (laxMode cxt2))
                            (pair_answers test
                               (JsonValueListGetList (found_list lseq)) rs),
                          cxt2))).
Proof.
  intros larg rarg jb unwrapRightArg exec cxt cxt1 resL lseq HL. split.
  - intro HeL. unfold executePredicate. unfold bind at 1.
    rewrite HL, HeL. reflexivity.
  - intros cxt2 resR rseq HeL HR rs. split.
    + intro HeR. unfold executePredicate. unfold bind at 1. rewrite HL, HeL.
      unfold bind at 1.
      replace (match rarg with
               | Some r => executeItemOptUnwrapResultNoThrow r jb unwrapRightArg
                             (Some JsonValueListEmpty)
               | None => ret (jperOk, Some JsonValueListEmpty)
               end cxt1)
        with (Done ((resR, rseq), cxt2))
        by (rewrite <- HR; destruct rarg; reflexivity).
      rewrite HeR. reflexivity.
    + intros test HeR Hpure.
      apply executePredicate_verdict with (cxt1 := cxt1) (resL := resL) (resR := resR);
        assumption.
Qed.

(** *** Lax unwrapping of a result sequence *)

Lemma unwrap_result_items_flat (items : list JsonbValue) :
  forall (fl : JsonValueList) (cxt : JsonPathExecContext),
    unwrap_result_items items (Some fl) cxt
    = Done (Some (fold_left JsonValueListAppend
                    (List.flat_map unwrap_one items) fl), cxt).
Proof.
  induction items as [|v items IH]; intros fl cxt.
  - reflexivity.
  - cbn [unwrap_result_items List.flat_map]. rewrite fold_left_app.
    destruct v as [| | | | |[h a ks vs]];
      cbn [JsonbType jbv_type jbvType_eqb found_append unwrap_one fold_left];
      try apply IH.
    destruct h;
      cbn [JsonContainerIsObject container_header jbvType_eqb found_append
           fold_left];
      try apply IH;
      unfold executeItemUnwrapTargetArray, bind;
      rewrite executeAnyItem_collects; apply IH.
Qed.

(** X17: An operand evaluated with lax result-unwrapping.  In lax mode every
    array of the operand's sequence is replaced by its elements, one level deep
    and in place, before the items are added to the caller's list; the status
    is [jperOk] even for an empty sequence.  An error of the operand is handed
    back with the caller's list untouched.  In strict mode, and when unwrapping
    is not asked for, the operand is evaluated as it is. *)
Theorem lax_unwrapping_is_one_level_deep :
  forall (exec : Step) (jb : JsonbValue) (fl : JsonValueList)
         (cxt : JsonPathExecContext),
    (laxMode cxt = true ->
     executeItemOptUnwrapResult exec jb true (Some fl) cxt
     = match exec jb (Some JsonValueListEmpty) cxt with
       | Raised e => Raised e
       | Done ((res, seq), cxt1) =>
           if jperIsError res then Done ((res, Some fl), cxt1)
           else Done ((jperOk,
                       Some (fold_left JsonValueListAppend
                               (List.flat_map unwrap_one
                                  (JsonValueListGetList (found_list seq)))
                               fl)),
                      cxt1)
       end)
    /\ (forall unwrap : bool,
           unwrap && laxMode cxt = false ->
           executeItemOptUnwrapResult exec jb unwrap (Some fl) cxt
           = exec jb (Some fl) cxt).
Proof.
  intros exec jb fl cxt. split.
  - intro Hlax. unfold executeItemOptUnwrapResult. run_exec. rewrite Hlax.
    cbn [andb].
    destruct (exec jb (Some JsonValueListEmpty) cxt) as [[[res seq] cxt1]|e];
      [|reflexivity].
    destruct (jperIsError res); [reflexivity|].
    rewrite JsonValueListItems_GetList, unwrap_result_items_flat. reflexivity.
  - intros unwrap H. unfold executeItemOptUnwrapResult. run_exec.
    rewrite H. reflexivity.
Qed.

(** *** Arithmetic and item methods *)

(** X18: A binary arithmetic operator whose operands both evaluate to one
    numeric: the host's operator is applied to the two numerics and the result
    goes to the rest of the path.  An error of the host's operator (a division
    by zero) is thrown when [throwErrors] is set and returned as [jperError]
    otherwise.  An error of the left operand ends the evaluation before the
    right operand is looked at. *)
Theorem binary_arith_on_numeric_singletons :
  forall (op : JsonPathItemType) (larg rarg : JsonPathItem)
         (next : option JsonPathItem) (jb : JsonbValue)
         (found : option JsonValueList) (unwrap : bool)
         (cxt cxt1 : JsonPathExecContext) (jperL : JsonPathExecResult)
         (lseq : option JsonValueList),
    is_binary_arith op = true ->
    operand_sequence larg jb cxt = Done ((jperL, lseq), cxt1) ->
    (jperIsError jperL = true ->
     executeItemOptUnwrapTarget (jspArgs op larg rarg next) jb found unwrap cxt
     = Done ((jperL, found), cxt1))
    /\ (forall (cxt2 : JsonPathExecContext) (jperR : JsonPathExecResult)
               (rseq : option JsonValueList) (l r : Numeric),
           jperIsError jperL = false ->
           operand_sequence rarg jb cxt1 = Done ((jperR, rseq), cxt2) ->
           jperIsError jperR = false ->
           JsonValueListGetList (found_list lseq) = [JsonbNumeric l] ->
           JsonValueListGetList (found_list rseq) = [JsonbNumeric r] ->
           executeItemOptUnwrapTarget (jspArgs op larg rarg next) jb found
             unwrap cxt
           = match binary_func op l r with
             | Raised e => suppressible_error e found cxt2
             | Done res => hand_on next (JsonbNumeric res) found cxt2
             end).
Proof.
  intros op larg rarg next jb found unwrap cxt cxt1 jperL lseq Hop HL.
  assert (E : executeItemOptUnwrapTarget (jspArgs op larg rarg next) jb found
                unwrap
              = executeBinaryArithmExpr executeItemOptUnwrapTarget larg rarg
                  next jb (binary_func op) found).
  { destruct op; try discriminate Hop; reflexivity. }
  rewrite E. unfold operand_sequence in *. split.
  - intro HeL. unfold executeBinaryArithmExpr. unfold bind at 1.
    rewrite HL, HeL. reflexivity.
  - intros cxt2 jperR rseq l r HeL HR HeR Hl Hr.
    unfold executeBinaryArithmExpr. unfold bind at 1. rewrite HL, HeL.
    unfold bind at 1. rewrite HR, HeR.
    rewrite !singleton_numeric_spec, Hl, Hr. run_exec.
    unfold suppressible_error, hand_on, has_next.
    destruct (binary_func op l r) as [res|e]; [reflexivity|].
    destruct (throwErrors cxt2); reflexivity.
Qed.

(** X19: The numeric item methods [.abs()], [.floor()] and [.ceiling()]: on a
    numeric the host's function is applied and the result goes to the rest of
    the path; an array that is to be unwrapped (lax mode) is processed element
    by element; any other operand is the suppressible error
    NON_NUMERIC_SQL_JSON_ITEM, in lax mode too. *)
Theorem numeric_item_methods :
  forall (op : JsonPathItemType) (args : list JspValue)
         (next : option JsonPathItem) (found : option JsonValueList)
         (cxt : JsonPathExecContext),
    is_numeric_method op = true ->
    let item := jspLeaf op args next in
    (forall (n : Numeric) (unwrap : bool),
        executeItemOptUnwrapTarget item (JsonbNumeric n) found unwrap cxt
        = hand_on next (JsonbNumeric (numeric_method_func op n)) found cxt)
    /\ (forall (a : Z) (ks : list string) (vs : list JsonbValue),
           executeItemOptUnwrapTarget item
             (JsonbBinary (JsonbContainerC JB_FARRAY a ks vs)) found true cxt
           = each_element (fun v f => executeItemOptUnwrapTarget item v f false)
               (found_is_null found) vs jperNotFound found cxt)
    /\ (forall (jb : JsonbValue) (unwrap : bool),
           jbv_type jb <> jbvNumeric ->
           unwrap = false \/ JsonbType jb <> jbvArray ->
           executeItemOptUnwrapTarget item jb found unwrap cxt
           = suppressible_error ERRCODE_NON_NUMERIC_SQL_JSON_ITEM found cxt).
Proof.
  intros op args next found cxt Hop item. unfold item.
  assert (E : forall jb unwrap,
             executeItemOptUnwrapTarget (jspLeaf op args next) jb found unwrap
             = executeNumericItemMethod executeItemOptUnwrapTarget
                 (fun v f =>
                    executeItemBody executeItemOptUnwrapTarget executeBoolItem
                      (fun _ _ => ereport ERRCODE_INTERNAL_ERROR)
                      (jspLeaf op args next) v f false)
                 next jb unwrap (numeric_method_func op) found).
  { intros jb unwrap. rewrite executeItemOptUnwrapTarget_unfold.
    destruct op; try discriminate Hop; reflexivity. }
  split; [|split].
  - intros n unwrap. rewrite E. unfold executeNumericItemMethod.
    cbn [JsonbType jbv_type jbvType_eqb andb getScalar].
    rewrite andb_false_r. reflexivity.
  - intros a ks vs. rewrite E. unfold executeNumericItemMethod.
    cbn [JsonbType JsonContainerIsObject container_header jbvType_eqb andb].
    apply unwrap_target_array.
  - intros jb unwrap Hnum H. rewrite E. unfold executeNumericItemMethod.
    assert (Eu : unwrap && jbvType_eqb (JsonbType jb) jbvArray = false).
    { destruct H as [-> | H]; [reflexivity|].
      apply jbvType_eqb_neq in H. rewrite H. apply andb_false_r. }
    rewrite Eu. unfold getScalar.
    apply jbvType_eqb_neq in Hnum. rewrite Hnum. reflexivity.
Qed.

(** X20: Item methods applied to the wrong kind of value fail with a
    suppressible error, in lax mode as in strict mode: a datetime method on
    anything but a string with INVALID_ARGUMENT_FOR_SQL_JSON_DATETIME_FUNCTION,
    and [.keyvalue()] on anything but an object with SQL_JSON_OBJECT_NOT_FOUND.
    On an object without members [.keyvalue()] finds nothing. *)
Theorem item_methods_reject_other_kinds :
  forall (args : list JspValue) (next : option JsonPathItem)
         (jb : JsonbValue) (found : option JsonValueList) (unwrap : bool)
         (cxt : JsonPathExecContext),
    unwrap = false \/ JsonbType jb <> jbvArray ->
    (forall op : JsonPathItemType,
        is_datetime_method op = true ->
        jbv_type jb <> jbvString ->
        executeItemOptUnwrapTarget (jspLeaf op args next) jb found unwrap cxt
        = suppressible_error
            ERRCODE_INVALID_ARGUMENT_FOR_SQL_JSON_DATETIME_FUNCTION found cxt)
    /\ (JsonbType jb <> jbvObject ->
        executeItemOptUnwrapTarget (jspLeaf jpiKeyValue args next) jb found
          unwrap cxt
        = suppressible_error ERRCODE_SQL_JSON_OBJECT_NOT_FOUND found cxt)
    /\ (forall (a : Z) (ks : list string),
           jb = JsonbBinary (JsonbContainerC JB_FOBJECT a ks []) ->
           executeItemOptUnwrapTarget (jspLeaf jpiKeyValue args next) jb found
             unwrap cxt
           = Done ((jperNotFound, found), cxt)).
Proof.
  intros args next jb found unwrap cxt H.
  assert (Eu : unwrap && jbvType_eqb (JsonbType jb) jbvArray = false).
  { destruct H as [-> | H]; [reflexivity|].
    apply jbvType_eqb_neq in H. rewrite H. apply andb_false_r. }
  split; [|split].
  - intros op Hop Hstr.
    assert (E : executeItemOptUnwrapTarget (jspLeaf op args next) jb found unwrap
                = if unwrap && jbvType_eqb (JsonbType jb) jbvArray
                  then executeItemUnwrapTargetArray
                         (Some (fun v f =>
                            executeItemBody executeItemOptUnwrapTarget
                              executeBoolItem
                              (fun _ _ => ereport ERRCODE_INTERNAL_ERROR)
                              (jspLeaf op args next) v f false)) jb found
                  else executeDateTimeMethod executeItemOptUnwrapTarget op args
                         next jb found).
    { rewrite executeItemOptUnwrapTarget_unfold.
      destruct op; try discriminate Hop; reflexivity. }
    rewrite E, Eu. unfold executeDateTimeMethod, getScalar.
    apply jbvType_eqb_neq in Hstr. rewrite Hstr. reflexivity.
  - intro Hobj. walker_unfold. rewrite Eu. unfold executeKeyValueMethod.
    apply jbvType_eqb_neq in Hobj.
    destruct jb as [| | | | |data]; try reflexivity.
    rewrite Hobj. reflexivity.
  - intros a ks ->. walker_unfold. rewrite Eu. reflexivity.
Qed.

(** *** Entry points: variables *)

(** X22: Variables passed as a jsonb object.  When [vars] is not an object
    every entry point raises INVALID_PARAMETER_VALUE, whatever the path and
    whether or not it mentions a variable.  A path that is a variable answers
    the member of [vars] of that name; a variable that [vars] does not hold
    raises UNDEFINED_OBJECT although [silent] is set, and also when only the
    existence of a result is asked for, where a literal would not be evaluated
    at all. *)
Theorem path_variables_from_jsonb :
  forall (jb vars : Jsonb) (silent tz : bool),
    (forall jp : JsonPath,
        JsonContainerIsObject (root vars) = false ->
        jsonb_path_query_internal jb jp vars silent tz
        = Raised ERRCODE_INVALID_PARAMETER_VALUE
        /\ jsonb_path_query_first_internal jb jp vars silent tz
           = Raised ERRCODE_INVALID_PARAMETER_VALUE
        /\ jsonb_path_exists_internal jb jp (Some (vars, silent)) tz
           = Raised ERRCODE_INVALID_PARAMETER_VALUE
        /\ jsonb_path_match_internal jb jp (Some (vars, silent)) tz
           = Raised ERRCODE_INVALID_PARAMETER_VALUE)
    /\ (forall (lax : bool) (x : string),
           JsonContainerIsObject (root vars) = true ->
           let jp := {| header_lax := lax;
                        expr := jspValue jpiVariable (JspString x) None |} in
           jsonb_path_query_internal jb jp vars silent tz
           = match findJsonbValueFromContainer (root vars) x with
             | Some v => Done [v]
             | None => Raised ERRCODE_UNDEFINED_OBJECT
             end
           /\ jsonb_path_exists_internal jb jp (Some (vars, silent)) tz
              = match findJsonbValueFromContainer (root vars) x with
                | Some v => Done (Some true)
                | None => Raised ERRCODE_UNDEFINED_OBJECT
                end
           /\ jsonb_path_exists_internal jb jp None tz
              = Raised ERRCODE_UNDEFINED_OBJECT).
Proof.
  intros jb vars silent tz. split.
  - intros jp Hobj.
    unfold jsonb_path_query_internal, jsonb_path_query_first_internal,
      jsonb_path_exists_internal, jsonb_path_match_internal, executeJsonPath,
      countVariablesFromJsonb, arg_vars.
    rewrite Hobj. repeat split; reflexivity.
  - intros lax x Hobj jp. unfold jp.
    unfold jsonb_path_query_internal, jsonb_path_exists_internal,
      executeJsonPath, countVariablesFromJsonb, arg_vars, arg_silent.
    rewrite Hobj.
    cbn [negb obind jspStrictAbsenceOfErrors laxMode header_lax expr
         found_is_null andb].
    unfold executeItem. run_exec.
    cbv beta iota delta [laxMode].
    repeat rewrite executeItemOptUnwrapTarget_unfold.
    cbv beta iota zeta delta [executeItemBody has_next found_is_null negb andb
                                getJsonPathItem getJsonPathVariable].
    run_exec.
    cbv beta iota delta [getVar getJsonPathVariableFromJsonb].
    destruct (findJsonbValueFromContainer (root vars) x) as [v|].
    + change (1 >? 0) with true.
      cbv beta iota zeta delta [setBaseObject executeNextItem found_append].
      run_exec.
      repeat split; destruct lax; reflexivity.
    + repeat split; destruct lax; reflexivity.
Qed.

(** *** Entry points: how the results relate *)

(** X24: The query functions answer from one and the same evaluation of the
    path: [jsonb_path_query_first] answers the first item of what
    [jsonb_path_query] returns, SQL NULL when there is none; the array of
    [jsonb_path_query_array] holds exactly the items of [jsonb_path_query], in
    order; and all of them raise exactly when [jsonb_path_query] does. *)
Theorem query_first_and_array_follow_query :
  forall (jb : Jsonb) (jp : JsonPath) (vars : Jsonb) (silent tz : bool),
    jsonb_path_query_first_internal jb jp vars silent tz
    = obind (jsonb_path_query_internal jb jp vars silent tz)
            (fun items => Done (List.hd_error items))
    /\ jsonb_path_query_array_internal jb jp vars silent tz
       = jsonb_path_query_internal jb jp vars silent tz.
Proof.
  intros jb jp vars silent tz.
  unfold jsonb_path_query_first_internal, jsonb_path_query_array_internal,
    jsonb_path_query_internal, wrapItemsInArray.
  destruct (executeJsonPath jp (Some vars) getJsonPathVariableFromJsonb
              countVariablesFromJsonb jb (negb silent)
              (Some JsonValueListEmpty) tz) as [[res found]|e];
    [|split; reflexivity].
  cbn [obind]. split.
  - rewrite JsonValueListLength_GetList, JsonValueListHead_GetList.
    destruct (JsonValueListGetList (found_list found)) as [|v l];
      [reflexivity|].
    destruct (Z.geb_spec (Z.of_nat (List.length (v :: l))) 1) as [_|N];
      [reflexivity|]. cbn [List.length] in N. lia.
  - rewrite JsonValueListItems_GetList. reflexivity.
Qed.

(** *** Entry points: JSON_QUERY and JSON_VALUE *)

(** X25: JSON_QUERY and its wrapper clause.  No item: SQL NULL with [*empty]
    set.  One item: the item itself, unless the wrapper is unconditional, which
    puts it in a one-element array.  Several items: an array of all of them, in
    order, under either wrapper; without a wrapper the error
    MORE_THAN_ONE_SQL_JSON_ITEM, raised when the caller passed no error flag
    and reported through the flag otherwise.  An error of the evaluation is
    reported through the flag when the caller passed one. *)
Theorem JsonPathQuery_wrapper_clause :
  forall (jb : Jsonb) (jp : JsonPath) (wrapper : JsonWrapper) (error : bool)
         (vars : list JsonPathVariable) (column_name : option string),
    JsonPathQuery jb jp wrapper error vars column_name
    = match executeJsonPath jp (vars_list vars) GetJsonPathVar
              CountJsonPathVars jb (negb error) (Some JsonValueListEmpty)
              true with
      | Raised e => Raised e
      | Done (res, found) =>
          if error && jperIsError res then
            Done {| out_value := None; out_empty := Some false;
                    out_error := Some true |}
          else
            match JsonValueListGetList (found_list found), wrapper with
            | [], _ =>
                Done {| out_value := None; out_empty := Some true;
                        out_error := None |}
            | [v], (JSW_UNSPEC | JSW_NONE | JSW_CONDITIONAL) =>
                Done {| out_value := Some (QueryItem v); out_empty := None;
                        out_error := None |}
            | items, (JSW_CONDITIONAL | JSW_UNCONDITIONAL) =>
                Done {| out_value := Some (QueryArray items);
                        out_empty := None; out_error := None |}
            | _, (JSW_UNSPEC | JSW_NONE) =>
                if error then
                  Done {| out_value := None; out_empty := None;
                          out_error := Some true |}
                else Raised ERRCODE_MORE_THAN_ONE_SQL_JSON_ITEM
            end
      end.
Proof.
  intros jb jp wrapper error vars column_name. unfold JsonPathQuery.
  destruct (executeJsonPath jp (vars_list vars) GetJsonPathVar
              CountJsonPathVars jb (negb error) (Some JsonValueListEmpty) true)
    as [[res found]|e]; [|reflexivity].
  cbn [obind].
  destruct (error && jperIsError res); [reflexivity|].
  unfold wrapItemsInArray.
  rewrite JsonValueListLength_GetList, JsonValueListHead_GetList,
    JsonValueListItems_GetList.
  destruct (JsonValueListGetList (found_list found)) as [|v [|w l]].
  - destruct wrapper; reflexivity.
  - destruct wrapper; reflexivity.
  - assert (G0 : (Z.of_nat (List.length (v :: w :: l)) >? 0) = true)
      by (apply Z.gtb_lt; cbn [List.length]; lia).
    assert (G1 : (Z.of_nat (List.length (v :: w :: l)) >? 1) = true)
      by (apply Z.gtb_lt; cbn [List.length]; lia).
    rewrite G0, G1. cbn [hd_error].
    destruct wrapper; reflexivity.
Qed.

(** X26: JSON_VALUE expects one scalar.  No item: SQL NULL with [*empty] set.
    One scalar item: the item, SQL NULL when it is a JSON null.  One array or
    object: the error SQL_JSON_SCALAR_REQUIRED; several items: the error
    MORE_THAN_ONE_SQL_JSON_ITEM; both raised when the caller passed no error
    flag and reported through the flag otherwise. *)
Theorem JsonPathValue_expects_one_scalar :
  forall (jb : Jsonb) (jp : JsonPath) (error : bool)
         (vars : list JsonPathVariable) (column_name : option string),
    JsonPathValue jb jp error vars column_name
    = match executeJsonPath jp (vars_list vars) GetJsonPathVar
              CountJsonPathVars jb (negb error) (Some JsonValueListEmpty)
              true with
      | Raised e => Raised e
      | Done (res, found) =>
          let flagged (e : ErrCode) : Outcome (JsonPathOut JsonbValue) :=
            if error then
              Done {| out_value := None; out_empty := Some false;
                      out_error := Some true |}
            else Raised e in
          if error && jperIsError res then
            Done {| out_value := None; out_empty := Some false;
                    out_error := Some true |}
          else
            match JsonValueListGetList (found_list found) with
            | [] =>
                Done {| out_value := None; out_empty := Some true;
                        out_error := None |}
            | [JsonbNull] =>
                Done {| out_value := None; out_empty := Some false;
                        out_error := None |}
            | [JsonbBinary (JsonbContainerC (JB_FOBJECT | JB_FARRAY) _ _ _)] =>
                flagged ERRCODE_SQL_JSON_SCALAR_REQUIRED
            | [JsonbBinary (JsonbContainerC JB_FSCALAR _ _ children)] =>
                match children with
                | JsonbNull :: _ =>
                    Done {| out_value := None; out_empty := Some false;
                            out_error := None |}
                | JsonbBinary _ :: _ | [] =>
                    flagged ERRCODE_SQL_JSON_SCALAR_REQUIRED
                | scalar :: _ =>
                    Done {| out_value := Some scalar; out_empty := Some false;
                            out_error := None |}
                end
            | [scalar] =>
                Done {| out_value := Some scalar; out_empty := Some false;
                        out_error := None |}
            | _ => flagged ERRCODE_MORE_THAN_ONE_SQL_JSON_ITEM
            end
      end.
Proof.
  intros jb jp error vars column_name. unfold JsonPathValue.
  destruct (executeJsonPath jp (vars_list vars) GetJsonPathVar
              CountJsonPathVars jb (negb error) (Some JsonValueListEmpty) true)
    as [[res found]|e]; [|reflexivity].
  cbn [obind]. cbv zeta.
  destruct (error && jperIsError res); [reflexivity|].
  rewrite JsonValueListLength_GetList, JsonValueListHead_GetList.
  destruct (JsonValueListGetList (found_list found)) as [|v [|w l]].
  - reflexivity.
  - cbn [List.length hd_error]. change (Z.of_nat 1 =? 0) with false.
    change (Z.of_nat 1 >? 1) with false. cbv iota.
    destruct v as [| | | | |[h a ks children]]; try reflexivity.
    destruct h; try reflexivity.
    cbn [JsonContainerIsScalar container_header JsonbExtractScalar
         container_children].
    destruct children as [|c cs]; [reflexivity|].
    destruct c; reflexivity.
  - assert (G0 : (Z.of_nat (List.length (v :: w :: l)) =? 0) = false)
      by (apply Z.eqb_neq; cbn [List.length]; lia).
    assert (G1 : (Z.of_nat (List.length (v :: w :: l)) >? 1) = true)
      by (apply Z.gtb_lt; cbn [List.length]; lia).
    rewrite G0, G1. destruct v as [| | | | |[[] a ks [|[] cs]]]; reflexivity.
Qed.

(** *** Entry points: the variables of the PASSING clause *)

(** X23: The variables of a PASSING clause are looked up by name in the order
    they were given: the first variable of that name answers, with its
    position, counted from 1, as the id of its base object; a null variable is
    a JSON null; a name no variable has answers NULL.  The position is at most
    the count [CountJsonPathVars] answers, so the ids the evaluation generates,
    which start after that count, are not those of variables. *)
Theorem passing_variables_first_binding_wins :
  forall (vars : list JsonPathVariable) (x : string),
    (Forall (fun v => name v <> x) vars -> GetJsonPathVar vars x = Done None)
    /\ (forall (before after : list JsonPathVariable) (var : JsonPathVariable),
           vars = before ++ var :: after ->
           Forall (fun v => name v <> x) before ->
           name var = x ->
           GetJsonPathVar vars x
           = obind (if isnull var then Done JsonbNull
                    else host_item_from_datum (var_value var) (var_typid var)
                           (var_typmod var))
                   (fun result =>
                      Done (Some (result, result,
                                  1 + Z.of_nat (List.length before))))
           /\ CountJsonPathVars (Some vars)
              = Done (Z.of_nat (List.length before)
                      + 1 + Z.of_nat (List.length after))).
Proof.
  intros vars x. unfold GetJsonPathVar.
  match goal with
  | |- (_ -> ?search vars 1 = _) /\ _ =>
      assert (S : forall (l1 l2 : list JsonPathVariable) (id0 : Z),
                 Forall (fun v => name v <> x) l1 ->
                 search (l1 ++ l2) id0
                 = search l2 (id0 + Z.of_nat (List.length l1)))
  end.
  { induction l1 as [|v l1 IH]; intros l2 id0 H.
    - cbn [app List.length Z.of_nat]. rewrite Z.add_0_r. reflexivity.
    - inversion H as [|? ? Hv Hl1]; subst.
      cbn [app]. apply String.eqb_neq in Hv. rewrite Hv.
      rewrite IH by exact Hl1. f_equal. cbn [List.length]. lia. }
  split.
  - intro H. rewrite <- (app_nil_r vars). rewrite S by exact H. reflexivity.
  - intros before after var -> Hbefore Hname. split.
    + rewrite S by exact Hbefore.
      apply String.eqb_eq in Hname. rewrite Hname. reflexivity.
    + unfold CountJsonPathVars. rewrite length_app. cbn [List.length].
      f_equal. lia.
Qed.

(** *** The pairs of [.keyvalue()] *)

Lemma executeKeyValueMethod_loop_counts (fl0 : JsonValueList)
    (idval : JsonbValue) (ks : list string) :
  forall (vs : list JsonbValue) (res : JsonPathExecResult)
         (fl : JsonValueList) (cxt : JsonPathExecContext),
    List.length ks = List.length vs ->
    exists cxt' : JsonPathExecContext,
      executeKeyValueMethod_loop executeItemOptUnwrapTarget None (Some fl0)
        idval ks vs res (Some fl) cxt
      = Done ((match ks with [] => res | _ => jperOk end,
               Some (fold_left JsonValueListAppend
                       (keyvalue_objects idval (lastGeneratedObjectId cxt) ks vs)
                       fl)),
              cxt')
      /\ lastGeneratedObjectId cxt'
         = Nat.iter (List.length ks) (fun n => int32_wrap (n + 1))
             (lastGeneratedObjectId cxt)
      /\ baseObject cxt' = baseObject cxt.
Proof.
  induction ks as [|k ks IH]; intros vs res fl cxt Hlen.
  - exists cxt. destruct vs; repeat split; reflexivity.
  - destruct vs as [|v vs]; [discriminate Hlen|].
    cbn [executeKeyValueMethod_loop found_is_null negb andb keyvalue_objects
         fold_left].
    cbv beta iota delta [bind gets modify setBaseObject executeNextItem ret
                           found_append jperIsError JsonPathExecResult_eqb
                           andb found_is_null].
    match goal with
    | |- context [executeKeyValueMethod_loop _ _ _ _ ks vs jperOk
                    (Some ?fl1) ?cxt1] =>
        destruct (IH vs jperOk fl1 cxt1) as (cxt' & E & Hid & Hb);
          [cbn [List.length] in Hlen; lia|]
    end.
    exists cxt'. split; [|split].
    + rewrite E. destruct ks; reflexivity.
    + rewrite Hid. cbn [List.length]. rewrite Nat.iter_succ_r. reflexivity.
    + rewrite Hb. reflexivity.
Qed.

Lemma keyvalue_objects_members (idval : JsonbValue) (ks : list string) :
  forall (vs : list JsonbValue) (n : Z),
    List.length ks = List.length vs ->
    Forall2 (fun pair kv =>
               emitted_member "key" pair = Some (JsonbString (fst kv))
               /\ exists delta : Z,
                   emitted_member "value" pair = Some (relocate delta (snd kv)))
            (keyvalue_objects idval n ks vs) (List.combine ks vs).
Proof.
  induction ks as [|k ks IH]; intros vs n Hlen.
  - constructor.
  - destruct vs as [|v vs]; [discriminate Hlen|].
    cbn [keyvalue_objects List.combine]. constructor.
    + split; [reflexivity|]. cbn [fst snd].
      destruct v as [| | | | |[h a ks' vs']];
        try (exists 0; reflexivity).
      eexists. reflexivity.
    + apply IH. cbn [List.length] in Hlen. lia.
Qed.

(** X21: [.keyvalue()] on an object, when it ends the path and results are
    collected: one pair per member, in stored order; the pair of a member holds
    the member's name under "key" and a copy of its value under "value" (a
    container is the same container at the address it has in the new object);
    the status is [jperOk] when the object has a member.  Every pair is a
    generated object of its own: the counter of generated objects advances by
    one per pair.  The base object is as before. *)
Theorem keyvalue_pairs_hold_the_members :
  forall (args : list JspValue) (addr : Z) (ks : list string)
         (vs : list JsonbValue) (fl : JsonValueList) (unwrap : bool)
         (cxt : JsonPathExecContext),
    List.length ks = List.length vs ->
    exists (fl' : JsonValueList) (pairs : list JsonbValue)
           (cxt' : JsonPathExecContext),
      executeItemOptUnwrapTarget (jspLeaf jpiKeyValue args None)
        (JsonbBinary (JsonbContainerC JB_FOBJECT addr ks vs)) (Some fl)
        unwrap cxt
      = Done ((match ks with [] => jperNotFound | _ => jperOk end, Some fl'),
              cxt')
      /\ JsonValueListGetList fl' = JsonValueListGetList fl ++ pairs
      /\ Forall2 (fun pair kv =>
                    emitted_member "key" pair = Some (JsonbString (fst kv))
                    /\ exists delta : Z,
                        emitted_member "value" pair
                        = Some (relocate delta (snd kv)))
                 pairs (List.combine ks vs)
      /\ lastGeneratedObjectId cxt'
         = Nat.iter (List.length ks) (fun n => int32_wrap (n + 1))
             (lastGeneratedObjectId cxt)
      /\ baseObject cxt' = baseObject cxt.
Proof.
  intros args addr ks vs fl unwrap cxt Hlen.
  walker_unfold.
  cbn [JsonbType JsonContainerIsObject container_header jbvType_eqb].
  rewrite andb_false_r. unfold executeKeyValueMethod.
  cbn [JsonbType JsonContainerIsObject container_header jbvType_eqb negb
       JsonContainerSize container_children container_keys].
  destruct vs as [|v vs].
  - destruct ks; [|discriminate Hlen].
    exists fl, [], cxt. cbn. rewrite app_nil_r.
    repeat split; constructor.
  - destruct ks as [|k ks]; [discriminate Hlen|].
    destruct (Z.eqb_spec (Z.of_nat (List.length (v :: vs))) 0) as [E|_];
      [cbn in E; lia|].
    unfold bind at 1, gets at 1.
    destruct (executeKeyValueMethod_loop_counts fl
                (JsonbNumeric (int64_to_numeric
                   (keyvalue_id (baseObject cxt)
                      (JsonbContainerC JB_FOBJECT addr (k :: ks) (v :: vs)))))
                (k :: ks) (v :: vs) jperNotFound fl cxt Hlen)
      as (cxt' & E & Hid & Hb).
    eexists. eexists. exists cxt'.
    split; [exact E|].
    split; [apply JsonValueListGetList_fold_Append|].
    split; [apply keyvalue_objects_members; exact Hlen|].
    split; [exact Hid | exact Hb].
Qed.

(** *** The [.**] accessor *)

Lemma JsonbContainer_tree_ind (P : JsonbContainer -> Prop) :
  (forall (h : JsonbContainerKind) (a : Z) (ks : list string)
          (vs : list JsonbValue),
      Forall (fun v => match v with JsonbBinary d => P d | _ => True end) vs ->
      P (JsonbContainerC h a ks vs)) ->
  forall jbc : JsonbContainer, P jbc.
Proof.
  intro H. fix IH 1. intros [h a ks vs]. apply H.
  induction vs as [|v vs IHvs]; constructor.
  - destruct v; try exact I. apply IH.
  - exact IHvs.
Qed.

Lemma subtree_levels (jbc : JsonbContainer) :
  forall (level last : Z) (first : Z),
    last < level ->
    filter (any_selected first last)
      (flat_map (subtree level) (container_children jbc)) = [].
Proof.
  induction jbc as [h a ks vs IH] using JsonbContainer_tree_ind.
  intros level last first Hl. cbn [container_children].
  induction vs as [|v vs IHvs]; [reflexivity|].
  inversion IH as [|? ? Hv Hvs]; subst.
  cbn [flat_map]. rewrite filter_app, (IHvs Hvs), app_nil_r.
  assert (E : any_selected first last (level, v) = false).
  { unfold any_selected. cbn [fst].
    destruct (Z.leb_spec level last); [lia | reflexivity]. }
  destruct v as [| | | | |[h' a' ks' vs']]; cbn [subtree filter]; rewrite E;
    try reflexivity.
  apply (Hv (level + 1) last first). lia.
Qed.

Lemma executeAnyItem_descends (first last : Z) (ign : bool)
    (cxt : JsonPathExecContext) (jbc : JsonbContainer) :
  last <= PG_UINT32_MAX ->
  forall (level : Z) (fl : JsonValueList),
    0 <= level ->
    executeAnyItem None jbc (Some fl) level first last ign cxt
    = Done ((jperNotFound,
             Some (fold_left JsonValueListAppend
                     (map snd
                        (filter (any_selected first last)
                           (flat_map (subtree level) (container_children jbc))))
                     fl)),
            cxt).
Proof.
  intro Hmax.
  induction jbc as [h a ks vs IH] using JsonbContainer_tree_ind.
  intros level fl Hlevel. cbn [container_children].
  destruct (Z.ltb_spec last level) as [Hgt|Hle].
  - pose proof (subtree_levels (JsonbContainerC h a ks vs) first Hgt) as E.
    cbn [container_children] in E. rewrite E.
    cbn [executeAnyItem]. replace (level >? last) with true by (symmetry; lia).
    reflexivity.
  - cbn [executeAnyItem]. replace (level >? last) with false by (symmetry; lia).
    cbv iota.
    match goal with
    | |- ?loop vs jperNotFound (Some fl) cxt = _ =>
        assert (L : forall (ws : list JsonbValue),
                   Forall (fun v =>
                             match v with
                             | JsonbBinary d =>
                                 forall (level : Z) (fl : JsonValueList),
                                   0 <= level ->
                                   executeAnyItem None d (Some fl) level first
                                     last ign cxt
                                   = Done ((jperNotFound,
                                            Some (fold_left JsonValueListAppend
                                                    (map snd
                                                       (filter
                                                          (any_selected first last)
                                                          (flat_map (subtree level)
                                                             (container_children d))))
                                                    fl)),
                                           cxt)
                             | _ => True
                             end) ws ->
                   forall (l : JsonValueList),
                     loop ws jperNotFound (Some l) cxt
                     = Done ((jperNotFound,
                              Some (fold_left JsonValueListAppend
                                      (map snd
                                         (filter (any_selected first last)
                                            (flat_map (subtree level) ws)))
                                      l)),
                             cxt))
    end.
    { induction ws as [|w ws IHws]; intros Hws l; [reflexivity|].
      inversion Hws as [|? ? Hw Hrest]; subst.
      cbn [flat_map]. rewrite filter_app, map_app, fold_left_app.
      rewrite <- (IHws Hrest).
      assert (C : any_selected first last (level, w)
                  = (level >=? first)
                    || ((first =? PG_UINT32_MAX) && (last =? PG_UINT32_MAX)
                        && negb (jbvType_eqb (jbv_type w) jbvBinary))).
      { unfold any_selected. cbn [fst snd].
        replace (level <=? last) with true by (symmetry; lia).
        rewrite Z.geb_leb. reflexivity. }
      destruct w as [| | | | |d];
        cbn [subtree filter]; rewrite C;
        try (destruct ((level >=? first)
                       || ((first =? PG_UINT32_MAX) && (last =? PG_UINT32_MAX)
                           && negb (jbvType_eqb (jbv_type _) jbvBinary)));
             reflexivity).
      destruct d as [h' a' ks' vs'].
      destruct (Z.ltb_spec level last) as [Hlt|Hge].
      - assert (W : uint32_wrap (level + 1) = level + 1).
        { unfold uint32_wrap. apply Z.mod_small.
          unfold PG_UINT32_MAX in Hmax. lia. }
        destruct ((level >=? first)
                  || ((first =? PG_UINT32_MAX) && (last =? PG_UINT32_MAX)
                      && negb (jbvType_eqb
                                 (jbv_type (JsonbBinary
                                              (JsonbContainerC h' a' ks' vs')))
                                 jbvBinary)));
          cbn [map snd fold_left];
          run_exec; rewrite W;
          rewrite (Hw (level + 1)) by lia; cbn [container_children];
          reflexivity.
      - pose proof (subtree_levels (JsonbContainerC h' a' ks' vs') first
                      (level := level + 1) (last := last) ltac:(lia)) as E.
        cbn [container_children] in E. rewrite E.
        destruct ((level >=? first)
                  || ((first =? PG_UINT32_MAX) && (last =? PG_UINT32_MAX)
                      && negb (jbvType_eqb
                                 (jbv_type (JsonbBinary
                                              (JsonbContainerC h' a' ks' vs')))
                                 jbvBinary)));
          reflexivity. }
    apply L. exact IH.
Qed.

Lemma set_ignoreStructuralErrors_restore (b : bool)
    (cxt : JsonPathExecContext) :
  set_ignoreStructuralErrors (ignoreStructuralErrors cxt)
    (set_ignoreStructuralErrors b cxt)
  = cxt.
Proof. destruct cxt; reflexivity. Qed.

(** X11: The [.**] accessor with depth bounds, when it ends the path and
    results are collected: the item itself when the lower bound is 0, then what
    lies below it at the selected depths, in document order (a container before
    its content).  Levels above the upper bound are not visited.  Structural
    errors are ignored for the item itself and the setting is restored: the
    context is as before.  On a container the status is [jperNotFound] also
    when items were appended. *)
Theorem recursive_wildcard_accessor :
  forall (first last : Z) (jb : JsonbValue) (fl : JsonValueList)
         (unwrap : bool) (cxt : JsonPathExecContext),
    last <= PG_UINT32_MAX ->
    exists fl' : JsonValueList,
      executeItemOptUnwrapTarget (jspAnyBounds first last None) jb (Some fl)
        unwrap cxt
      = Done ((match jb with
               | JsonbBinary _ => jperNotFound
               | _ => if first =? 0 then jperOk else jperNotFound
               end, Some fl'), cxt)
      /\ JsonValueListGetList fl'
         = JsonValueListGetList fl
           ++ (if first =? 0 then [jb] else [])
           ++ map snd (filter (any_selected first last) (below jb)).
Proof.
  intros first last jb fl unwrap cxt Hmax.
  assert (A : forall (l : JsonValueList) (v : JsonbValue) (vs : list JsonbValue),
             JsonValueListGetList
               (fold_left JsonValueListAppend vs (JsonValueListAppend l v))
             = JsonValueListGetList l ++ [v] ++ vs).
  { intros l v vs.
    change (fold_left JsonValueListAppend vs (JsonValueListAppend l v))
      with (fold_left JsonValueListAppend (v :: vs) l).
    apply JsonValueListGetList_fold_Append. }
  walker_unfold. unfold executeNextItem, next_step, found_append.
  run_exec. cbn [found_is_null andb].
  destruct (first =? 0) eqn:E0.
  - rewrite andb_false_r. rewrite set_ignoreStructuralErrors_restore.
    destruct jb as [| | | | |d];
      try (eexists; split; [reflexivity|];
           cbn [below map filter snd]; rewrite app_nil_r;
           apply (A fl _ [])).
    rewrite (executeAnyItem_descends first true cxt d Hmax) by lia.
    eexists. split; [reflexivity|].
    destruct d as [h a ks vs]. cbn [below container_children]. apply A.
  - destruct jb as [| | | | |d];
      try (exists fl; split; [reflexivity|];
           cbn [below map filter snd app]; rewrite app_nil_r; reflexivity).
    rewrite (executeAnyItem_descends first true cxt d Hmax) by lia.
    eexists. split; [reflexivity|].
    destruct d as [h a ks vs]. cbn [below container_children app].
    apply JsonValueListGetList_fold_Append.
Qed.

(** *** What the walker keeps of its context *)











Lemma Frame_fun (A : Type) (m : Exec A) :
  (forall cxt, Frame (fun _ => m cxt)) -> Frame m.
Proof. intros H cxt a cxt' E. exact (H cxt cxt a cxt' E). Qed.


































(** *** The identifiers of [.keyvalue()] across one evaluation *)










End WalkerLaws.

(** ** JSON_TABLE: the rows of a plan *)

Section TableLaws.

Context {HT : HostTypes} {HO : HostOps}.

Lemma Fetches_deterministic (plan : JsonTablePlan) (st : JsonTablePlanState)
    (rows1 : list JsonTablePlanState) (st1 : JsonTablePlanState) :
  Fetches plan st rows1 st1 ->
  forall (rows2 : list JsonTablePlanState) (st2 : JsonTablePlanState),
    Fetches plan st rows2 st2 -> rows1 = rows2 /\ st1 = st2.
Proof.
  induction 1 as [st st' E | st sa st' rows E F IH]; intros rows2 st2 F2.
  - inversion F2 as [? ? E2 | ? ? ? ? E2 F2']; subst; rewrite E in E2.
    + injection E2 as ->. split; reflexivity.
    + discriminate E2.
  - inversion F2 as [? ? E2 | ? ? ? ? E2 F2']; subst; rewrite E in E2.
    + discriminate E2.
    + injection E2 as ->. destruct (IH _ _ F2') as [-> ->]. split; reflexivity.
Qed.

Lemma JsonValueListNext_ok (it : JsonValueListIterator) :
  iterator_ok (snd (JsonValueListNext it)) = true.
Proof.
  unfold JsonValueListNext, iterator_ok. destruct (it_next it); reflexivity.
Qed.

Lemma JsonValueListNext_exhausted (it : JsonValueListIterator) :
  iterator_ok it = true ->
  fst (JsonValueListNext it) = None ->
  JsonValueListNext (snd (JsonValueListNext it))
  = (None, snd (JsonValueListNext it)).
Proof.
  unfold JsonValueListNext, iterator_ok.
  destruct (it_value it), (it_next it); cbn; intros H1 H2;
    try discriminate; reflexivity.
Qed.

(** The fetch of a sibling join, in terms of the fetches of its children. *)
Lemma JsonTablePlanNextRow_join (lplan rplan : JsonTablePlan)
    (lstate rstate : JsonTablePlanState) :
  JsonTablePlanNextRow (JsonTableSiblingJoin lplan rplan)
                       (SiblingJoinState lstate rstate)
  = match JsonTablePlanNextRow lplan lstate with
    | Raised e => Raised e
    | Done (true, lstate') => Done (true, SiblingJoinState lstate' rstate)
    | Done (false, lstate') =>
        match JsonTablePlanNextRow rplan rstate with
        | Raised e => Raised e
        | Done (more, rstate') => Done (more, SiblingJoinState lstate' rstate')
        end
    end.
Proof.
  cbn [JsonTablePlanNextRow]. unfold JsonTablePlanJoinNextRow, obind.
  destruct (JsonTablePlanNextRow lplan lstate) as [[[|] l']|e]; reflexivity.
Qed.

(** A fetch keeps the iterators it reads as the iterator routines leave
    them. *)
Lemma JsonTablePlanNextRow_iterators_ok (plan : JsonTablePlan) :
  forall (st st' : JsonTablePlanState) (more : bool),
    iterators_ok st = true ->
    JsonTablePlanNextRow plan st = Done (more, st') ->
    iterators_ok st' = true.
Proof.
  induction plan as [path errorOnError child | lplan IHl rplan IHr];
    intros st st' more Hok E.
  - destruct st as [args found iter cur ordinal nested|]; [|discriminate E].
    cbn [JsonTablePlanNextRow] in E. unfold JsonTablePlanScanNextRow in E.
    match type of E with
    | obind ?m _ = _ => destruct m as [[joined nested1]|e]; [|discriminate E]
    end.
    cbn [obind] in E. destruct joined.
    + injection E as _ <-. exact Hok.
    + pose proof (JsonValueListNext_ok iter) as Hn.
      destruct (JsonValueListNext iter) as [jbv iter'].
      destruct jbv as [row|].
      * match type of E with
        | obind ?m _ = _ => destruct m as [nested2|e]; [|discriminate E]
        end.
        injection E as _ <-. exact Hn.
      * injection E as _ <-. exact Hn.
  - destruct st as [|lstate rstate]; [discriminate E|].
    rewrite JsonTablePlanNextRow_join in E.
    cbn [iterators_ok] in Hok. apply andb_true_iff in Hok as [Hl Hr].
    destruct (JsonTablePlanNextRow lplan lstate) as [[[|] l']|e] eqn:El;
      try discriminate E.
    + injection E as _ <-. cbn. rewrite (IHl _ _ _ Hl El), Hr. reflexivity.
    + destruct (JsonTablePlanNextRow rplan rstate) as [[more' r']|e] eqn:Er;
        [|discriminate E].
      injection E as _ <-. cbn.
      rewrite (IHl _ _ _ Hl El), (IHr _ _ _ Hr Er). reflexivity.
Qed.

(** An exhausted plan stays exhausted: fetching again from the state a
    failed fetch leaves fails again and leaves the state as it is. *)
Lemma JsonTablePlanNextRow_exhausted_stable (plan : JsonTablePlan) :
  forall (st st' : JsonTablePlanState),
    iterators_ok st = true ->
    JsonTablePlanNextRow plan st = Done (false, st') ->
    JsonTablePlanNextRow plan st' = Done (false, st').
Proof.
  induction plan as [path errorOnError child | lplan IHl rplan IHr];
    intros st st' Hok E.
  - destruct st as [args found iter cur ordinal nested|]; [|discriminate E].
    cbn [JsonTablePlanNextRow] in E. unfold JsonTablePlanScanNextRow in E.
    match type of E with
    | obind ?m _ = _ => destruct m as [[joined nested1]|e]; [|discriminate E]
    end.
    cbn [obind] in E. destruct joined; [discriminate E|].
    cbn [iterators_ok] in Hok.
    pose proof (JsonValueListNext_exhausted iter Hok) as Hx.
    destruct (JsonValueListNext iter) as [jbv iter'].
    destruct jbv as [row|].
    + match type of E with
      | obind ?m _ = _ => destruct m as [nested2|e]; discriminate E
      end.
    + injection E as <-.
      cbn [JsonTablePlanNextRow]. unfold JsonTablePlanScanNextRow.
      cbn [null_row rs_isnull negb obind].
      cbn [fst snd] in Hx. rewrite (Hx eq_refl). reflexivity.
  - destruct st as [|lstate rstate]; [discriminate E|].
    rewrite JsonTablePlanNextRow_join in E.
    cbn [iterators_ok] in Hok. apply andb_true_iff in Hok as [Hl Hr].
    destruct (JsonTablePlanNextRow lplan lstate) as [[[|] l']|e] eqn:El;
      try discriminate E.
    destruct (JsonTablePlanNextRow rplan rstate) as [[more' r']|e] eqn:Er;
      [|discriminate E].
    injection E as -> <-.
    rewrite JsonTablePlanNextRow_join.
    rewrite (IHl _ _ Hl El), (IHr _ _ Hr Er). reflexivity.
Qed.

(** The rows of the right child, fetched through the join once the left
    child is exhausted. *)
Lemma Fetches_join_right (lplan rplan : JsonTablePlan)
    (lexhausted : JsonTablePlanState) :
  JsonTablePlanNextRow lplan lexhausted = Done (false, lexhausted) ->
  forall (rstate rstate' : JsonTablePlanState) (rrows : list JsonTablePlanState),
    Fetches rplan rstate rrows rstate' ->
    forall lstate : JsonTablePlanState,
      JsonTablePlanNextRow lplan lstate = Done (false, lexhausted) ->
      Fetches (JsonTableSiblingJoin lplan rplan)
              (SiblingJoinState lstate rstate)
              (List.map (SiblingJoinState lexhausted) rrows)
              (SiblingJoinState lexhausted rstate').
Proof.
  intros Hstable rstate rstate' rrows F.
  induction F as [st st' E | st sa st' rows E F IH]; intros lstate El.
  - apply Fetches_exhausted.
    rewrite JsonTablePlanNextRow_join, El, E. reflexivity.
  - cbn [List.map]. eapply Fetches_row.
    + rewrite JsonTablePlanNextRow_join, El, E. reflexivity.
    + apply IH. exact Hstable.
Qed.

(** C8: the rows fetched from a sibling join are the rows of the left child
    (the right child untouched meanwhile) followed by the rows of the right
    child (fetched once the left child is exhausted), and no other sequence;
    their number is the left count plus the right count; and a fetch from
    the join reports exhaustion exactly when the fetch from the left child
    and then the fetch from the right child both do. *)
Theorem C8_sibling_join_rows_are_left_then_right :
  forall (lplan rplan : JsonTablePlan)
         (lstate lstate' rstate rstate' : JsonTablePlanState)
         (lrows rrows : list JsonTablePlanState),
    iterators_ok lstate = true ->
    Fetches lplan lstate lrows lstate' ->
    Fetches rplan rstate rrows rstate' ->
    Fetches (JsonTableSiblingJoin lplan rplan)
            (SiblingJoinState lstate rstate)
            (List.map (fun l => SiblingJoinState l rstate) lrows
             ++ List.map (SiblingJoinState lstate') rrows)
            (SiblingJoinState lstate' rstate')
    /\ (forall (rows : list JsonTablePlanState) (final : JsonTablePlanState),
           Fetches (JsonTableSiblingJoin lplan rplan)
                   (SiblingJoinState lstate rstate) rows final ->
           rows = List.map (fun l => SiblingJoinState l rstate) lrows
                  ++ List.map (SiblingJoinState lstate') rrows
           /\ List.length rows = (List.length lrows + List.length rrows)%nat)
    /\ (forall (l r final : JsonTablePlanState),
           JsonTablePlanNextRow (JsonTableSiblingJoin lplan rplan)
                                (SiblingJoinState l r) = Done (false, final)
           <-> exists l' r' : JsonTablePlanState,
               JsonTablePlanNextRow lplan l = Done (false, l')
               /\ JsonTablePlanNextRow rplan r = Done (false, r')
               /\ final = SiblingJoinState l' r').
Proof.
  intros lplan rplan lstate lstate' rstate rstate' lrows rrows Hok FL FR.
  assert (J : Fetches (JsonTableSiblingJoin lplan rplan)
                      (SiblingJoinState lstate rstate)
                      (List.map (fun l => SiblingJoinState l rstate) lrows
                       ++ List.map (SiblingJoinState lstate') rrows)
                      (SiblingJoinState lstate' rstate')).
  { revert Hok.
    induction FL as [st st' E | st sa st' rows E F IH]; intro Hok.
    - cbn [List.map app].
      apply Fetches_join_right; try assumption.
      exact (JsonTablePlanNextRow_exhausted_stable lplan st Hok E).
    - cbn [List.map app]. eapply Fetches_row.
      + rewrite JsonTablePlanNextRow_join, E. reflexivity.
      + apply IH.
        exact (JsonTablePlanNextRow_iterators_ok lplan st Hok E). }
  split; [exact J|]. split.
  - intros rows final F.
    destruct (Fetches_deterministic F J) as [-> _].
    split; [reflexivity|].
    rewrite length_app, !length_map. reflexivity.
  - intros l r final. rewrite JsonTablePlanNextRow_join. split.
    + intro E.
      destruct (JsonTablePlanNextRow lplan l) as [[[|] l']|e];
        try discriminate E.
      destruct (JsonTablePlanNextRow rplan r) as [[[|] r']|e];
        try discriminate E.
      injection E as <-. exists l', r'. repeat split.
    + intros (l' & r' & -> & -> & ->). reflexivity.
Qed.

(** *** Every fetch sequence ends *)

Lemma JsonTablePlanNextRow_scan (path : JsonPath) (errorOnError : bool)
    (child : option JsonTablePlan) (args : list JsonPathVariable)
    (found : JsonValueList) (iter : JsonValueListIterator)
    (cur : JsonTablePlanRowSource) (ordinal : Z)
    (nested : option JsonTablePlanState) :
  JsonTablePlanNextRow (JsonTablePathScan path errorOnError child)
    (PathScanState args found iter cur ordinal nested)
  = match scan_nested_phase child cur nested with
    | Raised e => Raised e
    | Done (true, nested1) =>
        Done (true, PathScanState args found iter cur ordinal nested1)
    | Done (false, nested1) =>
        scan_own_phase child args found iter ordinal nested1
    end.
Proof.
  cbn [JsonTablePlanNextRow]. unfold JsonTablePlanScanNextRow.
  change (if negb (rs_isnull cur)
          then match child, nested with
               | Some c, Some n =>
                   obind (JsonTablePlanNextRow c n)
                         (fun '(more, n') => Done (more, Some n'))
               | _, _ => Done (false, nested)
               end
          else Done (false, nested))
    with (scan_nested_phase child cur nested).
  destruct (scan_nested_phase child cur nested) as [[[|] n1]|e]; reflexivity.
Qed.

Lemma JsonValueListInitIterator_ok (jvl : JsonValueList) :
  iterator_ok (JsonValueListInitIterator jvl) = true.
Proof.
  unfold JsonValueListInitIterator, iterator_ok.
  destruct (jvl_singleton jvl); [reflexivity|].
  destruct (jvl_list jvl); reflexivity.
Qed.

Lemma planstate_wf_iterators_ok (st : JsonTablePlanState) :
  planstate_wf st = true -> iterators_ok st = true.
Proof.
  induction st as [args found iter cur ordinal nested | l IHl r IHr]; cbn.
  - intro H. apply andb_true_iff in H. tauto.
  - intro H. apply andb_true_iff in H as [Hl Hr].
    rewrite (IHl Hl), (IHr Hr). reflexivity.
Qed.

Lemma JsonTableResetNestedPlan_wf (plan : JsonTablePlan)
    (parent : JsonTablePlanRowSource) :
  forall st st' : JsonTablePlanState,
    planstate_wf st = true ->
    JsonTableResetNestedPlan plan parent st = Done st' ->
    planstate_wf st' = true.
Proof.
  induction plan as [path errorOnError child | lplan IHl rplan IHr];
    intros st st' Hwf E.
  - destruct st as [args found iter cur ordinal nested|].
    + cbn [JsonTableResetNestedPlan] in E.
      cbn [planstate_wf] in Hwf. apply andb_true_iff in Hwf as [Hi Hn].
      destruct (negb (rs_isnull parent)).
      * destruct (rs_value parent) as [item|]; [|discriminate E].
        unfold JsonTableResetRowPattern in E.
        match type of E with
        | obind ?m _ = _ => destruct m as [[res fnd]|e]; [|discriminate E]
        end.
        cbn [obind] in E. injection E as <-.
        cbn [planstate_wf]. rewrite JsonValueListInitIterator_ok. exact Hn.
      * injection E as <-. cbn [planstate_wf]. rewrite Hi. exact Hn.
    + cbn in E. injection E as <-. exact Hwf.
  - destruct st as [|l r].
    + cbn in E. injection E as <-. exact Hwf.
    + cbn [JsonTableResetNestedPlan] in E.
      cbn [planstate_wf] in Hwf. apply andb_true_iff in Hwf as [Hl Hr].
      destruct (JsonTableResetNestedPlan lplan parent l) as [l'|e] eqn:El;
        [|discriminate E].
      destruct (JsonTableResetNestedPlan rplan parent r) as [r'|e] eqn:Er;
        [|discriminate E].
      cbn [obind] in E. injection E as <-. cbn [planstate_wf].
      rewrite (IHl _ _ Hl El), (IHr _ _ Hr Er). reflexivity.
Qed.

Lemma JsonTablePlanNextRow_wf (plan : JsonTablePlan) :
  forall (st st' : JsonTablePlanState) (more : bool),
    planstate_wf st = true ->
    JsonTablePlanNextRow plan st = Done (more, st') ->
    planstate_wf st' = true.
Proof.
  induction plan as [path errorOnError child IHc | lplan IHl rplan IHr]
    using JsonTablePlan_ind'; intros st st' more Hwf E.
  - destruct st as [args found iter cur ordinal nested|]; [|discriminate E].
    rewrite JsonTablePlanNextRow_scan in E.
    cbn [planstate_wf] in Hwf. apply andb_true_iff in Hwf as [Hi Hn].
    assert (H1 : forall b n1, scan_nested_phase child cur nested = Done (b, n1) ->
                 match n1 with Some n => planstate_wf n | None => true end = true).
    { intros b n1 E1. unfold scan_nested_phase in E1.
      destruct (negb (rs_isnull cur)); [|injection E1 as _ <-; exact Hn].
      destruct child as [c|]; [|injection E1 as _ <-; exact Hn].
      destruct nested as [n|]; [|injection E1 as _ <-; exact Hn].
      destruct (JsonTablePlanNextRow c n) as [[m n']|e] eqn:En; [|discriminate E1].
      cbn [obind] in E1. injection E1 as _ <-.
      exact (IHc _ _ _ Hn En). }
    destruct (scan_nested_phase child cur nested) as [[[|] n1]|e] eqn:E1;
      [| |discriminate E].
    + injection E as _ <-. cbn [planstate_wf]. rewrite Hi. exact (H1 _ _ eq_refl).
    + specialize (H1 _ _ eq_refl). unfold scan_own_phase in E.
      pose proof (JsonValueListNext_ok iter) as Hnx.
      destruct (JsonValueListNext iter) as [jbv iter']. cbn [snd] in Hnx.
      destruct jbv as [row|].
      * match type of E with
        | obind ?m _ = _ => destruct m as [nested2|e] eqn:E2; [|discriminate E]
        end.
        cbn [obind] in E. injection E as _ <-. cbn [planstate_wf]. rewrite Hnx.
        cbn [andb].
        destruct child as [c|]; [|injection E2 as <-; exact H1].
        destruct n1 as [n|]; [|injection E2 as <-; exact H1].
        match type of E2 with
        | obind ?m _ = _ => destruct m as [n'|e] eqn:Er; [|discriminate E2]
        end.
        cbn [obind] in E2.
        destruct (JsonTablePlanNextRow c n') as [[m n'']|e] eqn:En;
          [|discriminate E2].
        cbn [obind] in E2. injection E2 as <-.
        apply (IHc _ _ _ (JsonTableResetNestedPlan_wf _ _ _ H1 Er) En).
      * injection E as _ <-. cbn [planstate_wf]. rewrite Hnx. exact H1.
  - destruct st as [|l r]; [discriminate E|].
    rewrite JsonTablePlanNextRow_join in E.
    cbn [planstate_wf] in Hwf. apply andb_true_iff in Hwf as [Hl Hr].
    destruct (JsonTablePlanNextRow lplan l) as [[[|] l']|e] eqn:El;
      try discriminate E.
    + injection E as _ <-. cbn. rewrite (IHl _ _ _ Hl El), Hr. reflexivity.
    + destruct (JsonTablePlanNextRow rplan r) as [[more' r']|e] eqn:Er;
        [|discriminate E].
      injection E as _ <-. cbn.
      rewrite (IHl _ _ _ Hl El), (IHr _ _ _ Hr Er). reflexivity.
Qed.

Lemma JsonValueListNext_items (it it' : JsonValueListIterator) (v : JsonbValue) :
  JsonValueListNext it = (Some v, it') ->
  iterator_items it = v :: iterator_items it'.
Proof.
  unfold JsonValueListNext, iterator_items.
  destruct (it_value it) as [x|], (it_next it) as [|w rest]; cbn;
    intro E; inversion E; subst; reflexivity.
Qed.

Lemma Drains_prepend (plan : JsonTablePlan) (st st1 : JsonTablePlanState) :
  JsonTablePlanNextRow plan st = Done (true, st1) ->
  Drains plan st1 -> Drains plan st.
Proof.
  intros E [(rows & st' & F) | R].
  - left. exists (st1 :: rows), st'. now apply Fetches_row with (st1 := st1).
  - right. now apply FetchRaises_later with (st1 := st1).
Qed.

Lemma FetchRaises_join_left (lplan rplan : JsonTablePlan)
    (lstate : JsonTablePlanState) :
  FetchRaises lplan lstate ->
  forall rstate : JsonTablePlanState,
    FetchRaises (JsonTableSiblingJoin lplan rplan)
                (SiblingJoinState lstate rstate).
Proof.
  induction 1 as [st e E | st st1 E R IH]; intro rstate.
  - apply FetchRaises_now with (e := e).
    rewrite JsonTablePlanNextRow_join, E. reflexivity.
  - apply FetchRaises_later with (st1 := SiblingJoinState st1 rstate).
    + rewrite JsonTablePlanNextRow_join, E. reflexivity.
    + apply IH.
Qed.

Lemma FetchRaises_join_right (lplan rplan : JsonTablePlan)
    (lexhausted rstate : JsonTablePlanState) :
  JsonTablePlanNextRow lplan lexhausted = Done (false, lexhausted) ->
  FetchRaises rplan rstate ->
  forall lstate : JsonTablePlanState,
    JsonTablePlanNextRow lplan lstate = Done (false, lexhausted) ->
    FetchRaises (JsonTableSiblingJoin lplan rplan)
                (SiblingJoinState lstate rstate).
Proof.
  intros Hstable R.
  induction R as [st e E | st st1 E R IH]; intros lstate El.
  - apply FetchRaises_now with (e := e).
    rewrite JsonTablePlanNextRow_join, El, E. reflexivity.
  - apply FetchRaises_later with (st1 := SiblingJoinState lexhausted st1).
    + rewrite JsonTablePlanNextRow_join, El, E. reflexivity.
    + apply IH. exact Hstable.
Qed.

Lemma Drains_join (lplan rplan : JsonTablePlan)
    (lstate rstate : JsonTablePlanState) :
  iterators_ok lstate = true ->
  Drains lplan lstate -> Drains rplan rstate ->
  Drains (JsonTableSiblingJoin lplan rplan) (SiblingJoinState lstate rstate).
Proof.
  intros Hok [(lrows & l' & FL) | RL] DR.
  - revert Hok. induction FL as [st st' E | st sa st' rows E F IH]; intro Hok.
    + pose proof (JsonTablePlanNextRow_exhausted_stable lplan st Hok E) as Hs.
      destruct DR as [(rrows & r' & FR) | RR].
      * left. eexists. eexists.
        eapply Fetches_join_right; [exact Hs | exact FR | exact E].
      * right. eapply FetchRaises_join_right; [exact Hs | exact RR | exact E].
    + apply Drains_prepend with (st1 := SiblingJoinState sa rstate).
      * rewrite JsonTablePlanNextRow_join, E. reflexivity.
      * apply IH. exact (JsonTablePlanNextRow_iterators_ok lplan st Hok E).
  - right. now apply FetchRaises_join_left.
Qed.

Section ScanDrains.
Variables (path : JsonPath) (errorOnError : bool)
          (child : option JsonTablePlan).
Let scan : JsonTablePlan := JsonTablePathScan path errorOnError child.

Hypothesis child_drains :
  match child with
  | Some c => forall n, planstate_wf n = true -> Drains c n
  | None => True
  end.

(** The own phase of a scan either reports exhaustion, raises, or returns a
    row and leaves an iterator that is one item shorter. *)
Lemma Drains_scan_own (args : list JsonPathVariable) (found : JsonValueList)
    (iter : JsonValueListIterator) (ordinal : Z) :
  (forall (iter' : JsonValueListIterator) (cur' : JsonTablePlanRowSource)
          (ordinal' : Z) (nested' : option JsonTablePlanState),
      (List.length (iterator_items iter') < List.length (iterator_items iter))%nat ->
      planstate_wf (PathScanState args found iter' cur' ordinal' nested') = true ->
      Drains scan (PathScanState args found iter' cur' ordinal' nested')) ->
  iterator_ok iter = true ->
  forall (cur0 : JsonTablePlanRowSource)
         (nested0 nested1 : option JsonTablePlanState),
    match nested1 with Some n => planstate_wf n | None => true end = true ->
    JsonTablePlanNextRow scan (PathScanState args found iter cur0 ordinal nested0)
    = scan_own_phase child args found iter ordinal nested1 ->
    Drains scan (PathScanState args found iter cur0 ordinal nested0).
Proof.
  intros IH Hi cur0 nested0 nested1 H1 E. unfold scan_own_phase in E.
  pose proof (JsonValueListNext_ok iter) as Hnx.
  destruct (JsonValueListNext iter) as [jbv iter'] eqn:En. cbn [snd] in Hnx.
  destruct jbv as [row|].
  - match type of E with
    | _ = obind ?m _ => destruct m as [nested2|e] eqn:E2
    end.
    + cbn [obind] in E. apply (Drains_prepend _ E).
      apply IH.
      * rewrite (JsonValueListNext_items _ En). cbn. lia.
      * cbn [planstate_wf]. rewrite Hnx. cbn [andb].
        destruct child as [c|]; [|injection E2 as <-; exact H1].
        destruct nested1 as [n|]; [|injection E2 as <-; exact H1].
        match type of E2 with
        | obind ?m _ = _ => destruct m as [n'|e] eqn:Er; [|discriminate E2]
        end.
        cbn [obind] in E2.
        destruct (JsonTablePlanNextRow c n') as [[m n'']|e] eqn:Ec;
          [|discriminate E2].
        cbn [obind] in E2. injection E2 as <-.
        apply (JsonTablePlanNextRow_wf _ _
                 (JsonTableResetNestedPlan_wf _ _ _ H1 Er) Ec).
    + right. apply FetchRaises_now with (e := e). exact E.
  - left. eexists. eexists. apply Fetches_exhausted. exact E.
Qed.

(** The nested phase of a scan returns the rows of the nested plan for the
    current row, then hands over to the own phase. *)
Lemma Drains_scan_nested (args : list JsonPathVariable) (found : JsonValueList)
    (iter : JsonValueListIterator) (ordinal : Z) :
  (forall (cur0 : JsonTablePlanRowSource)
          (nested0 nested1 : option JsonTablePlanState),
      match nested1 with Some n => planstate_wf n | None => true end = true ->
      JsonTablePlanNextRow scan (PathScanState args found iter cur0 ordinal nested0)
      = scan_own_phase child args found iter ordinal nested1 ->
      Drains scan (PathScanState args found iter cur0 ordinal nested0)) ->
  forall (cur : JsonTablePlanRowSource) (nested : option JsonTablePlanState),
    match nested with Some n => planstate_wf n | None => true end = true ->
    Drains scan (PathScanState args found iter cur ordinal nested).
Proof.
  intros Own cur nested Hn.
  pose proof (JsonTablePlanNextRow_scan path errorOnError child args found
                iter cur ordinal nested) as E.
  fold scan in E. unfold scan_nested_phase in E.
  destruct (negb (rs_isnull cur)) eqn:Ecur;
    [|apply Own with (nested1 := nested); [exact Hn | exact E]].
  destruct child as [c|];
    [|apply Own with (nested1 := nested); [exact Hn | exact E]].
  destruct nested as [n|];
    [|apply Own with (nested1 := None); [exact Hn | exact E]].
  clear E.
  assert (Step : forall m : JsonTablePlanState,
             JsonTablePlanNextRow scan
               (PathScanState args found iter cur ordinal (Some m))
             = match JsonTablePlanNextRow c m with
               | Raised e => Raised e
               | Done (true, m') =>
                   Done (true, PathScanState args found iter cur ordinal (Some m'))
               | Done (false, m') =>
                   scan_own_phase (Some c) args found iter ordinal (Some m')
               end).
  { intro m. unfold scan. rewrite JsonTablePlanNextRow_scan.
    unfold scan_nested_phase. rewrite Ecur.
    destruct (JsonTablePlanNextRow c m) as [[[|] m']|e]; reflexivity. }
  destruct (child_drains n Hn) as [(rows & n' & F) | R].
  - revert Hn. induction F as [st st' En | st sa st' rows' En F IH]; intro Hn.
    + apply Own with (nested1 := Some st').
      * exact (JsonTablePlanNextRow_wf _ _ Hn En).
      * rewrite Step, En. reflexivity.
    + apply Drains_prepend
        with (st1 := PathScanState args found iter cur ordinal (Some sa)).
      * rewrite Step, En. reflexivity.
      * apply IH. exact (JsonTablePlanNextRow_wf _ _ Hn En).
  - clear Hn. induction R as [st e En | st sa En R IH].
    + right. apply FetchRaises_now with (e := e). rewrite Step, En. reflexivity.
    + apply Drains_prepend
        with (st1 := PathScanState args found iter cur ordinal (Some sa)).
      * rewrite Step, En. reflexivity.
      * exact IH.
Qed.

Lemma Drains_scan (k : nat) :
  forall (args : list JsonPathVariable) (found : JsonValueList)
         (iter : JsonValueListIterator) (cur : JsonTablePlanRowSource)
         (ordinal : Z) (nested : option JsonTablePlanState),
    (List.length (iterator_items iter) <= k)%nat ->
    planstate_wf (PathScanState args found iter cur ordinal nested) = true ->
    Drains scan (PathScanState args found iter cur ordinal nested).
Proof.
  induction k as [|k IHk]; intros args found iter cur ordinal nested Hk Hwf.
  all: cbn [planstate_wf] in Hwf; apply andb_true_iff in Hwf as [Hi Hn].
  all: apply Drains_scan_nested; [|exact Hn].
  all: apply Drains_scan_own; [|exact Hi].
  all: intros iter' cur' ordinal' nested' Hlt Hwf'.
  - lia.
  - apply IHk; [lia | exact Hwf'].
Qed.

End ScanDrains.

(** Every fetch sequence ends: from a state whose iterators are sound, a
    plan returns finitely many rows and then either reports exhaustion or
    raises (the error of a nested row pattern under ERROR ON ERROR). *)
Lemma JsonTablePlanNextRow_drains (plan : JsonTablePlan) :
  forall st : JsonTablePlanState,
    planstate_wf st = true -> Drains plan st.
Proof.
  induction plan as [path errorOnError child IHc | lplan IHl rplan IHr]
    using JsonTablePlan_ind'.
  - intros [args found iter cur ordinal nested | lstate rstate] Hwf.
    + apply Drains_scan with (k := List.length (iterator_items iter));
        [exact IHc | lia | exact Hwf].
    + right. apply FetchRaises_now with (e := ERRCODE_INTERNAL_ERROR).
      reflexivity.
  - intros [args found iter cur ordinal nested | lstate rstate] Hwf.
    + right. apply FetchRaises_now with (e := ERRCODE_INTERNAL_ERROR).
      reflexivity.
    + cbn [planstate_wf] in Hwf. apply andb_true_iff in Hwf as [Hl Hr].
      apply Drains_join.
      * exact (planstate_wf_iterators_ok _ Hl).
      * exact (IHl _ Hl).
      * exact (IHr _ Hr).
Qed.

(** The state [JsonTableInitPlan] builds, and the one [JsonTableSetDocument]
    leaves, have sound iterators: the fetches of a JSON_TABLE call end. *)
Lemma JsonTableInitPlan_wf (plan : JsonTablePlan) (args : list JsonPathVariable) :
  planstate_wf (JsonTableInitPlan plan args) = true.
Proof.
  induction plan as [path errorOnError child IHc | lplan IHl rplan IHr]
    using JsonTablePlan_ind'.
  - cbn. destruct child as [c|]; [exact IHc | reflexivity].
  - cbn. rewrite IHl, IHr. reflexivity.
Qed.

Lemma JsonTableSetDocument_wf (rootplan : JsonTablePlan)
    (st st' : JsonTablePlanState) (value : Jsonb) :
  planstate_wf st = true ->
  JsonTableSetDocument rootplan st value = Done st' ->
  planstate_wf st' = true.
Proof.
  intros Hwf E.
  destruct rootplan as [path errorOnError child|]; [|discriminate E].
  destruct st as [args found iter cur ordinal nested|]; [|discriminate E].
  cbn [JsonTableSetDocument] in E. unfold JsonTableResetRowPattern in E.
  cbn [planstate_wf] in Hwf. apply andb_true_iff in Hwf as [_ Hn].
  match type of E with
  | obind ?m _ = _ => destruct m as [[res fnd]|e]; [|discriminate E]
  end.
  cbn [obind] in E. injection E as <-.
  cbn [planstate_wf]. rewrite JsonValueListInitIterator_ok. exact Hn.
Qed.

(** X30: once a document is set, the fetches from a JSON_TABLE plan end,
    whatever the plan, with nested paths and sibling joins, and whatever the
    document: after finitely many rows a fetch reports exhaustion, or a
    fetch raises. *)
Lemma JsonTableFetchRow_drains (rootplan : JsonTablePlan)
    (args : list JsonPathVariable) (value : Jsonb) (st : JsonTablePlanState) :
  JsonTableSetDocument rootplan (JsonTableInitPlan rootplan args) value = Done st ->
  Drains rootplan st.
Proof.
  intro E. apply JsonTablePlanNextRow_drains.
  exact (JsonTableSetDocument_wf _ _ _ (JsonTableInitPlan_wf rootplan args) E).
Qed.

(** *** The rows of a path scan without nested paths *)

Lemma int32_wrap_small (x : Z) : - 2 ^ 31 <= x < 2 ^ 31 -> int32_wrap x = x.
Proof.
  intro H. unfold int32_wrap.
  change (2 ^ 31) with 2147483648 in *. change (2 ^ 32) with 4294967296.
  rewrite Z.mod_small by lia. lia.
Qed.

Lemma leaf_scan_fetches (path : JsonPath) (errorOnError : bool)
    (args : list JsonPathVariable) (found : JsonValueList)
    (items : list JsonbValue) :
  forall (s : nat) (iter : JsonValueListIterator) (cur : JsonTablePlanRowSource),
    iterator_ok iter = true ->
    iterator_items iter = items ->
    Z.of_nat s + Z.of_nat (List.length items) < 2 ^ 31 ->
    exists (rows : list JsonTablePlanState) (final : JsonTablePlanState),
      Fetches (JsonTablePathScan path errorOnError None)
              (PathScanState args found iter cur (Z.of_nat s) None) rows final
      /\ Forall2 (fun st p => is_row st (fst p) (snd p)) rows
           (List.combine (List.seq (S s) (List.length items)) items)
      /\ row_source final = null_row.
Proof.
  induction items as [|v items IH]; intros s iter cur Hok Hitems Hlen.
  - exists [], (PathScanState args found
                  {| it_value := None; it_list := it_list iter; it_next := [] |}
                  null_row (Z.of_nat s) None).
    split; [|split; [constructor | reflexivity]].
    apply Fetches_exhausted. rewrite JsonTablePlanNextRow_scan.
    unfold scan_nested_phase, scan_own_phase, JsonValueListNext.
    unfold iterator_items, iterator_ok in *.
    destruct (it_value iter); [discriminate Hitems|].
    destruct (it_next iter); [|discriminate Hok].
    destruct (negb (rs_isnull cur)); reflexivity.
  - destruct (JsonValueListNext iter) as [jbv iter'] eqn:En.
    assert (Hv : jbv = Some v /\ iterator_items iter' = items).
    { unfold JsonValueListNext, iterator_items in *.
      destruct (it_value iter) as [x|]; [|discriminate Hitems].
      injection Hitems as -> Hn.
      destruct (it_next iter) as [|w rest]; injection En as <- <-; cbn;
        split; try reflexivity; now rewrite <- Hn. }
    destruct Hv as [-> Hitems'].
    pose proof (JsonValueListNext_ok iter) as Hok'. rewrite En in Hok'.
    cbn [snd] in Hok'.
    assert (Ho : int32_wrap (Z.of_nat s + 1) = Z.of_nat (S s)).
    { rewrite int32_wrap_small; [lia|].
      change (2 ^ 31) with 2147483648 in *. cbn [List.length] in Hlen. lia. }
    destruct (IH (S s) iter'
                {| rs_value := Some (JsonbValueToJsonb (palloc_row (Z.of_nat (S s))) v);
                   rs_isnull := false |} Hok' Hitems')
      as (rows & final & F & R & Hf).
    { cbn [List.length] in Hlen. lia. }
    eexists. exists final. split; [|split; [|exact Hf]].
    + eapply Fetches_row; [|exact F].
      rewrite JsonTablePlanNextRow_scan.
      unfold scan_nested_phase, scan_own_phase. rewrite En, Ho.
      destruct (negb (rs_isnull cur)); reflexivity.
    + cbn [List.length List.seq List.combine]. constructor; [|exact R].
      split; reflexivity.
Qed.

(** X28: A JSON_TABLE with one row pattern and no nested path.  Setting the
    document evaluates the row pattern on it; the fetches that follow return
    one row per item of the sequence found, in order, each holding its item as
    a document of its own and its position, counted from 1, as ordinal; then
    the scan reports exhaustion with no current row.  When the evaluation
    reports an error that is not thrown there is no row at all. *)
Theorem JsonTable_scan_returns_a_row_per_item :
  forall (path : JsonPath) (errorOnError : bool)
         (args : list JsonPathVariable) (value : Jsonb)
         (res : JsonPathExecResult) (fnd : option JsonValueList),
    let plan := JsonTablePathScan path errorOnError None in
    let items := if jperIsError res then []
                 else JsonValueListGetList (found_list fnd) in
    executeJsonPath path (vars_list args) GetJsonPathVar CountJsonPathVars
                    value errorOnError (Some JsonValueListEmpty) true
    = Done (res, fnd) ->
    Z.of_nat (List.length items) < 2 ^ 31 ->
    exists (st : JsonTablePlanState) (rows : list JsonTablePlanState)
           (final : JsonTablePlanState),
      JsonTableSetDocument plan (JsonTableInitPlan plan args) value = Done st
      /\ Fetches plan st rows final
      /\ Forall2 (fun row p => is_row row (fst p) (snd p)) rows
           (List.combine (List.seq 1 (List.length items)) items)
      /\ List.length rows = List.length items
      /\ row_source final = null_row.
Proof.
  intros path errorOnError args value res fnd plan items E Hlen.
  set (found' := if jperIsError res then JsonValueListEmpty else found_list fnd).
  assert (Hitems : iterator_items (JsonValueListInitIterator found') = items).
  { change (JsonValueListItems found' = items).
    rewrite JsonValueListItems_GetList. unfold found', items.
    destruct (jperIsError res); reflexivity. }
  destruct (leaf_scan_fetches path errorOnError args found' (items := items) 0
              (JsonValueListInitIterator found') null_row)
    as (rows & final & F & R & Hf).
  - unfold JsonValueListInitIterator, iterator_ok.
    destruct (jvl_singleton found'); [reflexivity|].
    destruct (jvl_list found'); reflexivity.
  - exact Hitems.
  - cbn [Z.of_nat Z.add]. exact Hlen.
  - exists (PathScanState args found' (JsonValueListInitIterator found')
              null_row 0 None), rows, final.
    split; [|split; [exact F | split; [exact R | split; [|exact Hf]]]].
    + unfold plan. cbn [JsonTableInitPlan JsonTableSetDocument].
      unfold JsonTableResetRowPattern. rewrite E. reflexivity.
    + apply Forall2_length in R. rewrite R, length_combine, length_seq.
      apply Nat.min_id.
Qed.

(** *** Before a document is set *)

(** X27: The state [JsonTableInitPlan] builds holds no rows: whatever the plan,
    with its nested paths and sibling joins, a fetch from it reports
    exhaustion and leaves the state as it is. *)
Theorem JsonTable_initial_state_has_no_rows :
  forall (plan : JsonTablePlan) (args : list JsonPathVariable),
    JsonTablePlanNextRow plan (JsonTableInitPlan plan args)
    = Done (false, JsonTableInitPlan plan args).
Proof.
  intros plan args.
  induction plan as [path errorOnError child IHc | lplan IHl rplan IHr]
    using JsonTablePlan_ind'.
  - cbn [JsonTableInitPlan]. rewrite JsonTablePlanNextRow_scan. reflexivity.
  - cbn [JsonTableInitPlan]. rewrite JsonTablePlanNextRow_join, IHl, IHr.
    reflexivity.
Qed.

(** *** A nested path is joined to its parent row as an outer join *)

Lemma leaf_next_row (path : JsonPath) (errorOnError : bool)
    (args : list JsonPathVariable) (found : JsonValueList)
    (iter : JsonValueListIterator) (cur : JsonTablePlanRowSource)
    (ordinal : Z) :
  JsonTablePlanNextRow (JsonTablePathScan path errorOnError None)
    (PathScanState args found iter cur ordinal None)
  = match JsonValueListNext iter with
    | (None, iter') =>
        Done (false, PathScanState args found iter' null_row ordinal None)
    | (Some row, iter') =>
        Done (true,
              PathScanState args found iter'
                {| rs_value :=
                     Some (JsonbValueToJsonb
                             (palloc_row (int32_wrap (ordinal + 1))) row);
                   rs_isnull := false |}
                (int32_wrap (ordinal + 1)) None)
    end.
Proof.
  rewrite JsonTablePlanNextRow_scan.
  unfold scan_nested_phase, scan_own_phase.
  destruct (negb (rs_isnull cur)), (JsonValueListNext iter) as [[row|] iter'];
    reflexivity.
Qed.

Lemma JsonValueListNext_head (iter : JsonValueListIterator) :
  iterator_ok iter = true ->
  match iterator_items iter with
  | [] => fst (JsonValueListNext iter) = None
          /\ iterator_items (snd (JsonValueListNext iter)) = []
  | v :: rest => fst (JsonValueListNext iter) = Some v
                 /\ iterator_items (snd (JsonValueListNext iter)) = rest
  end.
Proof.
  unfold iterator_ok, iterator_items, JsonValueListNext.
  destruct (it_value iter), (it_next iter); cbn; intro H;
    try discriminate H; split; reflexivity.
Qed.

Lemma child_idle_next_row (path : JsonPath) (errorOnError : bool)
    (args : list JsonPathVariable) (n : JsonTablePlanState) :
  child_idle args n ->
  exists n' : JsonTablePlanState,
    JsonTablePlanNextRow (JsonTablePathScan path errorOnError None) n
    = Done (false, n')
    /\ child_idle args n'
    /\ row_source n' = null_row.
Proof.
  intros (found & iter & cur & ordinal & -> & Hok & Hitems).
  rewrite leaf_next_row.
  pose proof (JsonValueListNext_head iter Hok) as H. rewrite Hitems in H.
  pose proof (JsonValueListNext_ok iter) as Hok'.
  destruct (JsonValueListNext iter) as [jbv iter'].
  cbn [fst snd] in H, Hok'. destruct H as [-> Hitems'].
  eexists. split; [reflexivity|]. split; [|reflexivity].
  exists found, iter', null_row, ordinal. auto.
Qed.

Section NestedScan.

Variables (path cpath : JsonPath) (errorOnError cerrorOnError : bool)
          (args : list JsonPathVariable).

Let child : JsonTablePlan := JsonTablePathScan cpath cerrorOnError None.
Let plan : JsonTablePlan := JsonTablePathScan path errorOnError (Some child).

(** The fetches that return the nested rows left for the current parent
    row. *)
Lemma nested_rows_fetches (found : JsonValueList)
    (iter : JsonValueListIterator) (k : nat) (p : JsonbValue)
    (cfound : JsonValueList) (cs : list JsonbValue) :
  forall (j : nat) (citer : JsonValueListIterator)
         (ccur : JsonTablePlanRowSource),
    iterator_ok citer = true ->
    iterator_items citer = cs ->
    Z.of_nat j + Z.of_nat (List.length cs) < 2 ^ 31 ->
    exists (rows : list JsonTablePlanState) (idle : JsonTablePlanState),
      child_idle args idle
      /\ (forall (rest : list JsonTablePlanState) (final : JsonTablePlanState),
             Fetches plan
               (PathScanState args found iter
                  {| rs_value := Some (row_document k p); rs_isnull := false |}
                  (Z.of_nat k) (Some idle)) rest final ->
             Fetches plan
               (PathScanState args found iter
                  {| rs_value := Some (row_document k p); rs_isnull := false |}
                  (Z.of_nat k)
                  (Some (PathScanState args cfound citer ccur (Z.of_nat j) None)))
               (rows ++ rest) final)
      /\ Forall2 is_joined_row rows
           (map (fun jc => ((k, p), Some jc))
                (List.combine (List.seq (S j) (List.length cs)) cs)).
Proof.
  induction cs as [|c cs IH]; intros j citer ccur Hok Hitems Hlen.
  - exists [], (PathScanState args cfound citer ccur (Z.of_nat j) None).
    split; [|split; [intros rest final F; exact F | constructor]].
    exists cfound, citer, ccur, (Z.of_nat j). auto.
  - pose proof (JsonValueListNext_head citer Hok) as H. rewrite Hitems in H.
    pose proof (JsonValueListNext_ok citer) as Hok'.
    destruct (JsonValueListNext citer) as [jbv citer'] eqn:En.
    cbn [fst snd] in H, Hok'. destruct H as [-> Hitems'].
    assert (Ho : int32_wrap (Z.of_nat j + 1) = Z.of_nat (S j)).
    { rewrite int32_wrap_small; [lia|].
      change (2 ^ 31) with 2147483648 in *. cbn [List.length] in Hlen. lia. }
    destruct (IH (S j) citer'
                {| rs_value := Some (row_document (S j) c); rs_isnull := false |}
                Hok' Hitems')
      as (rows & idle & Hidle & K & R).
    { cbn [List.length] in Hlen. lia. }
    exists (PathScanState args found iter
              {| rs_value := Some (row_document k p); rs_isnull := false |}
              (Z.of_nat k)
              (Some (PathScanState args cfound citer'
                       {| rs_value := Some (row_document (S j) c);
                          rs_isnull := false |}
                       (Z.of_nat (S j)) None))
            :: rows), idle.
    split; [exact Hidle|]. split.
    + intros rest final F. cbn [app]. eapply Fetches_row; [|exact (K _ _ F)].
      unfold plan. rewrite JsonTablePlanNextRow_scan.
      unfold scan_nested_phase. cbn [rs_isnull negb].
      unfold child. rewrite leaf_next_row, En, Ho. reflexivity.
    + cbn [List.length List.seq List.combine map]. constructor; [|exact R].
      split; [split; reflexivity|]. split; reflexivity.
Qed.

(** The rows of the parent items left, each joined with its nested rows. *)
Lemma nested_scan_fetches (found : JsonValueList) (ps : list JsonbValue) :
  forall (s : nat) (iter : JsonValueListIterator)
         (cur : JsonTablePlanRowSource) (n : JsonTablePlanState),
    iterator_ok iter = true ->
    iterator_items iter = ps ->
    child_idle args n ->
    Z.of_nat s + Z.of_nat (List.length ps) < 2 ^ 31 ->
    Forall (fun kp =>
              exists cs : list JsonbValue,
                row_pattern_items cpath cerrorOnError args
                  (row_document (fst kp) (snd kp)) = Some cs
                /\ Z.of_nat (List.length cs) < 2 ^ 31)
           (List.combine (List.seq (S s) (List.length ps)) ps) ->
    exists (rows : list JsonTablePlanState) (final : JsonTablePlanState),
      Fetches plan (PathScanState args found iter cur (Z.of_nat s) (Some n))
              rows final
      /\ Forall2 is_joined_row rows
           (flat_map (outer_join_rows cpath cerrorOnError args)
              (List.combine (List.seq (S s) (List.length ps)) ps))
      /\ row_source final = null_row.
Proof.
  induction ps as [|p ps IH]; intros s iter cur n Hok Hitems Hidle Hlen Hev.
  - assert (N : exists n1 : JsonTablePlanState,
               scan_nested_phase (Some child) cur (Some n)
               = Done (false, Some n1)).
    { unfold scan_nested_phase. destruct (negb (rs_isnull cur)).
      - destruct (child_idle_next_row cpath cerrorOnError Hidle)
          as (n' & E & _ & _).
        fold child in E. rewrite E. eexists. reflexivity.
      - eexists. reflexivity. }
    destruct N as (n1 & N).
    pose proof (JsonValueListNext_head iter Hok) as H. rewrite Hitems in H.
    destruct (JsonValueListNext iter) as [jbv iter'] eqn:En.
    cbn [fst snd] in H. destruct H as [-> _].
    eexists [], _. split; [|split; [constructor|]].
    + apply Fetches_exhausted. unfold plan.
      rewrite JsonTablePlanNextRow_scan, N. unfold scan_own_phase.
      rewrite En. reflexivity.
    + reflexivity.
  - assert (N : exists n1 : JsonTablePlanState,
               scan_nested_phase (Some child) cur (Some n)
               = Done (false, Some n1)
               /\ child_idle args n1).
    { unfold scan_nested_phase. destruct (negb (rs_isnull cur)).
      - destruct (child_idle_next_row cpath cerrorOnError Hidle)
          as (n' & E & Hn' & _).
        fold child in E. rewrite E. eexists. split; [reflexivity | exact Hn'].
      - eexists. split; [reflexivity | exact Hidle]. }
    destruct N as (n1 & N & (cf & ci & cc & co & -> & Hcok & Hcitems)).
    pose proof (JsonValueListNext_head iter Hok) as H. rewrite Hitems in H.
    pose proof (JsonValueListNext_ok iter) as Hok'.
    destruct (JsonValueListNext iter) as [jbv iter'] eqn:En.
    cbn [fst snd] in H, Hok'. destruct H as [-> Hitems'].
    assert (Ho : int32_wrap (Z.of_nat s + 1) = Z.of_nat (S s)).
    { rewrite int32_wrap_small; [lia|].
      change (2 ^ 31) with 2147483648 in *. cbn [List.length] in Hlen. lia. }
    cbn [List.length List.seq List.combine flat_map] in Hev |- *.
    apply Forall_cons_iff in Hev as [(cs & Ecs & Hcs) Hev'].
    cbn [fst snd] in Ecs.
    unfold outer_join_rows at 1. cbn [fst snd]. rewrite Ecs.
    unfold row_pattern_items in Ecs.
    destruct (executeJsonPath cpath (vars_list args) GetJsonPathVar
                CountJsonPathVars (row_document (S s) p) cerrorOnError
                (Some JsonValueListEmpty) true) as [[res fnd]|e] eqn:Ex;
      [|discriminate Ecs].
    injection Ecs as Ecs.
    set (cfound := if jperIsError res then JsonValueListEmpty
                   else found_list fnd).
    assert (Hci : iterator_items (JsonValueListInitIterator cfound) = cs).
    { change (JsonValueListItems cfound = cs).
      rewrite JsonValueListItems_GetList. rewrite <- Ecs. unfold cfound.
      destruct (jperIsError res); reflexivity. }
    assert (Hcio : iterator_ok (JsonValueListInitIterator cfound) = true).
    { unfold JsonValueListInitIterator, iterator_ok.
      destruct (jvl_singleton cfound); [reflexivity|].
      destruct (jvl_list cfound); reflexivity. }
    assert (Reset : JsonTableResetNestedPlan child
                      {| rs_value := Some (row_document (S s) p);
                         rs_isnull := false |}
                      (PathScanState args cf ci cc co None)
                    = Done (PathScanState args cfound
                              (JsonValueListInitIterator cfound) null_row 0
                              None)).
    { unfold child. cbn [JsonTableResetNestedPlan rs_isnull rs_value negb].
      unfold JsonTableResetRowPattern. rewrite Ex. reflexivity. }
    pose proof (JsonValueListNext_head _ Hcio) as Hc. rewrite Hci in Hc.
    pose proof (JsonValueListNext_ok (JsonValueListInitIterator cfound))
      as Hcok'.
    destruct (JsonValueListNext (JsonValueListInitIterator cfound))
      as [cjbv citer'] eqn:Ecn.
    cbn [fst snd] in Hc, Hcok'.
    destruct cs as [|c cs].
    + destruct Hc as [-> Hcitems'].
      destruct (IH (S s) iter'
                  {| rs_value := Some (row_document (S s) p);
                     rs_isnull := false |}
                  (PathScanState args cfound citer' null_row 0 None)
                  Hok' Hitems')
        as (rows & final & F & R & Hf).
      { exists cfound, citer', null_row, 0. auto. }
      { cbn [List.length] in Hlen. lia. }
      { exact Hev'. }
      eexists (_ :: rows), final. split; [|split; [|exact Hf]].
      * eapply Fetches_row; [|exact F].
        unfold plan. rewrite JsonTablePlanNextRow_scan, N.
        unfold scan_own_phase. rewrite En, Ho.
        unfold row_document in Reset. rewrite Reset. cbn [obind].
        unfold child. rewrite leaf_next_row, Ecn. reflexivity.
      * cbn [app]. constructor; [|exact R].
        split; [split; reflexivity | reflexivity].
    + destruct Hc as [-> Hcitems'].
      destruct (nested_rows_fetches found iter' (S s) p cfound (cs := cs) 1
                  citer'
                  {| rs_value := Some (row_document 1 c); rs_isnull := false |}
                  Hcok' Hcitems')
        as (crows & idle & Hidle' & K & CR).
      { cbn [List.length] in Hcs. change (2 ^ 31) with 2147483648 in *. lia. }
      destruct (IH (S s) iter'
                  {| rs_value := Some (row_document (S s) p);
                     rs_isnull := false |}
                  idle Hok' Hitems' Hidle')
        as (rows & final & F & R & Hf).
      { cbn [List.length] in Hlen. lia. }
      { exact Hev'. }
      eexists (_ :: crows ++ rows), final. split; [|split; [|exact Hf]].
      * eapply Fetches_row; [|exact (K _ _ F)].
        unfold plan. rewrite JsonTablePlanNextRow_scan, N.
        unfold scan_own_phase. rewrite En, Ho.
        unfold row_document in Reset. rewrite Reset. cbn [obind].
        unfold child. rewrite leaf_next_row, Ecn.
        change (int32_wrap (0 + 1)) with 1. reflexivity.
      * cbn [List.length List.seq List.combine map app].
        constructor; [|apply Forall2_app; [exact CR | exact R]].
        split; [split; reflexivity | split; reflexivity].
Qed.

End NestedScan.

(** X29: A JSON_TABLE whose row pattern has one nested path.  Every item of the
    row pattern gives at least one row: the nested path is evaluated on the
    item as a document of its own, and the item is returned once with each
    nested item, in order, the nested ordinal starting at 1 again for every
    parent row; when the nested path finds nothing, or reports an error that is
    not thrown, the item is returned once with no nested row.  The parent rows
    come in the order of the row pattern, with their positions as ordinals;
    then the scan reports exhaustion. *)
Theorem JsonTable_nested_path_is_an_outer_join :
  forall (path cpath : JsonPath) (errorOnError cerrorOnError : bool)
         (args : list JsonPathVariable) (value : Jsonb)
         (res : JsonPathExecResult) (fnd : option JsonValueList),
    let plan := JsonTablePathScan path errorOnError
                  (Some (JsonTablePathScan cpath cerrorOnError None)) in
    let items := if jperIsError res then []
                 else JsonValueListGetList (found_list fnd) in
    let parents := List.combine (List.seq 1 (List.length items)) items in
    executeJsonPath path (vars_list args) GetJsonPathVar CountJsonPathVars
                    value errorOnError (Some JsonValueListEmpty) true
    = Done (res, fnd) ->
    Z.of_nat (List.length items) < 2 ^ 31 ->
    Forall (fun kp =>
              exists cs : list JsonbValue,
                row_pattern_items cpath cerrorOnError args
                  (row_document (fst kp) (snd kp)) = Some cs
                /\ Z.of_nat (List.length cs) < 2 ^ 31) parents ->
    exists (st : JsonTablePlanState) (rows : list JsonTablePlanState)
           (final : JsonTablePlanState),
      JsonTableSetDocument plan (JsonTableInitPlan plan args) value = Done st
      /\ Fetches plan st rows final
      /\ Forall2 is_joined_row rows
           (flat_map (outer_join_rows cpath cerrorOnError args) parents)
      /\ (List.length items <= List.length rows)%nat
      /\ row_source final = null_row.
Proof.
  intros path cpath errorOnError cerrorOnError args value res fnd plan items
    parents E Hlen Hev.
  set (found' := if jperIsError res then JsonValueListEmpty else found_list fnd).
  assert (Hitems : iterator_items (JsonValueListInitIterator found') = items).
  { change (JsonValueListItems found' = items).
    rewrite JsonValueListItems_GetList. unfold found', items.
    destruct (jperIsError res); reflexivity. }
  destruct (nested_scan_fetches path cpath errorOnError cerrorOnError
              (args := args) found' (ps := items) 0 (JsonValueListInitIterator found')
              null_row
              (n := JsonTableInitPlan (JsonTablePathScan cpath cerrorOnError None)
                      args))
    as (rows & final & F & R & Hf).
  - unfold JsonValueListInitIterator, iterator_ok.
    destruct (jvl_singleton found'); [reflexivity|].
    destruct (jvl_list found'); reflexivity.
  - exact Hitems.
  - cbn [JsonTableInitPlan]. eexists _, _, _, _. split; [reflexivity|].
    split; reflexivity.
  - cbn [Z.of_nat Z.add]. exact Hlen.
  - exact Hev.
  - eexists _, rows, final.
    split; [|split; [exact F | split; [exact R | split; [|exact Hf]]]].
    + unfold plan. cbn [JsonTableInitPlan JsonTableSetDocument].
      unfold JsonTableResetRowPattern. rewrite E. reflexivity.
    + apply Forall2_length in R. rewrite R. fold parents.
      assert (L : forall l : list (nat * JsonbValue),
                 (List.length l
                  <= List.length
                       (flat_map (outer_join_rows cpath cerrorOnError args) l))%nat).
      { induction l as [|kp l IH]; [apply Nat.le_refl|].
        cbn [flat_map List.length]. rewrite length_app.
        assert (1 <= List.length (outer_join_rows cpath cerrorOnError args kp))%nat
          by (unfold outer_join_rows;
              destruct (row_pattern_items _ _ _ _) as [[|c cs]|];
              cbn [List.length map List.combine List.seq]; lia).
        lia. }
      specialize (L parents). unfold parents in L at 1.
      rewrite length_combine, length_seq, Nat.min_id in L. exact L.
Qed.

End TableLaws.

(** ** The laws on concrete inputs, over the reference host *)

(** The comparators of the reference host meet the contract assumed of the
    host's. *)
Lemma Z_cmp_antisym (a b : Z) : Z_cmp a b = - Z_cmp b a.
Proof.
  unfold Z_cmp. rewrite (Z.compare_antisym b a).
  destruct (b ?= a); reflexivity.
Qed.

Lemma Z_cmp_sign (a b : Z) : -1 <= Z_cmp a b <= 1.
Proof. unfold Z_cmp. destruct (a ?= b); lia. Qed.

Lemma ZHost_datetime_comparators : @DatetimeComparators ZHostTypes ZHostOps.
Proof.
  constructor; intros a b; first [apply Z_cmp_antisym | apply Z_cmp_sign].
Qed.



(** C2, in strict mode: the conjunction of [1 == 2] and [$x == 1], where no
    variable [x] is passed, answers False, although evaluating its right
    operand raises UNDEFINED_OBJECT: the right operand is not evaluated. *)
Lemma C2_counterexample_strict_and_skips_right_operand :
  jsonb_path_query_internal (jdoc JsonbNull) (strict_path pred_false_and_undefined)
                            empty_vars false false
  = Done [JsonbBool false]
  /\ jsonb_path_query_internal (jdoc JsonbNull)
                               (strict_path pred_undefined_variable)
                               empty_vars false false
     = Raised ERRCODE_UNDEFINED_OBJECT
  /\ executeBoolItem pred_false_and_undefined JsonbNull false
                     (example_cxt false true JsonbNull)
     = Done (jpbFalse, example_cxt false true JsonbNull)
  /\ executeBoolItem pred_undefined_variable JsonbNull false
                     (example_cxt false true JsonbNull)
     = Raised ERRCODE_UNDEFINED_OBJECT.
Proof. repeat split; vm_compute; reflexivity. Qed.

(** C3 at [null < 1], [1 != null] and [1 < "1"]. *)
Lemma C3_witness :
  is_comparison jpiLess = true
  /\ jbv_type (JsonbNull : @JsonbValue ZHostTypes) <> jbv_type (jnum 1)
  /\ compareItems jpiLess JsonbNull (jnum 1) false = Done jpbFalse
  /\ compareItems jpiNotEqual (jnum 1) JsonbNull false = Done jpbTrue
  /\ compareItems jpiLess (jnum 1) (JsonbString "1") false = Done jpbUnknown.
Proof.
  split; [reflexivity|]. split; [discriminate|]. split; [|split].
  - apply (C3_compareItems_null_and_mixed_kinds
             (HO := ZHostOps) jpiLess JsonbNull (jnum 1) false);
      [reflexivity | discriminate | left; reflexivity].
  - apply (C3_compareItems_null_and_mixed_kinds
             (HO := ZHostOps) jpiNotEqual (jnum 1) JsonbNull false);
      [reflexivity | discriminate | right; reflexivity].
  - apply (C3_compareItems_null_and_mixed_kinds
             (HO := ZHostOps) jpiLess (jnum 1) (JsonbString "1") false);
      [reflexivity | discriminate | discriminate | discriminate].
Defined.

(** C4 over the reference host, at a timestamp against a date (the result
    negates when the operands are exchanged) and at a date against a time
    (not comparable). *)
Lemma C4_witness :
  @DatetimeComparators ZHostTypes ZHostOps
  /\ compareDatetime (5 : @Datum ZHostTypes) TIMESTAMPOID 7 DATEOID false
     = negate_comparison (compareDatetime 7 DATEOID 5 TIMESTAMPOID false)
  /\ compareDatetime (5 : @Datum ZHostTypes) TIMESTAMPOID 7 DATEOID false
     = Done (-1, false)
  /\ compareItems jpiLess (JsonbDatetime (5 : @Datum ZHostTypes) DATEOID (-1) 0)
                  (JsonbDatetime 7 TIMEOID (-1) 0) true
     = Done jpbUnknown
  /\ compareItems jpiLess (JsonbDatetime (5 : @Datum ZHostTypes) TIMEOID (-1) 0)
                  (JsonbDatetime 7 TIMETZOID (-1) 0) false
     = Raised ERRCODE_FEATURE_NOT_SUPPORTED.
Proof.
  split; [exact ZHost_datetime_comparators|].
  split; [|split; [reflexivity|split]].
  - apply (C4_datetime_ladder ZHost_datetime_comparators
             5 7 TIMESTAMPOID DATEOID false). reflexivity.
  - apply (C4_datetime_ladder ZHost_datetime_comparators
             5 7 DATEOID TIMEOID true). reflexivity.
  - apply (C4_datetime_ladder ZHost_datetime_comparators
             5 7 TIMEOID TIMETZOID false). reflexivity.
Defined.

(** C5 at [$[*] + 1] over [[1, 2, 3]] in lax mode with errors suppressed:
    the left operand is three numerics, and the expression is an error. *)
Lemma C5_witness :
  is_binary_arith jpiAdd = true
  /\ operand_sequence path_elements array_123 (example_cxt true false array_123)
     = Done ((jperOk, Some (items [jnum 1; jnum 2; jnum 3])),
             example_cxt true false array_123)
  /\ operand_sequence (p_num 1) array_123 (example_cxt true false array_123)
     = Done ((jperOk, Some (one_item (jnum 1))), example_cxt true false array_123)
  /\ executeItemOptUnwrapTarget (jspArgs jpiAdd path_elements (p_num 1) None)
       array_123 (Some JsonValueListEmpty) true
       (example_cxt true false array_123)
     = Done ((jperError, Some JsonValueListEmpty),
             example_cxt true false array_123).
Proof.
  split; [reflexivity|].
  split; [vm_compute; reflexivity|].
  split; [vm_compute; reflexivity|].
  apply (@C5_binary_arith_requires_numeric_singletons
           ZHostTypes ZHostOps jpiAdd path_elements (p_num 1) None array_123
           (Some JsonValueListEmpty) true
           (example_cxt true false array_123)
           (example_cxt true false array_123)
           (example_cxt true false array_123)
           jperOk jperOk
           (Some (items [jnum 1; jnum 2; jnum 3]))
           (Some (one_item (jnum 1))));
    vm_compute; reflexivity.
Defined.

(** C8 at two sibling scans holding the rows 1, 2 and the row 3: the join
    returns three rows. *)
Lemma C8_witness :
  iterators_ok (scan_state [jnum 1; jnum 2]) = true
  /\ exists (rows : list JsonTablePlanState) (final : JsonTablePlanState),
      Fetches (JsonTableSiblingJoin scan_elements scan_elements)
              (SiblingJoinState (scan_state [jnum 1; jnum 2])
                                (scan_state [jnum 3]))
              rows final
      /\ List.length rows = 3%nat.
Proof.
  split; [reflexivity|].
  assert (FL : exists lrows lfinal,
             Fetches scan_elements (scan_state [jnum 1; jnum 2]) lrows lfinal
             /\ List.length lrows = 2%nat).
  { eexists. eexists. split.
    - eapply Fetches_row; [vm_compute; reflexivity|].
      eapply Fetches_row; [vm_compute; reflexivity|].
      eapply Fetches_exhausted. vm_compute. reflexivity.
    - reflexivity. }
  assert (FR : exists rrows rfinal,
             Fetches scan_elements (scan_state [jnum 3]) rrows rfinal
             /\ List.length rrows = 1%nat).
  { eexists. eexists. split.
    - eapply Fetches_row; [vm_compute; reflexivity|].
      eapply Fetches_exhausted. vm_compute. reflexivity.
    - reflexivity. }
  destruct FL as (lrows & lfinal & FL & NL).
  destruct FR as (rrows & rfinal & FR & NR).
  destruct (C8_sibling_join_rows_are_left_then_right
              (HO := ZHostOps) (lstate := scan_state [jnum 1; jnum 2])
              eq_refl FL FR) as (J & _ & _).
  eexists. eexists. split; [exact J|].
  rewrite length_app, !length_map, NL, NR. reflexivity.
Defined.

(** C10 at [-$[*]] and [(-$[*]).abs()] over [[1, 2, 3]]: three items, each
    negated, in order; with [.abs()] after the operator each negated item
    goes through it. *)
Lemma C10_witness :
  is_unary_arith jpiMinus = true
  /\ operand_sequence path_elements array_123 (example_cxt true false array_123)
     = Done ((jperOk, Some (items [jnum 1; jnum 2; jnum 3])),
             example_cxt true false array_123)
  /\ executeItemOptUnwrapTarget (jspArg jpiMinus path_elements None) array_123
       (Some JsonValueListEmpty) true (example_cxt true false array_123)
     = Done ((jperOk, Some (items [jnum (-1); jnum (-2); jnum (-3)])),
             example_cxt true false array_123)
  /\ executeItemOptUnwrapTarget
       (jspArg jpiMinus path_elements (Some (jspLeaf jpiAbs [] None)))
       array_123 (Some JsonValueListEmpty) true
       (example_cxt true false array_123)
     = Done ((jperOk, Some (items [jnum 1; jnum 2; jnum 3])),
             example_cxt true false array_123).
Proof.
  split; [reflexivity|].
  split; [vm_compute; reflexivity|].
  destruct (@C10_unary_arith_is_elementwise
              ZHostTypes ZHostOps jpiMinus path_elements array_123 true
              (example_cxt true false array_123)
              (example_cxt true false array_123)
              jperOk
              (Some (items [jnum 1; jnum 2; jnum 3]))
              eq_refl ltac:(vm_compute; reflexivity) eq_refl)
    as (Hrest & _ & Hend & _ & _).
  split.
  - exact (Hend JsonValueListEmpty [1; 2; 3] eq_refl).
  - rewrite (Hrest (Some (jspLeaf jpiAbs [] None)) (Some JsonValueListEmpty)
               [1; 2; 3] eq_refl eq_refl).
    vm_compute. reflexivity.
Defined.

(** ** Further laws on concrete inputs *)

(** The byte order at ["a"], ["ab"] and ["b"]. *)
Lemma binaryCompareStrings_witness :
  binaryCompareStrings "a" "ab" < 0
  /\ binaryCompareStrings "ab" "b" < 0
  /\ binaryCompareStrings "a" "b" < 0.
Proof.
  destruct binaryCompareStrings_is_a_total_order
    as (_ & _ & Htrans & Hprefix & Hdiff).
  assert (H1 : binaryCompareStrings "a" "ab" < 0)
    by exact (Hprefix "a" (Ascii.ascii_of_nat 98) "").
  assert (H2 : binaryCompareStrings "ab" "b" < 0)
    by exact (Hdiff "" (Ascii.ascii_of_nat 97) (Ascii.ascii_of_nat 98) "b" "" eq_refl).
  split; [exact H1 | split; [exact H2 | exact (Htrans "a" "ab" "b" H1 H2)]].
Defined.

(** The member accessor [.a] applied to the number 1 in strict mode, errors
    not thrown: the structural error is returned. *)
Lemma member_accessor_witness :
  JsonbType (jnum 1) <> jbvObject
  /\ executeItemOptUnwrapTarget (jspValue jpiKey (JspString "a") None) (jnum 1)
       (Some JsonValueListEmpty) false (example_cxt false false (jnum 1))
     = Done ((jperError, Some JsonValueListEmpty),
             example_cxt false false (jnum 1)).
Proof.
  assert (H : JsonbType (jnum 1) <> jbvObject) by discriminate.
  split; [exact H|].
  exact (proj2 (proj2 (member_accessor (HO := ZHostOps) "a" None
                         (Some JsonValueListEmpty)
                         (example_cxt false false (jnum 1))))
           false (jnum 1) H (or_introl eq_refl)).
Defined.

(** [[*]] applied to the number 1: the number itself in lax mode. *)
Lemma wildcard_array_accessor_witness :
  JsonbType (jnum 1) <> jbvArray
  /\ executeItemOptUnwrapTarget (jspLeaf jpiAnyArray [] None) (jnum 1)
       (Some JsonValueListEmpty) false (example_cxt true false (jnum 1))
     = Done ((jperOk, Some (one_item (jnum 1))),
             example_cxt true false (jnum 1)).
Proof.
  assert (H : JsonbType (jnum 1) <> jbvArray) by discriminate.
  split; [exact H|].
  exact (proj2 (wildcard_array_accessor (HO := ZHostOps) [] None
                  (Some JsonValueListEmpty) false
                  (example_cxt true false (jnum 1)))
           (jnum 1) H).
Defined.

(** [.*] applied to the number 1 in strict mode, errors thrown. *)
Lemma wildcard_member_accessor_witness :
  JsonbType (jnum 1) <> jbvObject
  /\ executeItemOptUnwrapTarget (jspLeaf jpiAnyKey [] None) (jnum 1)
       (Some JsonValueListEmpty) false (example_cxt false true (jnum 1))
     = Raised ERRCODE_SQL_JSON_OBJECT_NOT_FOUND.
Proof.
  assert (H : JsonbType (jnum 1) <> jbvObject) by discriminate.
  split; [exact H|].
  exact (proj2 (proj2 (wildcard_member_accessor (HO := ZHostOps) [] None
                         (Some JsonValueListEmpty)
                         (example_cxt false true (jnum 1))))
           false (jnum 1) H (or_introl eq_refl)).
Defined.

(** [[1 to 5]] over [[1, 2, 3]] in lax mode selects 2 and 3; in strict mode
    the range is out of bounds. *)
Lemma array_accessor_witness :
  executeItemOptUnwrapTarget (jspArray [(p_num 1, Some (p_num 5))] None)
    array_123 (Some JsonValueListEmpty) false (example_cxt true false array_123)
  = Done ((jperOk, Some (items [jnum 2; jnum 3])),
          example_cxt true false array_123)
  /\ executeItemOptUnwrapTarget (jspArray [(p_num 1, Some (p_num 5))] None)
       array_123 (Some JsonValueListEmpty) false
       (example_cxt false true array_123)
     = Raised ERRCODE_INVALID_SQL_JSON_SUBSCRIPT.
Proof.
  split.
  - exact (@array_accessor_selects_the_clamped_range ZHostTypes ZHostOps
             (p_num 1) (Some (p_num 5)) array_123 JsonValueListEmpty false
             (example_cxt true false array_123) 1 1 5
             (or_introl eq_refl) eq_refl eq_refl eq_refl).
  - exact (@array_accessor_selects_the_clamped_range ZHostTypes ZHostOps
             (p_num 1) (Some (p_num 5)) array_123 JsonValueListEmpty false
             (example_cxt false true array_123) 1 1 5
             (or_introl eq_refl) eq_refl eq_refl eq_refl).
Defined.

(** A subscript applied to the number 1 in strict mode; the subscript
    2147483648 in lax mode; and [last] with no array around. *)
Lemma array_accessor_failures_witness :
  executeItemOptUnwrapTarget (jspArray [(p_num 0, None)] None) (jnum 1)
    (Some JsonValueListEmpty) false (example_cxt false true (jnum 1))
  = Raised ERRCODE_SQL_JSON_ARRAY_NOT_FOUND
  /\ executeItemOptUnwrapTarget (jspArray [(p_num 2147483648, None)] None)
       array_123 (Some JsonValueListEmpty) false
       (example_cxt true false array_123)
     = Done ((jperError, Some JsonValueListEmpty),
             example_cxt true false array_123)
  /\ executeItemOptUnwrapTarget (jspLeaf jpiLast [] None) array_123
       (Some JsonValueListEmpty) false (example_cxt true false array_123)
     = Raised ERRCODE_INTERNAL_ERROR.
Proof.
  split; [|split].
  - assert (H : JsonbType (jnum 1) <> jbvArray) by discriminate.
    exact (proj1 (array_accessor_failures (HO := ZHostOps)
                    [(p_num 0, None)] None (jnum 1)
                    (Some JsonValueListEmpty) false
                    (example_cxt false true (jnum 1)))
             H eq_refl).
  - exact (proj1 (proj2 (array_accessor_failures (HO := ZHostOps)
                           [] None array_123 (Some JsonValueListEmpty) false
                           (example_cxt true false array_123)))
             (p_num 2147483648) None 2147483648
             (or_introl eq_refl) eq_refl eq_refl).
  - exact (proj2 (proj2 (array_accessor_failures (HO := ZHostOps)
                           [] None array_123 (Some JsonValueListEmpty) false
                           (example_cxt true false array_123)))
             [] eq_refl).
Defined.

(** [.size()] of the number 1: 1 in lax mode, an error in strict mode. *)
Lemma size_method_witness :
  JsonbArraySize (jnum 1) = -1
  /\ executeItemOptUnwrapTarget (jspLeaf jpiSize [] None) (jnum 1)
       (Some JsonValueListEmpty) false (example_cxt true false (jnum 1))
     = Done ((jperOk, Some (one_item (jnum 1))), example_cxt true false (jnum 1))
  /\ executeItemOptUnwrapTarget (jspLeaf jpiSize [] None) (jnum 1)
       (Some JsonValueListEmpty) false (example_cxt false true (jnum 1))
     = Raised ERRCODE_SQL_JSON_ARRAY_NOT_FOUND.
Proof.
  split; [reflexivity|]. split.
  - exact (proj1 (proj2 (size_method (HO := ZHostOps) [] None
                           (Some JsonValueListEmpty) false
                           (example_cxt true false (jnum 1))))
             (jnum 1) eq_refl).
  - exact (proj1 (proj2 (size_method (HO := ZHostOps) [] None
                           (Some JsonValueListEmpty) false
                           (example_cxt false true (jnum 1))))
             (jnum 1) eq_refl).
Defined.

(** The filter [?(1 == 2)] drops the number 1. *)
Lemma filter_witness :
  executeItemOptUnwrapTarget (jspArg jpiFilter pred_one_is_two None) (jnum 1)
    (Some JsonValueListEmpty) false (example_cxt true false (jnum 1))
  = Done ((jperNotFound, Some JsonValueListEmpty),
          example_cxt true false (jnum 1)).
Proof.
  exact (proj1 (filter_passes_the_item_when_true (HO := ZHostOps)
                  pred_one_is_two None (Some JsonValueListEmpty)
                  (example_cxt true false (jnum 1)))
           (jnum 1) false (or_introl eq_refl)).
Defined.

(** [$[*] > 2] over [[1, 2, 3]]: True in lax mode and in strict mode. *)
Lemma predicate_witness :
  executeBoolItem (jspArgs jpiGreater path_elements (p_num 2) None) array_123
    true (example_cxt true false array_123)
  = Done (jpbTrue, example_cxt true false array_123)
  /\ executePredicate (executeItem executeItemOptUnwrapTarget path_elements)
       (Some (executeItem executeItemOptUnwrapTarget (p_num 2))) array_123 true
       (executeComparison jpiGreater false) (example_cxt false false array_123)
     = Done (jpbTrue, example_cxt false false array_123).
Proof.
  assert (Hpure : forall (l : @JsonbValue ZHostTypes) (r : option JsonbValue),
             List.In r (right_values (Some [jnum 2])) ->
             executeComparison jpiGreater false l r
             = Done match executeComparison jpiGreater false l r with
                    | Done b => b
                    | Raised _ => jpbUnknown
                    end).
  { intros l r [<- | []]. destruct l; reflexivity. }
  split.
  - exact (proj2 (proj2 (@predicate_existence_semantics ZHostTypes
             (executeItem executeItemOptUnwrapTarget path_elements)
             (Some (executeItem executeItemOptUnwrapTarget (p_num 2)))
             array_123 true (executeComparison jpiGreater false)
             (example_cxt true false array_123)
             (example_cxt true false array_123) jperOk
             (Some (items [jnum 1; jnum 2; jnum 3])) eq_refl)
             (example_cxt true false array_123) jperOk
             (Some (one_item (jnum 2))) eq_refl eq_refl)
             (fun l r => match executeComparison jpiGreater false l r with
                         | Done b => b
                         | Raised _ => jpbUnknown
                         end)
             eq_refl Hpure).
  - exact (proj2 (proj2 (@predicate_existence_semantics ZHostTypes
             (executeItem executeItemOptUnwrapTarget path_elements)
             (Some (executeItem executeItemOptUnwrapTarget (p_num 2)))
             array_123 true (executeComparison jpiGreater false)
             (example_cxt false false array_123)
             (example_cxt false false array_123) jperNotFound
             (Some (items [jnum 1; jnum 2; jnum 3])) eq_refl)
             (example_cxt false false array_123) jperOk
             (Some (one_item (jnum 2))) eq_refl eq_refl)
             (fun l r => match executeComparison jpiGreater false l r with
                         | Done b => b
                         | Raised _ => jpbUnknown
                         end)
             eq_refl Hpure).
Defined.

(** [$[*]] over [[[[1], 2], 3]] with lax result-unwrapping: the inner array
    [[1]] stays an array. *)
Lemma lax_unwrapping_witness :
  executeItemOptUnwrapResult
    (executeItem executeItemOptUnwrapTarget path_elements) array_nested true
    (Some JsonValueListEmpty) (example_cxt true false array_nested)
  = Done ((jperOk, Some (items [jarr 16 [jnum 1]; jnum 2; jnum 3])),
          example_cxt true false array_nested).
Proof.
  exact (proj1 (lax_unwrapping_is_one_level_deep
                  (executeItem executeItemOptUnwrapTarget path_elements)
                  array_nested JsonValueListEmpty
                  (example_cxt true false array_nested))
           eq_refl).
Defined.

(** [1 / 0]: the host's division by zero is returned as an error when errors
    are not thrown, and thrown otherwise. *)
Lemma binary_arith_witness :
  executeItemOptUnwrapTarget one_by_zero (jnum 7) (Some JsonValueListEmpty)
    false (example_cxt true false (jnum 7))
  = Done ((jperError, Some JsonValueListEmpty), example_cxt true false (jnum 7))
  /\ executeItemOptUnwrapTarget one_by_zero (jnum 7) (Some JsonValueListEmpty)
       false (example_cxt true true (jnum 7))
     = Raised ERRCODE_DIVISION_BY_ZERO.
Proof.
  split.
  - exact (proj2 (@binary_arith_on_numeric_singletons ZHostTypes ZHostOps
                    jpiDiv (p_num 1) (p_num 0) None (jnum 7)
                    (Some JsonValueListEmpty) false
                    (example_cxt true false (jnum 7))
                    (example_cxt true false (jnum 7)) jperOk
                    (Some (one_item (jnum 1))) eq_refl eq_refl)
             (example_cxt true false (jnum 7)) jperOk
             (Some (one_item (jnum 0))) 1 0 eq_refl eq_refl eq_refl eq_refl
             eq_refl).
  - exact (proj2 (@binary_arith_on_numeric_singletons ZHostTypes ZHostOps
                    jpiDiv (p_num 1) (p_num 0) None (jnum 7)
                    (Some JsonValueListEmpty) false
                    (example_cxt true true (jnum 7))
                    (example_cxt true true (jnum 7)) jperOk
                    (Some (one_item (jnum 1))) eq_refl eq_refl)
             (example_cxt true true (jnum 7)) jperOk
             (Some (one_item (jnum 0))) 1 0 eq_refl eq_refl eq_refl eq_refl
             eq_refl).
Defined.

(** [.abs()] of -3 is 3; of a string it is an error. *)
Lemma numeric_item_methods_witness :
  executeItemOptUnwrapTarget (jspLeaf jpiAbs [] None) (jnum (-3))
    (Some JsonValueListEmpty) true (example_cxt true false (jnum (-3)))
  = Done ((jperOk, Some (one_item (jnum 3))), example_cxt true false (jnum (-3)))
  /\ executeItemOptUnwrapTarget (jspLeaf jpiAbs [] None) (JsonbString "3")
       (Some JsonValueListEmpty) true
       (example_cxt true true (JsonbString "3"))
     = Raised ERRCODE_NON_NUMERIC_SQL_JSON_ITEM.
Proof.
  split.
  - exact (proj1 (@numeric_item_methods ZHostTypes ZHostOps jpiAbs [] None
                    (Some JsonValueListEmpty)
                    (example_cxt true false (jnum (-3))) eq_refl)
             (-3) true).
  - assert (H : jbv_type (JsonbString "3" : @JsonbValue ZHostTypes) <> jbvNumeric)
      by discriminate.
    assert (H' : JsonbType (JsonbString "3" : @JsonbValue ZHostTypes) <> jbvArray)
      by discriminate.
    exact (proj2 (proj2 (@numeric_item_methods ZHostTypes ZHostOps jpiAbs []
                           None (Some JsonValueListEmpty)
                           (example_cxt true true (JsonbString "3")) eq_refl))
             (JsonbString "3") true H (or_intror H')).
Defined.

(** [.date()] and [.keyvalue()] of the number 1, in lax mode, errors
    thrown. *)
Lemma item_methods_reject_witness :
  executeItemOptUnwrapTarget (jspLeaf jpiDate [] None) (jnum 1)
    (Some JsonValueListEmpty) true (example_cxt true true (jnum 1))
  = Raised ERRCODE_INVALID_ARGUMENT_FOR_SQL_JSON_DATETIME_FUNCTION
  /\ executeItemOptUnwrapTarget (jspLeaf jpiKeyValue [] None) (jnum 1)
       (Some JsonValueListEmpty) true (example_cxt true true (jnum 1))
     = Raised ERRCODE_SQL_JSON_OBJECT_NOT_FOUND.
Proof.
  assert (Harr : JsonbType (jnum 1) <> jbvArray) by discriminate.
  assert (Hstr : jbv_type (jnum 1) <> jbvString) by discriminate.
  assert (Hobj : JsonbType (jnum 1) <> jbvObject) by discriminate.
  pose proof (@item_methods_reject_other_kinds ZHostTypes ZHostOps [] None
                (jnum 1) (Some JsonValueListEmpty) true
                (example_cxt true true (jnum 1)) (or_intror Harr))
    as (Hdate & Hkv & _).
  split.
  - exact (Hdate jpiDate eq_refl Hstr).
  - exact (Hkv Hobj).
Defined.

(** [$x] with no variable [x]: raised although [silent] is set; and
    variables that are not an object. *)
Lemma path_variables_witness :
  jsonb_path_query_internal (jdoc (jnum 1)) (lax_path path_variable_x)
    empty_vars true false
  = Raised ERRCODE_UNDEFINED_OBJECT
  /\ jsonb_path_exists_internal (jdoc (jnum 1)) (lax_path path_variable_x)
       (Some (doc_two_members, true)) false
     = Raised ERRCODE_UNDEFINED_OBJECT
  /\ jsonb_path_query_internal (jdoc (jnum 1)) (lax_path (p_num 1))
       (jdoc array_123) true false
     = Raised ERRCODE_INVALID_PARAMETER_VALUE.
Proof.
  split; [|split].
  - exact (proj1 (proj2 (path_variables_from_jsonb (HO := ZHostOps)
                           (jdoc (jnum 1)) empty_vars true false)
                    true "x" eq_refl)).
  - exact (proj1 (proj2 (proj2 (path_variables_from_jsonb (HO := ZHostOps)
                                  (jdoc (jnum 1)) doc_two_members true false)
                           true "x" eq_refl))).
  - exact (proj1 (proj1 (path_variables_from_jsonb (HO := ZHostOps)
                           (jdoc (jnum 1)) (jdoc array_123) true false)
                    (lax_path (p_num 1)) eq_refl)).
Defined.

(** A JSON_TABLE over [[1, 2, 3]] with the row pattern [lax $[*]]: three
    rows, and every fetch sequence from the state set ends. *)
Lemma JsonTable_scan_witness :
  exists (st : JsonTablePlanState) (rows : list JsonTablePlanState)
         (final : JsonTablePlanState),
    JsonTableSetDocument scan_elements (JsonTableInitPlan scan_elements [])
      (jdoc array_123) = Done st
    /\ Fetches scan_elements st rows final
    /\ Forall2 (fun row p => is_row row (fst p) (snd p)) rows
         [(1%nat, jnum 1); (2%nat, jnum 2); (3%nat, jnum 3)]
    /\ List.length rows = 3%nat
    /\ row_source final = null_row.
Proof.
  exact (@JsonTable_scan_returns_a_row_per_item ZHostTypes ZHostOps
           (lax_path path_elements) false [] (jdoc array_123) jperNotFound
           (Some (items [jnum 1; jnum 2; jnum 3])) eq_refl eq_refl).
Defined.

Lemma JsonTableFetchRow_drains_witness :
  JsonTableSetDocument scan_elements (JsonTableInitPlan scan_elements [])
    (jdoc array_123)
  = Done (scan_state [jnum 1; jnum 2; jnum 3])
  /\ Drains scan_elements (scan_state [jnum 1; jnum 2; jnum 3]).
Proof.
  split; [reflexivity|].
  exact (@JsonTableFetchRow_drains ZHostTypes ZHostOps scan_elements []
           (jdoc array_123) (scan_state [jnum 1; jnum 2; jnum 3]) eq_refl).
Defined.

(** A time against a time with time zone, the timezone not to be used: the
    comparison raises, and the error is FEATURE_NOT_SUPPORTED. *)
Lemma compareItems_raises_witness :
  compareItems jpiLess (JsonbDatetime (5 : @Datum ZHostTypes) TIMEOID (-1) 0)
               (JsonbDatetime 7 TIMETZOID (-1) 0) false
  = Raised ERRCODE_FEATURE_NOT_SUPPORTED
  /\ ERRCODE_FEATURE_NOT_SUPPORTED = ERRCODE_FEATURE_NOT_SUPPORTED
  /\ false = false
  /\ exists (v1 v2 : @Datum ZHostTypes) (t1 t2 : Oid) (m1 z1 m2 z2 : Z),
      JsonbDatetime (5 : @Datum ZHostTypes) TIMEOID (-1) 0
      = JsonbDatetime v1 t1 m1 z1
      /\ JsonbDatetime (7 : @Datum ZHostTypes) TIMETZOID (-1) 0
         = JsonbDatetime v2 t2 m2 z2
      /\ datetime_requires_tz t1 t2 = true.
Proof.
  split; [reflexivity|].
  exact (@compareItems_raises_only_for_timezones ZHostTypes ZHostOps jpiLess
           (JsonbDatetime 5 TIMEOID (-1) 0) (JsonbDatetime 7 TIMETZOID (-1) 0)
           false ERRCODE_FEATURE_NOT_SUPPORTED eq_refl eq_refl).
Defined.

(** Two variables named "x" after one named "y": the second of the three
    answers for "x", with 2 as its id; no variable is named "z". *)
Lemma passing_variables_witness :
  GetJsonPathVar (HO := ZHostOps)
    [ {| name := "y"; var_typid := 0; var_typmod := -1; var_value := 1;
         isnull := false |};
      {| name := "x"; var_typid := 0; var_typmod := -1; var_value := 2;
         isnull := false |};
      {| name := "x"; var_typid := 0; var_typmod := -1; var_value := 3;
         isnull := true |} ] "x"
  = Done (Some (JsonbNumeric 2, JsonbNumeric 2, 2))
  /\ GetJsonPathVar (HO := ZHostOps)
       [ {| name := "y"; var_typid := 0; var_typmod := -1; var_value := 1;
            isnull := false |} ] "z"
     = Done None.
Proof.
  split.
  - refine (proj1 (proj2 (@passing_variables_first_binding_wins ZHostTypes
                            ZHostOps _ "x")
                     [ {| name := "y"; var_typid := 0; var_typmod := -1;
                          var_value := 1; isnull := false |} ]
                     [ {| name := "x"; var_typid := 0; var_typmod := -1;
                          var_value := 3; isnull := true |} ]
                     {| name := "x"; var_typid := 0; var_typmod := -1;
                        var_value := 2; isnull := false |}
                     eq_refl _ eq_refl)).
    repeat constructor. cbn [name]. discriminate.
  - refine (proj1 (@passing_variables_first_binding_wins ZHostTypes ZHostOps
                     _ "z") _).
    repeat constructor. cbn [name]. discriminate.
Defined.

(** [.keyvalue()] on [{"a": 1, "b": "x"}]: two pairs, holding the members. *)
Lemma keyvalue_pairs_witness :
  exists (fl' : JsonValueList) (pairs : list JsonbValue)
         (cxt' : JsonPathExecContext),
    executeItemOptUnwrapTarget (HO := ZHostOps)
      (jspLeaf jpiKeyValue [] None)
      (JsonbBinary (JsonbContainerC JB_FOBJECT 0 ["a"; "b"]
                      [JsonbNumeric 1; JsonbString "x"]))
      (Some (items [])) false (example_cxt true false JsonbNull)
    = Done ((jperOk, Some fl'), cxt')
    /\ JsonValueListGetList fl' = JsonValueListGetList (items []) ++ pairs
    /\ Forall2 (fun pair kv =>
                  emitted_member "key" pair = Some (JsonbString (fst kv))
                  /\ exists delta : Z,
                      emitted_member "value" pair
                      = Some (relocate delta (snd kv)))
               pairs
               (List.combine ["a"; "b"] [JsonbNumeric 1; JsonbString "x"])
    /\ lastGeneratedObjectId cxt'
       = Nat.iter 2 (fun n => int32_wrap (n + 1))
           (lastGeneratedObjectId (example_cxt true false JsonbNull))
    /\ baseObject cxt' = baseObject (example_cxt true false JsonbNull).
Proof.
  exact (@keyvalue_pairs_hold_the_members ZHostTypes ZHostOps [] 0
           ["a"; "b"] [JsonbNumeric 1; JsonbString "x"] (items []) false
           (example_cxt true false JsonbNull) eq_refl).
Defined.

(** [.**{1 to 2}] on [[[[1], 2], 3]]: the two levels below the array, a
    container before its content; the number 1, at depth 3, is left out. *)
Lemma recursive_wildcard_witness :
  exists fl' : JsonValueList,
    executeItemOptUnwrapTarget (HO := ZHostOps) (jspAnyBounds 1 2 None)
      array_nested (Some (items [])) false (example_cxt true false array_nested)
    = Done ((jperNotFound, Some fl'), example_cxt true false array_nested)
    /\ JsonValueListGetList fl'
       = [jarr 8 [jarr 16 [jnum 1]; jnum 2]; jarr 16 [jnum 1]; jnum 2; jnum 3].
Proof.
  apply (@recursive_wildcard_accessor ZHostTypes ZHostOps 1 2 array_nested
           (items []) false (example_cxt true false array_nested)).
  unfold PG_UINT32_MAX. lia.
Defined.

(** A JSON_TABLE over [[[1, 2], [], [3]]] with the row pattern [lax $[*]] and
    the nested path [lax $[*]]: four rows, the empty array once with no
    nested row. *)
Lemma JsonTable_nested_path_witness :
  exists (st : JsonTablePlanState) (rows : list JsonTablePlanState)
         (final : JsonTablePlanState),
    JsonTableSetDocument scan_nested_elements
      (JsonTableInitPlan scan_nested_elements []) (jdoc array_of_arrays)
    = Done st
    /\ Fetches scan_nested_elements st rows final
    /\ Forall2 is_joined_row rows
         [ (1%nat, jarr 8 [jnum 1; jnum 2], Some (1%nat, jnum 1));
           (1%nat, jarr 8 [jnum 1; jnum 2], Some (2%nat, jnum 2));
           (2%nat, jarr 16 [], None);
           (3%nat, jarr 24 [jnum 3], Some (1%nat, jnum 3)) ]
    /\ (3 <= List.length rows)%nat
    /\ row_source final = null_row.
Proof.
  apply (@JsonTable_nested_path_is_an_outer_join ZHostTypes ZHostOps
           (lax_path path_elements) (lax_path path_elements) false false []
           (jdoc array_of_arrays) jperNotFound
           (Some (items [jarr 8 [jnum 1; jnum 2]; jarr 16 [];
                         jarr 24 [jnum 3]]))).
  - reflexivity.
  - vm_compute. reflexivity.
  - repeat constructor; eexists; (split; [vm_compute; reflexivity|]);
      vm_compute; reflexivity.
Defined.
